(** * DPVS: the on-chain prescription registry and its verification front end

    A shallow embedding of the three Solidity contracts
    ([DoctorRegistry], [PharmacyRegistry], [PrescriptionRegistry]) and of the
    verdict computed by the pharmacy dashboard ([handleVerify]), followed by
    the properties of the prescription ledger.

    Modelling conventions.
    - [address], [bytes32] and [uint256] are natural numbers in [N].  The
      contracts only compare such values (no arithmetic is performed on
      them), so no wrap-around occurs anywhere in the modelled code.
    - A Solidity [mapping] is a finite map read through [mget], which
      returns the type's zero value at a key that was never written.
    - A [require] that fails reverts the call: a function returns
      [Revert e] and the transaction leaves the world as it was ([exec]).
    - [emit] appends to the log of the world; a reverted call logs nothing.
    - A JavaScript string is the list of its UTF-16 code units; a [bytes32]
      that crosses into the front end is the lower-case hex text ethers
      returns for it, and a hex text passed to a contract is its value. *)

From Stdlib Require Import NArith String List Bool Lia.
From stdpp Require Import base option list gmap.
Import ListNotations.

Local Open Scope string_scope.
Local Open Scope list_scope.
Local Open Scope N_scope.

(** ** Solidity value types *)

Abbreviation address := N.
Abbreviation bytes32 := N.
Abbreviation uint256 := N.

(** [address(0)] *)
Definition address0 : address := 0.

(** [bytes(s).length > 0] *)
Definition nonempty (s : string) : bool := (0 <? String.length s)%nat.

(** The zero value every storage slot holds before it is written. *)
Class SolDefault (V : Type) := sol_default : V.

Global Instance bool_default : SolDefault bool := false.
Global Instance string_default : SolDefault string := EmptyString.
Global Instance list_default {A} : SolDefault (list A) := [].

(** [m[k]] on a mapping. *)
Definition mget {V} `{SolDefault V} (m : gmap N V) (k : N) : V :=
  default sol_default (m !! k).

(** ** Call context and revert reasons *)

Record Env := mkEnv {
  msg_sender : address;
  block_timestamp : uint256
}.

(** One constructor per [require] message of the three contracts (and the
    two checks of the [Ownable] that [DoctorRegistry] inherits). *)
Inductive Error :=
| DoctorAlreadyActive        (* "Doctor already registered and active" *)
| DoctorNotActive            (* "Doctor is not active" *)
| CallerNotOwner             (* onlyOwner of DoctorRegistry *)
| InvalidOwner               (* Ownable: the new owner is address(0) *)
| InvalidPharmacyAddress     (* "PharmacyRegistry: Invalid address" *)
| EmptyPharmacyName          (* "PharmacyRegistry: Pharmacy name cannot be empty" *)
| PharmacyAlreadyRegistered  (* "PharmacyRegistry: Pharmacy already registered" *)
| PharmacyNotRegistered      (* "PharmacyRegistry: Pharmacy not registered" *)
| NotVerifiedDoctor          (* "PrescriptionRegistry: Not a verified doctor" *)
| InvalidExpiryDate          (* "PrescriptionRegistry: Invalid expiry date" *)
| ContentHashExists          (* "PrescriptionRegistry: Prescription with this content hash already exists." *)
| NotVerifiedPharmacy        (* "PrescriptionRegistry: Not a verified pharmacy" *)
| PrescriptionDoesNotExist   (* "PrescriptionRegistry: Prescription does not exist" *)
| PrescriptionExpired        (* "PrescriptionRegistry: Prescription expired" *)
| PharmacyAlreadyFulfilled   (* "PrescriptionRegistry: This pharmacy has already fulfilled this prescription." *)
| PharmacyNameNotFound.      (* "PrescriptionRegistry: Pharmacy name not found." *)

(** The error kinds of the design document. *)
Inductive ErrorKind :=
| Unauthorized
| InvalidExpiry
| DuplicateRecord
| NotFound
| Expired
| AlreadyFulfilledByParty.

(** Which kind each revert of [PrescriptionRegistry] stands for; the
    reverts of the two role registries have no counterpart there. *)
Definition error_kind (e : Error) : option ErrorKind :=
  match e with
  | NotVerifiedDoctor => Some Unauthorized
  | NotVerifiedPharmacy => Some Unauthorized
  | InvalidExpiryDate => Some InvalidExpiry
  | ContentHashExists => Some DuplicateRecord
  | PrescriptionDoesNotExist => Some NotFound
  | PrescriptionExpired => Some Expired
  | PharmacyAlreadyFulfilled => Some AlreadyFulfilledByParty
  | _ => None
  end.

Inductive Result (A : Type) :=
| Ok (a : A)
| Revert (e : Error).
Arguments Ok {A} a.
Arguments Revert {A} e.

(** Sequencing stops at the first revert; stdpp's notations [x ← r; k] and
    [r ;; k] are used for it. *)
Global Instance Result_bind : MBind Result := fun A B k r =>
  match r with
  | Ok a => k a
  | Revert e => Revert e
  end.

Global Instance Result_ret : MRet Result := fun A a => Ok a.

Definition require (cond : bool) (e : Error) : Result unit :=
  if cond then Ok tt else Revert e.

(** [r] is a revert whose reason has kind [k]. *)
Definition fails_with {A} (r : Result A) (k : ErrorKind) : Prop :=
  match r with
  | Ok _ => False
  | Revert e => error_kind e = Some k
  end.

(** ** DoctorRegistry.sol *)

Module DoctorRegistry.

Record Doctor := mkDoctor {
  name : string;
  licenseNumber : string;
  specialization : string;
  isActive : bool;
  registeredAt : uint256
}.

Global Instance Doctor_default : SolDefault Doctor :=
  mkDoctor EmptyString EmptyString EmptyString false 0.

(** [owner] is the storage slot of the inherited [Ownable]. *)
Record State := mkState {
  owner : address;
  doctors : gmap N Doctor;
  verified : gmap N bool        (* mapping isVerifiedDoctor *)
}.

Inductive Event :=
| DoctorRegistered (doctorAddress : address) (name licenseNumber : string)
| DoctorDeactivated (doctorAddress : address)
| OwnershipTransferred (previousOwner newOwner : address).

Definition constructor (initialOwner : address) : State :=
  mkState initialOwner ∅ ∅.

(** The public getter of [isVerifiedDoctor]. *)
Definition isVerifiedDoctor (s : State) (a : address) : bool :=
  mget (verified s) a.

Definition registerDoctor (e : Env) (s : State)
    (_doctorAddress : address) (_name _licenseNumber _specialization : string)
    : Result (State * list Event) :=
  require (negb (isActive (mget (doctors s) _doctorAddress))) DoctorAlreadyActive ;;
  let d := mkDoctor _name _licenseNumber _specialization true (block_timestamp e) in
  Ok (mkState (owner s)
              (<[_doctorAddress := d]> (doctors s))
              (<[_doctorAddress := true]> (verified s)),
      [DoctorRegistered _doctorAddress _name _licenseNumber]).

Definition deactivateDoctor (e : Env) (s : State) (_doctorAddress : address)
    : Result (State * list Event) :=
  require (msg_sender e =? owner s) CallerNotOwner ;;
  let d := mget (doctors s) _doctorAddress in
  require (isActive d) DoctorNotActive ;;
  Ok (mkState (owner s)
              (<[_doctorAddress :=
                   mkDoctor (name d) (licenseNumber d) (specialization d)
                            false (registeredAt d)]> (doctors s))
              (<[_doctorAddress := false]> (verified s)),
      [DoctorDeactivated _doctorAddress]).

Definition getDoctorDetails (s : State) (_doctorAddress : address) : Doctor :=
  mget (doctors s) _doctorAddress.

(** The two state-changing functions inherited from OpenZeppelin's
    [Ownable] (the library is imported, not part of the repository): the
    owner hands the ownership over, or gives it up. *)
Definition transferOwnership (e : Env) (s : State) (newOwner : address)
    : Result (State * list Event) :=
  require (msg_sender e =? owner s) CallerNotOwner ;;
  require (negb (newOwner =? address0)) InvalidOwner ;;
  Ok (mkState newOwner (doctors s) (verified s),
      [OwnershipTransferred (owner s) newOwner]).

Definition renounceOwnership (e : Env) (s : State) : Result (State * list Event) :=
  require (msg_sender e =? owner s) CallerNotOwner ;;
  Ok (mkState address0 (doctors s) (verified s),
      [OwnershipTransferred (owner s) address0]).

End DoctorRegistry.

(** ** PharmacyRegistry.sol *)

Module PharmacyRegistry.

Record State := mkState {
  owner : address;
  verifiedPharmacies : gmap N string
}.

Inductive Event :=
| PharmacyRegistered (pharmacyAddress : address) (name : string)
| PharmacyRemoved (pharmacyAddress : address).

Definition constructor (e : Env) : State := mkState (msg_sender e) ∅.

Definition registerPharmacy (e : Env) (s : State)
    (_pharmacyAddress : address) (_name : string)
    : Result (State * list Event) :=
  require (negb (_pharmacyAddress =? address0)) InvalidPharmacyAddress ;;
  require (nonempty _name) EmptyPharmacyName ;;
  require (negb (nonempty (mget (verifiedPharmacies s) _pharmacyAddress)))
          PharmacyAlreadyRegistered ;;
  Ok (mkState (owner s) (<[_pharmacyAddress := _name]> (verifiedPharmacies s)),
      [PharmacyRegistered _pharmacyAddress _name]).

Definition removePharmacy (e : Env) (s : State) (_pharmacyAddress : address)
    : Result (State * list Event) :=
  require (nonempty (mget (verifiedPharmacies s) _pharmacyAddress))
          PharmacyNotRegistered ;;
  Ok (mkState (owner s) (delete _pharmacyAddress (verifiedPharmacies s)),
      [PharmacyRemoved _pharmacyAddress]).

Definition isVerifiedPharmacy (s : State) (_pharmacyAddress : address) : bool :=
  nonempty (mget (verifiedPharmacies s) _pharmacyAddress).

Definition getPharmacyName (s : State) (_pharmacyAddress : address) : string :=
  mget (verifiedPharmacies s) _pharmacyAddress.

End PharmacyRegistry.

(** ** PrescriptionRegistry (second contract of PharmacyRegistry.sol) *)

Module PrescriptionRegistry.

Record Fulfillment := mkFulfillment {
  pharmacyAddress : address;
  pharmacyName : string;
  fulfilledAt : uint256
}.

Record Prescription := mkPrescription {
  doctor : address;
  patient : address;
  contentHash : bytes32;
  ipfsHash : string;
  issuedAt : uint256;
  expiryDate : uint256;
  fulfillments : list Fulfillment;
  hasFulfilled : gmap N bool
}.

Global Instance Prescription_default : SolDefault Prescription :=
  mkPrescription address0 address0 0 EmptyString 0 0 [] ∅.

Record State := mkState {
  prescriptions : gmap N Prescription;
  patientPrescriptions : gmap N (list bytes32);
  doctorPrescriptions : gmap N (list bytes32)
}.

Inductive Event :=
| PrescriptionIssued (prescriptionId : bytes32) (doctor patient : address)
                     (ipfsHash : string)
| PrescriptionFulfilled (prescriptionId : bytes32) (pharmacist : address)
                        (pharmacyName : string) (fulfilledAt : uint256).

(** The tuple returned by [getPrescriptionDetails]. *)
Record Details := mkDetails {
  doctor_ : address;
  patient_ : address;
  contentHash_ : bytes32;
  ipfsHash_ : string;
  issuedAt_ : uint256;
  expiryDate_ : uint256;
  fulfillments_ : list Fulfillment
}.

Definition constructor : State := mkState ∅ ∅ ∅.

(** The six assignments through the storage pointer [newPrescription]:
    the [fulfillments] array and the [hasFulfilled] mapping of the slot
    are not written. *)
Definition issuePrescription (dr : DoctorRegistry.State) (e : Env) (s : State)
    (_patient : address) (_contentHash : bytes32) (_ipfsHash : string)
    (_expiryDate : uint256) : Result (State * list Event * bytes32) :=
  require (DoctorRegistry.isVerifiedDoctor dr (msg_sender e)) NotVerifiedDoctor ;;
  require (block_timestamp e <? _expiryDate) InvalidExpiryDate ;;
  require (doctor (mget (prescriptions s) _contentHash) =? address0)
          ContentHashExists ;;
  let slot := mget (prescriptions s) _contentHash in
  let newPrescription :=
    mkPrescription (msg_sender e) _patient _contentHash _ipfsHash
                   (block_timestamp e) _expiryDate
                   (fulfillments slot) (hasFulfilled slot) in
  Ok (mkState
        (<[_contentHash := newPrescription]> (prescriptions s))
        (<[_patient := mget (patientPrescriptions s) _patient ++ [_contentHash]]>
           (patientPrescriptions s))
        (<[msg_sender e :=
             mget (doctorPrescriptions s) (msg_sender e) ++ [_contentHash]]>
           (doctorPrescriptions s)),
      [PrescriptionIssued _contentHash (msg_sender e) _patient _ipfsHash],
      _contentHash).

Definition fulfillPrescription (pr : PharmacyRegistry.State) (e : Env) (s : State)
    (_prescriptionId : bytes32) : Result (State * list Event) :=
  require (PharmacyRegistry.isVerifiedPharmacy pr (msg_sender e))
          NotVerifiedPharmacy ;;
  let prescription := mget (prescriptions s) _prescriptionId in
  require (negb (doctor prescription =? address0)) PrescriptionDoesNotExist ;;
  require (block_timestamp e <=? expiryDate prescription) PrescriptionExpired ;;
  require (negb (mget (hasFulfilled prescription) (msg_sender e)))
          PharmacyAlreadyFulfilled ;;
  let pharmacyName := PharmacyRegistry.getPharmacyName pr (msg_sender e) in
  require (nonempty pharmacyName) PharmacyNameNotFound ;;
  let prescription' :=
    mkPrescription (doctor prescription) (patient prescription)
                   (contentHash prescription) (ipfsHash prescription)
                   (issuedAt prescription) (expiryDate prescription)
                   (fulfillments prescription ++
                      [mkFulfillment (msg_sender e) pharmacyName (block_timestamp e)])
                   (<[msg_sender e := true]> (hasFulfilled prescription)) in
  Ok (mkState (<[_prescriptionId := prescription']> (prescriptions s))
              (patientPrescriptions s) (doctorPrescriptions s),
      [PrescriptionFulfilled _prescriptionId (msg_sender e) pharmacyName
                             (block_timestamp e)]).

Definition verifyPrescription (e : Env) (s : State)
    (_prescriptionId _expectedContentHash : bytes32) : bool :=
  let prescription := mget (prescriptions s) _prescriptionId in
  (contentHash prescription =? _expectedContentHash) &&
  negb (doctor prescription =? address0) &&
  (block_timestamp e <=? expiryDate prescription).

Definition getPrescriptionDetails (s : State) (_prescriptionId : bytes32)
    : Result Details :=
  let prescription := mget (prescriptions s) _prescriptionId in
  require (negb (doctor prescription =? address0)) PrescriptionDoesNotExist ;;
  Ok (mkDetails (doctor prescription) (patient prescription)
                (contentHash prescription) (ipfsHash prescription)
                (issuedAt prescription) (expiryDate prescription)
                (fulfillments prescription)).

Definition hasPharmacyFulfilled (s : State)
    (_prescriptionId : bytes32) (_pharmacyAddress : address) : bool :=
  let prescription := mget (prescriptions s) _prescriptionId in
  mget (hasFulfilled prescription) _pharmacyAddress.

Definition getPatientPrescriptionIds (s : State) (_patientAddress : address)
    : list bytes32 :=
  mget (patientPrescriptions s) _patientAddress.

Definition getDoctorPrescriptionIds (s : State) (_doctorAddress : address)
    : list bytes32 :=
  mget (doctorPrescriptions s) _doctorAddress.

End PrescriptionRegistry.

Import PrescriptionRegistry.

(** ** The deployed system: three contracts and the transaction log *)

Inductive LogEntry :=
| LogDoctor (ev : DoctorRegistry.Event)
| LogPharmacy (ev : PharmacyRegistry.Event)
| LogPrescription (ev : PrescriptionRegistry.Event).

Record World := mkWorld {
  doctorRegistry : DoctorRegistry.State;
  pharmacyRegistry : PharmacyRegistry.State;
  ledger : PrescriptionRegistry.State;
  log : list LogEntry
}.

(** Deployment: [DoctorRegistry(initialOwner)], [PharmacyRegistry()] by
    [deployer], then [PrescriptionRegistry] pointing at the two. *)
Definition deploy (initialOwner deployer : address) : World :=
  mkWorld (DoctorRegistry.constructor initialOwner)
          (PharmacyRegistry.constructor (mkEnv deployer 0))
          PrescriptionRegistry.constructor
          [].

(** The state-changing functions of the three contracts and the read-only
    functions of [PrescriptionRegistry]. *)
Inductive Call :=
| RegisterDoctor (_doctorAddress : address) (_name _licenseNumber _specialization : string)
| DeactivateDoctor (_doctorAddress : address)
| TransferOwnership (newOwner : address)
| RenounceOwnership
| RegisterPharmacy (_pharmacyAddress : address) (_name : string)
| RemovePharmacy (_pharmacyAddress : address)
| IssuePrescription (_patient : address) (_contentHash : bytes32)
                    (_ipfsHash : string) (_expiryDate : uint256)
| FulfillPrescription (_prescriptionId : bytes32)
| VerifyPrescription (_prescriptionId _expectedContentHash : bytes32)
| GetPrescriptionDetails (_prescriptionId : bytes32)
| HasPharmacyFulfilled (_prescriptionId : bytes32) (_pharmacyAddress : address)
| GetPatientPrescriptionIds (_patientAddress : address)
| GetDoctorPrescriptionIds (_doctorAddress : address).

Inductive Value :=
| VUnit
| VBool (b : bool)
| VBytes32 (x : bytes32)
| VIds (ids : list bytes32)
| VDetails (d : Details).

(** The body of a call: the new world and the returned value, or a revert. *)
Definition call (e : Env) (w : World) (c : Call) : Result (World * Value) :=
  match c with
  | RegisterDoctor a n l sp =>
      '(s, evs) ← DoctorRegistry.registerDoctor e (doctorRegistry w) a n l sp;
      Ok (mkWorld s (pharmacyRegistry w) (ledger w) (log w ++ map LogDoctor evs), VUnit)
  | DeactivateDoctor a =>
      '(s, evs) ← DoctorRegistry.deactivateDoctor e (doctorRegistry w) a;
      Ok (mkWorld s (pharmacyRegistry w) (ledger w) (log w ++ map LogDoctor evs), VUnit)
  | TransferOwnership a =>
      '(s, evs) ← DoctorRegistry.transferOwnership e (doctorRegistry w) a;
      Ok (mkWorld s (pharmacyRegistry w) (ledger w) (log w ++ map LogDoctor evs), VUnit)
  | RenounceOwnership =>
      '(s, evs) ← DoctorRegistry.renounceOwnership e (doctorRegistry w);
      Ok (mkWorld s (pharmacyRegistry w) (ledger w) (log w ++ map LogDoctor evs), VUnit)
  | RegisterPharmacy a n =>
      '(s, evs) ← PharmacyRegistry.registerPharmacy e (pharmacyRegistry w) a n;
      Ok (mkWorld (doctorRegistry w) s (ledger w) (log w ++ map LogPharmacy evs), VUnit)
  | RemovePharmacy a =>
      '(s, evs) ← PharmacyRegistry.removePharmacy e (pharmacyRegistry w) a;
      Ok (mkWorld (doctorRegistry w) s (ledger w) (log w ++ map LogPharmacy evs), VUnit)
  | IssuePrescription p h i x =>
      '(s, evs, id) ← issuePrescription (doctorRegistry w) e (ledger w) p h i x;
      Ok (mkWorld (doctorRegistry w) (pharmacyRegistry w) s
                  (log w ++ map LogPrescription evs), VBytes32 id)
  | FulfillPrescription id =>
      '(s, evs) ← fulfillPrescription (pharmacyRegistry w) e (ledger w) id;
      Ok (mkWorld (doctorRegistry w) (pharmacyRegistry w) s
                  (log w ++ map LogPrescription evs), VUnit)
  | VerifyPrescription id h =>
      Ok (w, VBool (verifyPrescription e (ledger w) id h))
  | GetPrescriptionDetails id =>
      d ← getPrescriptionDetails (ledger w) id; Ok (w, VDetails d)
  | HasPharmacyFulfilled id a =>
      Ok (w, VBool (hasPharmacyFulfilled (ledger w) id a))
  | GetPatientPrescriptionIds a =>
      Ok (w, VIds (getPatientPrescriptionIds (ledger w) a))
  | GetDoctorPrescriptionIds a =>
      Ok (w, VIds (getDoctorPrescriptionIds (ledger w) a))
  end.

(** A transaction: a reverted call leaves the world, log included, as it was. *)
Definition exec (w : World) (tx : Env * Call) : World * Result Value :=
  match call tx.1 w tx.2 with
  | Ok (w', v) => (w', Ok v)
  | Revert err => (w, Revert err)
  end.

(** The world after a sequence of transactions. *)
Definition run (w : World) (txs : list (Env * Call)) : World :=
  fold_left (fun w tx => (exec w tx).1) txs w.

(** The test [prescription.doctor != address(0)] by which
    [fulfillPrescription], [verifyPrescription] and [getPrescriptionDetails]
    decide that a prescription exists. *)
Definition prescriptionExists (s : PrescriptionRegistry.State) (id : bytes32) : bool :=
  negb (doctor (mget (prescriptions s) id) =? address0).

(** The [PrescriptionIssued] events of the log, oldest first: prescription
    id, doctor and patient of every issuance. *)
Definition issuedOf (entry : LogEntry) : option (bytes32 * address * address) :=
  match entry with
  | LogPrescription (PrescriptionIssued id d p _) => Some (id, d, p)
  | _ => None
  end.

Definition issued (w : World) : list (bytes32 * address * address) :=
  omap issuedOf (log w).

(** ** JavaScript strings and the ethers helpers the dashboards use *)

(** A JavaScript string is its sequence of UTF-16 code units. *)
Abbreviation jsstring := (list N).

Module JsString.

(** The text of an ASCII literal. *)
Definition js (s : string) : jsstring :=
  map Ascii.N_of_ascii (list_ascii_of_string s).

(** White space and line terminators of ECMAScript, which [trim] strips. *)
Definition isWhiteSpace (c : N) : bool :=
  existsb (N.eqb c)
    [9; 10; 11; 12; 13; 32; 160; 5760; 8232; 8233; 8239; 8287; 12288; 65279]
  || ((8192 <=? c) && (c <=? 8202)).

Fixpoint trimStart (s : jsstring) : jsstring :=
  match s with
  | c :: s' => if isWhiteSpace c then trimStart s' else s
  | [] => []
  end.

Definition trimEnd (s : jsstring) : jsstring := rev (trimStart (rev s)).

Definition trim (s : jsstring) : jsstring := trimEnd (trimStart s).

(** [s.split(sep)] for a separator of one code unit. *)
Fixpoint split (sep : N) (s : jsstring) : list jsstring :=
  match s with
  | [] => [[]]
  | c :: s' =>
      if c =? sep then [] :: split sep s'
      else match split sep s' with
           | part :: parts => (c :: part) :: parts
           | [] => [[c]]
           end
  end.

(** [a === b] on strings. *)
Definition eqb (a b : jsstring) : bool := bool_decide (a = b).

(** [s.slice(0, n)] and [s.slice(-n)] for [n] within the length. *)
Definition sliceTo (n : nat) (s : jsstring) : jsstring := take n s.
Definition sliceLast (n : nat) (s : jsstring) : jsstring := drop (length s - n) s.

End JsString.

(** The parts of a split, put together again with the separator. *)
Fixpoint join (sep : N) (parts : list jsstring) : jsstring :=
  match parts with
  | [] => []
  | [part] => part
  | part :: parts' => part ++ sep :: join sep parts'
  end.

Module Ethers.

Definition isHexDigit (c : N) : bool :=
  ((48 <=? c) && (c <=? 57)) || ((65 <=? c) && (c <=? 70))
  || ((97 <=? c) && (c <=? 102)).

(** [ethers.isHexString(value, length)]: the text matches
    [/^0x[0-9A-Fa-f]*$/] and has [2 + 2 * length] code units. *)
Definition isHexString (value : jsstring) (length : nat) : bool :=
  match value with
  | c0 :: c1 :: digits =>
      (c0 =? 48) && (c1 =? 120) && forallb isHexDigit digits
      && (List.length value =? 2 + 2 * length)%nat
  | _ => false
  end.

(** The value of a hex digit, upper or lower case. *)
Definition hexDigitValue (c : N) : N :=
  if (48 <=? c) && (c <=? 57) then c - 48
  else if (97 <=? c) && (c <=? 102) then c - 87
  else c - 55.

(** The number a hex string stands for when it is passed to a contract as
    [bytes32]. *)
Definition toValue (value : jsstring) : N :=
  fold_left (λ acc c, 16 * acc + hexDigitValue c) (drop 2 value) 0.

Definition hexDigit (d : N) : N := if d <? 10 then 48 + d else 87 + d.

Fixpoint hexDigits (k : nat) (n : N) : jsstring :=
  match k with
  | O => []
  | S k' => hexDigits k' (n / 16) ++ [hexDigit (n mod 16)]
  end.

(** The text ethers returns for a fixed-size byte value: [0x] and two
    lower-case hex digits per byte. *)
Definition hexlify (bytes : nat) (n : N) : jsstring :=
  [48; 120] ++ hexDigits (2 * bytes) n.

(** [ethers.ZeroHash] *)
Definition ZeroHash : jsstring := hexlify 32 0.

End Ethers.

(** ** The pharmacy dashboard: contractService.js and [handleVerify] *)

Module ContractService.

(** A successful read is copied field by field, a fulfilment without a name
    being shown as "Unknown Pharmacy"; the [catch] branch returns a default
    structure instead of rethrowing. *)
Definition getPrescriptionDetails (w : World) (prescriptionId : bytes32) : Details :=
  match PrescriptionRegistry.getPrescriptionDetails (ledger w) prescriptionId with
  | Ok details =>
      let mappedFulfillments :=
        map (λ f, mkFulfillment (pharmacyAddress f)
                    (if nonempty (pharmacyName f) then pharmacyName f
                     else "Unknown Pharmacy")
                    (fulfilledAt f))
            (fulfillments_ details) in
      mkDetails (doctor_ details) (patient_ details) (contentHash_ details)
                (ipfsHash_ details) (issuedAt_ details) (expiryDate_ details)
                mappedFulfillments
  | Revert _ => mkDetails address0 address0 0 EmptyString 0 0 []
  end.

(** A read-only call from [account] against the block time [blockTime]. *)
Definition verifyPrescription (w : World) (account : address) (blockTime : uint256)
    (prescriptionId expectedContentHash : bytes32) : bool :=
  PrescriptionRegistry.verifyPrescription (mkEnv account blockTime) (ledger w)
    prescriptionId expectedContentHash.

End ContractService.

Module PharmacyDashboard.

Inductive Verdict :=
| Valid             (* "Prescription is VALID!" *)
| NotFound          (* "Prescription not found on blockchain" *)
| ContentMismatch   (* "Content hash mismatch" *)
| Expired           (* "Prescription has expired." *)
| UnknownReason.    (* "Unknown reason." *)

Inductive Status := StatusValid | StatusInvalid | StatusError.

(** [handleVerify] from the ledger read on, for the two halves of a QR
    text that passed the shape checks.  The halves are texts: the contract
    is called with the 32-byte values they stand for, and the content hash
    it returns, which ethers renders as lower-case hex text, is compared
    with the second half as text.  [blockTime] is the clock of the
    read-only contract calls and [wallTime] the browser's
    [Date.now() / 1000], rounded up to whole seconds. *)
Definition verdict (w : World) (account : address) (blockTime wallTime : uint256)
    (prescriptionIdFromQR contentHashFromQR : jsstring) : Verdict :=
  let blockchainPrescription :=
    ContractService.getPrescriptionDetails w (Ethers.toValue prescriptionIdFromQR) in
  if doctor_ blockchainPrescription =? address0 then NotFound
  else
    let isValidOnChain :=
      ContractService.verifyPrescription w account blockTime
        (Ethers.toValue prescriptionIdFromQR) (Ethers.toValue contentHashFromQR) in
    if isValidOnChain then Valid
    else if negb (JsString.eqb
                    (Ethers.hexlify 32 (contentHash_ blockchainPrescription))
                    contentHashFromQR)
    then ContentMismatch
    else if expiryDate_ blockchainPrescription <? wallTime then Expired
    else UnknownReason.

(** [(blockchainPrescription.fulfillments || []).some(...)] *)
Definition hasCurrentPharmacyFulfilled (w : World) (account : address)
    (prescriptionIdFromQR : bytes32) : bool :=
  existsb (fun f => pharmacyAddress f =? account)
          (fulfillments_ (ContractService.getPrescriptionDetails w prescriptionIdFromQR)).

End PharmacyDashboard.

(** ** Notions used to state the properties *)

(** The record under [id] in a world. *)
Definition record (w : World) (id : bytes32) : Prescription :=
  mget (prescriptions (ledger w)) id.

(** Verify as the design document words it: look the record up, then
    compare the fingerprint, then the expiry. *)
Definition Verify_spec (w : World) (now : uint256)
    (claimedId recomputedFingerprint : bytes32) : PharmacyDashboard.Verdict :=
  if negb (prescriptionExists (ledger w) claimedId) then PharmacyDashboard.NotFound
  else if negb (contentHash (record w claimedId) =? recomputedFingerprint)
  then PharmacyDashboard.ContentMismatch
  else if expiryDate (record w claimedId) <? now then PharmacyDashboard.Expired
  else PharmacyDashboard.Valid.

(** The ledger after a successful [issuePrescription]. *)
Definition issue_post (e : Env) (s : PrescriptionRegistry.State)
    (p : address) (h : bytes32) (i : string) (x : uint256)
    : PrescriptionRegistry.State :=
  let slot := mget (prescriptions s) h in
  mkState
    (<[h := mkPrescription (msg_sender e) p h i (block_timestamp e) x
                           (fulfillments slot) (hasFulfilled slot)]> (prescriptions s))
    (<[p := mget (patientPrescriptions s) p ++ [h]]> (patientPrescriptions s))
    (<[msg_sender e := mget (doctorPrescriptions s) (msg_sender e) ++ [h]]>
       (doctorPrescriptions s)).

(** The ledger after a successful [fulfillPrescription]. *)
Definition fulfill_post (pr : PharmacyRegistry.State) (e : Env)
    (s : PrescriptionRegistry.State) (id : bytes32) : PrescriptionRegistry.State :=
  let r := mget (prescriptions s) id in
  mkState
    (<[id := mkPrescription (doctor r) (patient r) (contentHash r) (ipfsHash r)
               (issuedAt r) (expiryDate r)
               (fulfillments r ++
                  [mkFulfillment (msg_sender e)
                     (PharmacyRegistry.getPharmacyName pr (msg_sender e))
                     (block_timestamp e)])
               (<[msg_sender e := true]> (hasFulfilled r))]> (prescriptions s))
    (patientPrescriptions s) (doctorPrescriptions s).

(** The world after a successful Issue transaction. *)
Definition issue_world (w : World) (e : Env) p h i x : World :=
  mkWorld (doctorRegistry w) (pharmacyRegistry w)
          (issue_post e (ledger w) p h i x)
          (log w ++ [LogPrescription (PrescriptionIssued h (msg_sender e) p i)]).

(** The world after a successful Fulfill transaction. *)
Definition fulfill_world (w : World) (e : Env) id : World :=
  mkWorld (doctorRegistry w) (pharmacyRegistry w)
          (fulfill_post (pharmacyRegistry w) e (ledger w) id)
          (log w ++ [LogPrescription
                       (PrescriptionFulfilled id (msg_sender e)
                          (PharmacyRegistry.getPharmacyName (pharmacyRegistry w)
                                                            (msg_sender e))
                          (block_timestamp e))]).

(** Either the ledger and the issuance events stay as they are (calls to
    the role registries, read-only calls, reverted calls), or a fresh
    content hash is issued, or an existing prescription is fulfilled. *)
Inductive Effect (w : World) (tx : Env * Call) : World → Prop :=
| effect_none w' :
    ledger w' = ledger w → issued w' = issued w → Effect w tx w'
| effect_issue p h i x :
    tx.2 = IssuePrescription p h i x →
    prescriptionExists (ledger w) h = false →
    Effect w tx (issue_world w tx.1 p h i x)
| effect_fulfill id :
    tx.2 = FulfillPrescription id →
    prescriptionExists (ledger w) id = true →
    Effect w tx (fulfill_world w tx.1 id).

(** Every existing prescription stores the id it is filed under as its
    content hash. *)
Definition hash_is_key (w : World) : Prop :=
  ∀ id, prescriptionExists (ledger w) id = true → contentHash (record w id) = id.

(** Nobody has fulfilled a prescription that does not exist. *)
Definition unknown_unfulfilled (w : World) : Prop :=
  ∀ id a, prescriptionExists (ledger w) id = false →
          hasPharmacyFulfilled (ledger w) id a = false.

(** The sender of a transaction is an externally owned account or a
    contract; no transaction is ever sent from [address(0)], the value the
    ledger reserves for "no prescription here". *)
Definition from_account (tx : Env * Call) : Prop := msg_sender tx.1 ≠ address0.

(** Ids issued to patient [r], respectively by doctor [d], in the order of
    their [PrescriptionIssued] events. *)
Definition issuedTo (w : World) (r : address) : list bytes32 :=
  omap (λ ev : bytes32 * address * address,
          if decide (ev.2 = r) then Some ev.1.1 else None) (issued w).

Definition issuedBy (w : World) (d : address) : list bytes32 :=
  omap (λ ev : bytes32 * address * address,
          if decide (ev.1.2 = d) then Some ev.1.1 else None) (issued w).

(** The two index mappings agree with the issuance events, every event
    describes the record filed under its id, every existing record has its
    event, and no id was issued twice. *)
Record index_consistent (w : World) : Prop := {
  ic_patient : ∀ r, getPatientPrescriptionIds (ledger w) r = issuedTo w r;
  ic_doctor : ∀ d, getDoctorPrescriptionIds (ledger w) d = issuedBy w d;
  ic_issued : ∀ id d p, (id, d, p) ∈ issued w →
      d ≠ address0 ∧ doctor (record w id) = d ∧ patient (record w id) = p;
  ic_exists : ∀ id, prescriptionExists (ledger w) id = true →
      (id, doctor (record w id), patient (record w id)) ∈ issued w;
  ic_nodup : NoDup (issued w).*1.*1
}.

(** ** Sample worlds *)

(** A deployment with one doctor (address 10) and two pharmacies
    (addresses 20 and 21) registered. *)
Definition sample_registered : World :=
  run (deploy 1 1)
      [ (mkEnv 10 100, RegisterDoctor 10 "Dr A" "LIC-1" "GP");
        (mkEnv 20 100, RegisterPharmacy 20 "Pharmacy X");
        (mkEnv 21 100, RegisterPharmacy 21 "Pharmacy Y") ].

(** The same after doctor 10 issued prescription 170 to patient 30, valid
    until time 1100. *)
Definition sample_issued : World :=
  run sample_registered [ (mkEnv 10 101, IssuePrescription 30 170 "loc1" 1100) ].

(** Doctor 10 issues 170 and 172 to patient 30 and 171 to patient 31; a
    second Issue of 170 and an Issue by the unregistered account 40 revert. *)
Definition sample_trace : list (Env * Call) :=
  [ (mkEnv 10 100, RegisterDoctor 10 "Dr A" "LIC-1" "GP");
    (mkEnv 10 101, IssuePrescription 30 170 "loc1" 1100);
    (mkEnv 10 102, IssuePrescription 31 171 "loc2" 1100);
    (mkEnv 10 103, IssuePrescription 31 170 "loc3" 1100);
    (mkEnv 40 104, IssuePrescription 30 173 "loc4" 1100);
    (mkEnv 10 105, IssuePrescription 30 172 "loc5" 1100) ].

(** ** Transitions of the deployed system *)

(** The world after a call that only changed one of the role registries. *)
Definition with_doctors (w : World) (s : DoctorRegistry.State)
    (ev : DoctorRegistry.Event) : World :=
  mkWorld s (pharmacyRegistry w) (ledger w) (log w ++ [LogDoctor ev]).

Definition with_pharmacies (w : World) (s : PharmacyRegistry.State)
    (ev : PharmacyRegistry.Event) : World :=
  mkWorld (doctorRegistry w) s (ledger w) (log w ++ [LogPharmacy ev]).

(** What a transaction sent in context [e] can turn the world into: nothing
    changes (read-only or reverted call), or one of the eight state-changing
    functions ran to its end, its [require]s having passed. *)
Inductive Step (w : World) (e : Env) : World → Prop :=
| step_stay : Step w e w
| step_registerDoctor a n l sp :
    DoctorRegistry.isActive (mget (DoctorRegistry.doctors (doctorRegistry w)) a) = false →
    Step w e
      (with_doctors w
         (DoctorRegistry.mkState
            (DoctorRegistry.owner (doctorRegistry w))
            (<[a := DoctorRegistry.mkDoctor n l sp true (block_timestamp e)]>
               (DoctorRegistry.doctors (doctorRegistry w)))
            (<[a := true]> (DoctorRegistry.verified (doctorRegistry w))))
         (DoctorRegistry.DoctorRegistered a n l))
| step_deactivateDoctor a :
    msg_sender e = DoctorRegistry.owner (doctorRegistry w) →
    DoctorRegistry.isActive (mget (DoctorRegistry.doctors (doctorRegistry w)) a) = true →
    Step w e
      (with_doctors w
         (DoctorRegistry.mkState
            (DoctorRegistry.owner (doctorRegistry w))
            (<[a := let d := mget (DoctorRegistry.doctors (doctorRegistry w)) a in
                    DoctorRegistry.mkDoctor (DoctorRegistry.name d)
                      (DoctorRegistry.licenseNumber d)
                      (DoctorRegistry.specialization d) false
                      (DoctorRegistry.registeredAt d)]>
               (DoctorRegistry.doctors (doctorRegistry w)))
            (<[a := false]> (DoctorRegistry.verified (doctorRegistry w))))
         (DoctorRegistry.DoctorDeactivated a))
| step_ownership newOwner :
    msg_sender e = DoctorRegistry.owner (doctorRegistry w) →
    Step w e
      (with_doctors w
         (DoctorRegistry.mkState newOwner
            (DoctorRegistry.doctors (doctorRegistry w))
            (DoctorRegistry.verified (doctorRegistry w)))
         (DoctorRegistry.OwnershipTransferred
            (DoctorRegistry.owner (doctorRegistry w)) newOwner))
| step_registerPharmacy a n :
    a ≠ address0 →
    nonempty n = true →
    PharmacyRegistry.isVerifiedPharmacy (pharmacyRegistry w) a = false →
    Step w e
      (with_pharmacies w
         (PharmacyRegistry.mkState
            (PharmacyRegistry.owner (pharmacyRegistry w))
            (<[a := n]> (PharmacyRegistry.verifiedPharmacies (pharmacyRegistry w))))
         (PharmacyRegistry.PharmacyRegistered a n))
| step_removePharmacy a :
    PharmacyRegistry.isVerifiedPharmacy (pharmacyRegistry w) a = true →
    Step w e
      (with_pharmacies w
         (PharmacyRegistry.mkState
            (PharmacyRegistry.owner (pharmacyRegistry w))
            (delete a (PharmacyRegistry.verifiedPharmacies (pharmacyRegistry w))))
         (PharmacyRegistry.PharmacyRemoved a))
| step_issue p h i x :
    DoctorRegistry.isVerifiedDoctor (doctorRegistry w) (msg_sender e) = true →
    block_timestamp e < x →
    prescriptionExists (ledger w) h = false →
    Step w e (issue_world w e p h i x)
| step_fulfill id :
    PharmacyRegistry.isVerifiedPharmacy (pharmacyRegistry w) (msg_sender e) = true →
    prescriptionExists (ledger w) id = true →
    block_timestamp e <= expiryDate (record w id) →
    hasPharmacyFulfilled (ledger w) id (msg_sender e) = false →
    Step w e (fulfill_world w e id).

(** ** Invariants of the registries and of the ledger *)

(** The two mappings of [DoctorRegistry] tell the same story. *)
Definition doctors_in_sync (w : World) : Prop :=
  ∀ a, DoctorRegistry.isVerifiedDoctor (doctorRegistry w) a
       = DoctorRegistry.isActive (mget (DoctorRegistry.doctors (doctorRegistry w)) a).

(** The fulfilment log of every prescription matches its [hasFulfilled]
    flags, names each pharmacy once, and holds only entries made by a
    registered pharmacy within the validity of an existing prescription. *)
Record ledger_wf (w : World) : Prop := {
  lw_zero : PharmacyRegistry.isVerifiedPharmacy (pharmacyRegistry w) address0 = false;
  lw_flags : ∀ id a,
    hasPharmacyFulfilled (ledger w) id a = true ↔
    a ∈ pharmacyAddress <$> fulfillments (record w id);
  lw_nodup : ∀ id, NoDup (pharmacyAddress <$> fulfillments (record w id));
  lw_entries : ∀ id f, f ∈ fulfillments (record w id) →
    prescriptionExists (ledger w) id = true
    ∧ fulfilledAt f <= expiryDate (record w id)
    ∧ nonempty (pharmacyName f) = true
    ∧ pharmacyAddress f ≠ address0;
  lw_expiry : ∀ id, prescriptionExists (ledger w) id = true →
    issuedAt (record w id) < expiryDate (record w id)
}.

(** [w'] holds every prescription of [w] with the same issued fields, its
    fulfilment log and both index lists only extended at the end. *)
Record grows (w w' : World) : Prop := {
  gr_records : ∀ id, prescriptionExists (ledger w) id = true →
    prescriptionExists (ledger w') id = true
    ∧ doctor (record w' id) = doctor (record w id)
    ∧ patient (record w' id) = patient (record w id)
    ∧ contentHash (record w' id) = contentHash (record w id)
    ∧ ipfsHash (record w' id) = ipfsHash (record w id)
    ∧ issuedAt (record w' id) = issuedAt (record w id)
    ∧ expiryDate (record w' id) = expiryDate (record w id);
  gr_fulfillments : ∀ id,
    fulfillments (record w id) `prefix_of` fulfillments (record w' id);
  gr_flags : ∀ id a, hasPharmacyFulfilled (ledger w) id a = true →
    hasPharmacyFulfilled (ledger w') id a = true;
  gr_patient : ∀ a, getPatientPrescriptionIds (ledger w) a
                    `prefix_of` getPatientPrescriptionIds (ledger w') a;
  gr_doctor : ∀ a, getDoctorPrescriptionIds (ledger w) a
                   `prefix_of` getDoctorPrescriptionIds (ledger w') a
}.

(** ** pdfService.js, ipfsService.js *)

Module PDFService.

(** The text put in the QR code of the generated PDF. *)
Definition qrCodeData (prescriptionId contentHash : jsstring) : jsstring :=
  prescriptionId ++ JsString.js "|" ++ contentHash.

End PDFService.

Module IPFSService.

Definition getGatewayUrl (ipfsHash : jsstring) : jsstring :=
  JsString.js "https://gateway.pinata.cloud/ipfs/" ++ ipfsHash.

Definition isAlnum (c : N) : bool :=
  ((48 <=? c) && (c <=? 57)) || ((65 <=? c) && (c <=? 90))
  || ((97 <=? c) && (c <=? 122)).

Fixpoint stripPrefix (prefix s : jsstring) : option jsstring :=
  match prefix, s with
  | [], _ => Some s
  | p :: prefix', c :: s' => if p =? c then stripPrefix prefix' s' else None
  | _ :: _, [] => None
  end.

Fixpoint takeWhile (f : N → bool) (s : jsstring) : jsstring :=
  match s with
  | c :: s' => if f c then c :: takeWhile f s' else []
  | [] => []
  end.

(** [url.match(/\/ipfs\/([a-zA-Z0-9]+)/)]: the first place where [/ipfs/]
    is followed by a letter or digit, and the longest run of them there. *)
Fixpoint extractHashFromUrl (url : jsstring) : option jsstring :=
  match url with
  | [] => None
  | _ :: rest =>
      match stripPrefix (JsString.js "/ipfs/") url with
      | Some tail =>
          match takeWhile isAlnum tail with
          | [] => extractHashFromUrl rest
          | hash => Some hash
          end
      | None => extractHashFromUrl rest
      end
  end.

End IPFSService.

(** ** The pharmacy dashboard on the raw text of the QR code *)

Module PharmacyDashboardUI.

(** The errors the two handlers throw before or instead of a ledger call. *)
Inductive Thrown :=
| WalletNotConnected      (* "Wallet not connected. ..." *)
| NotLoggedInAsPharmacy   (* "You are not logged in as a verified pharmacy. ..." *)
| NoQrData                (* "Please paste QR code data or scan a QR code." *)
| InvalidQrFormat         (* "Invalid QR code format. ..." *)
| InvalidPrescriptionId   (* "Invalid Prescription ID (Content Hash) format from QR code ..." *)
| InvalidContentHash      (* "Invalid Content Hash format from QR code ..." *)
| QrDataMismatch          (* "QR code data mismatch. ..." *)
| NotVerifiedFirst        (* "Please verify a valid and active prescription first." *)
| AlreadyFulfilledHere.   (* "This pharmacy has already fulfilled this prescription." *)

(** The shape checks of [handleVerify] on the text of the QR code: the two
    halves, or the error thrown. *)
Definition checkPayload (qrCodeInput : jsstring) : Thrown + jsstring * jsstring :=
  match JsString.trim qrCodeInput with
  | [] => inl NoQrData
  | trimmed =>
      match JsString.split 124 trimmed with
      | [prescriptionIdFromQR; contentHashFromQR] =>
          if negb (Ethers.isHexString prescriptionIdFromQR 32)
          then inl InvalidPrescriptionId
          else if negb (Ethers.isHexString contentHashFromQR 32)
          then inl InvalidContentHash
          else if negb (JsString.eqb prescriptionIdFromQR contentHashFromQR)
          then inl QrDataMismatch
          else inr (prescriptionIdFromQR, contentHashFromQR)
      | _ => inl InvalidQrFormat
      end
  end.

(** [checkPharmacyStatus]: the flag and the name the dashboard keeps for
    the connected account. *)
Definition checkPharmacyStatus (w : World) (signer : option address) : bool * string :=
  match signer with
  | None => (false, "")
  | Some account =>
      if PharmacyRegistry.isVerifiedPharmacy (pharmacyRegistry w) account
      then (true, PharmacyRegistry.getPharmacyName (pharmacyRegistry w) account)
      else (false, "")
  end.

Record FulfillmentView := mkFulfillmentView {
  fv_pharmacyAddress : address;
  fv_pharmacyName : string;
  fv_fulfilledAt : string
}.

(** The object [handleVerify] stores for a prescription found valid. *)
Record VerifiedPrescription := mkVerifiedPrescription {
  vp_prescriptionId : jsstring;
  vp_doctor : address;
  vp_patient : address;
  vp_contentHash : jsstring;
  vp_ipfsHash : string;
  vp_issuedAt : string;
  vp_expiryDate : string;
  vp_fulfillments : list FulfillmentView;
  vp_hasCurrentPharmacyFulfilled : bool
}.

Inductive VerifyOutcome :=
| Threw (t : Thrown)
| Judged (status : PharmacyDashboard.Status) (v : PharmacyDashboard.Verdict)
         (verifiedPrescription : option VerifiedPrescription).

(** The status shown and the verdict reached, if the handler got that far. *)
Definition statusOf (out : VerifyOutcome) : PharmacyDashboard.Status :=
  match out with
  | Threw _ => PharmacyDashboard.StatusError
  | Judged status _ _ => status
  end.

Definition verdictOf (out : VerifyOutcome) : option PharmacyDashboard.Verdict :=
  match out with
  | Threw _ => None
  | Judged _ v _ => Some v
  end.

Inductive FulfillOutcome :=
| FulfillThrew (t : Thrown)
| FulfillReverted (err : Error)
| Fulfilled (reverified : VerifyOutcome).

Section Handlers.

(** [new Date(seconds * 1000).toLocaleString()], which depends on the
    browser's locale. *)
Variable toLocaleString : uint256 → string.

(** [handleVerify] in full.  [signer] is the connected account if any,
    [blockTime] the clock of the read-only contract calls and [wallTime]
    the browser's clock in seconds. *)
Definition handleVerify (w : World) (signer : option address)
    (isPharmacyVerified : bool) (qrCodeInput : jsstring)
    (blockTime wallTime : uint256) : VerifyOutcome :=
  match signer with
  | None => Threw WalletNotConnected
  | Some account =>
      if negb isPharmacyVerified then Threw NotLoggedInAsPharmacy
      else
        match checkPayload qrCodeInput with
        | inl t => Threw t
        | inr (prescriptionIdFromQR, contentHashFromQR) =>
            let blockchainPrescription :=
              ContractService.getPrescriptionDetails w
                (Ethers.toValue prescriptionIdFromQR) in
            if doctor_ blockchainPrescription =? address0
            then Judged PharmacyDashboard.StatusInvalid PharmacyDashboard.NotFound None
            else
              let isValidOnChain :=
                ContractService.verifyPrescription w account blockTime
                  (Ethers.toValue prescriptionIdFromQR)
                  (Ethers.toValue contentHashFromQR) in
              let hasCurrentPharmacyFulfilled :=
                existsb (λ f, pharmacyAddress f =? account)
                        (fulfillments_ blockchainPrescription) in
              if isValidOnChain then
                Judged
                  (if hasCurrentPharmacyFulfilled
                   then PharmacyDashboard.StatusInvalid
                   else PharmacyDashboard.StatusValid)
                  PharmacyDashboard.Valid
                  (Some
                     (mkVerifiedPrescription
                        prescriptionIdFromQR
                        (doctor_ blockchainPrescription)
                        (patient_ blockchainPrescription)
                        (Ethers.hexlify 32 (contentHash_ blockchainPrescription))
                        (ipfsHash_ blockchainPrescription)
                        (if issuedAt_ blockchainPrescription =? 0 then "Invalid Date"
                         else toLocaleString (issuedAt_ blockchainPrescription))
                        (if expiryDate_ blockchainPrescription =? 0 then "Invalid Date"
                         else toLocaleString (expiryDate_ blockchainPrescription))
                        (map (λ f, mkFulfillmentView (pharmacyAddress f)
                                     (pharmacyName f)
                                     (toLocaleString (fulfilledAt f)))
                             (fulfillments_ blockchainPrescription))
                        hasCurrentPharmacyFulfilled))
              else
                Judged PharmacyDashboard.StatusInvalid
                  (if negb (JsString.eqb
                              (Ethers.hexlify 32 (contentHash_ blockchainPrescription))
                              contentHashFromQR)
                   then PharmacyDashboard.ContentMismatch
                   else if expiryDate_ blockchainPrescription <? wallTime
                   then PharmacyDashboard.Expired
                   else PharmacyDashboard.UnknownReason)
                  None
        end
  end.

(** [handleFulfillPrescription]: the guards on the state left by the last
    verification, the Fulfill transaction sent from the connected account
    at block time [txTime], and the verification run again after it. *)
Definition handleFulfillPrescription (w : World) (signer : option address)
    (isPharmacyVerified : bool)
    (verificationStatus : option PharmacyDashboard.Status)
    (verifiedPrescription : option VerifiedPrescription)
    (qrCodeInput : jsstring) (txTime blockTime wallTime : uint256)
    : World * FulfillOutcome :=
  match signer with
  | None => (w, FulfillThrew WalletNotConnected)
  | Some account =>
      if negb isPharmacyVerified then (w, FulfillThrew NotLoggedInAsPharmacy)
      else
        match verifiedPrescription, verificationStatus with
        | Some vp, Some PharmacyDashboard.StatusValid =>
            if vp_hasCurrentPharmacyFulfilled vp
            then (w, FulfillThrew AlreadyFulfilledHere)
            else
              match exec w (mkEnv account txTime,
                            FulfillPrescription (Ethers.toValue (vp_prescriptionId vp))) with
              | (w', Ok _) =>
                  (w', Fulfilled (handleVerify w' signer isPharmacyVerified
                                    qrCodeInput blockTime wallTime))
              | (_, Revert err) => (w, FulfillReverted err)
              end
        | _, _ => (w, FulfillThrew NotVerifiedFirst)
        end
  end.

End Handlers.

End PharmacyDashboardUI.

(** ** The patient dashboard *)

Module PatientDashboard.

Record FulfillmentRow := mkFulfillmentRow {
  fr_pharmacyAddress : address;
  fr_pharmacyName : string;
  fr_fulfilledAt : string
}.

(** One card of the list. *)
Record Card := mkCard {
  pc_prescriptionId : jsstring;
  pc_doctor : address;
  pc_patient : address;
  pc_contentHash : jsstring;
  pc_ipfsHash : string;
  pc_issuedAt : string;
  pc_expiryDate : string;
  pc_isFulfilled : bool;
  pc_fulfilledBy : address;
  pc_fulfilledAt : option uint256;    (* [None] is the text 'N/A' *)
  pc_allFulfillments : list FulfillmentRow
}.

Definition prescriptionsPerPage : nat := 6.

(** [Math.ceil(length / prescriptionsPerPage)] *)
Definition totalPages (length : nat) : nat :=
  ((length + (prescriptionsPerPage - 1)) / prescriptionsPerPage)%nat.

(** [patientPrescriptions.slice(startIndex, endIndex)] *)
Definition currentPrescriptions {A} (patientPrescriptions : list A)
    (currentPage : nat) : list A :=
  let startIndex := ((currentPage - 1) * prescriptionsPerPage)%nat in
  take prescriptionsPerPage (drop startIndex patientPrescriptions).

(** The page shown after [handlePageChange(newPage)]. *)
Definition handlePageChange (length currentPage newPage : nat) : nat :=
  if (1 <=? newPage)%nat && (newPage <=? totalPages length)%nat
  then newPage else currentPage.

(** The text [handleShareClick] puts in the QR code, unless the content
    hash is missing or zero. *)
Definition handleShareClick (prescription : Card) : option jsstring :=
  match pc_contentHash prescription with
  | [] => None
  | contentHash =>
      if JsString.eqb contentHash Ethers.ZeroHash then None
      else Some (contentHash ++ JsString.js "|" ++ contentHash)
  end.

Section Fetch.

(** [new Date(seconds * 1000).toLocaleDateString()] *)
Variable toLocaleDateString : uint256 → string.

Definition dateOrNA (seconds : uint256) : string :=
  if 0 <? seconds then toLocaleDateString seconds else "N/A".

Definition card (w : World) (id : bytes32) : Card :=
  let prescriptionDetails := ContractService.getPrescriptionDetails w id in
  let fulfillmentsArray := fulfillments_ prescriptionDetails in
  let lastFulfillment := last fulfillmentsArray in
  mkCard
    (Ethers.hexlify 32 (contentHash_ prescriptionDetails))
    (doctor_ prescriptionDetails)
    (patient_ prescriptionDetails)
    (Ethers.hexlify 32 (contentHash_ prescriptionDetails))
    (ipfsHash_ prescriptionDetails)
    (dateOrNA (issuedAt_ prescriptionDetails))
    (dateOrNA (expiryDate_ prescriptionDetails))
    (match fulfillmentsArray with [] => false | _ => true end)
    (match lastFulfillment with Some f => pharmacyAddress f | None => address0 end)
    (match lastFulfillment with Some f => Some (fulfilledAt f) | None => None end)
    (map (λ f, mkFulfillmentRow (pharmacyAddress f)
                 (if nonempty (pharmacyName f) then pharmacyName f
                  else "Unknown Pharmacy")
                 (dateOrNA (fulfilledAt f)))
         fulfillmentsArray).

(** [fetchPatientPrescriptions]: one card per id of the connected
    account's list, ids equal to the zero hash being skipped. *)
Definition fetchPatientPrescriptions (w : World) (signer : option address) : list Card :=
  match signer with
  | None => []
  | Some patientAddress =>
      map (card w)
          (List.filter (λ id, negb (id =? 0))
             (getPatientPrescriptionIds (ledger w) patientAddress))
  end.

End Fetch.

End PatientDashboard.

(** ** App.jsx *)

Module App.

Inductive Role := Unconnected | Doctor | Pharmacist | Patient | Unknown.

(** [determineRole] for the connected account, if any. *)
Definition determineRole (w : World) (signer : option address) : Role :=
  match signer with
  | None => Unconnected
  | Some account =>
      if DoctorRegistry.isVerifiedDoctor (doctorRegistry w) account then Doctor
      else if PharmacyRegistry.isVerifiedPharmacy (pharmacyRegistry w) account
      then Pharmacist
      else match getPatientPrescriptionIds (ledger w) account with
           | [] => Unknown
           | _ => Patient
           end
  end.

End App.

(** ** Sample texts *)

(** The content hash 170 written with upper-case hex digits. *)
Definition upper_case_170 : jsstring :=
  JsString.js "0x00000000000000000000000000000000000000000000000000000000000000AA".

(** What [handleVerify] stores for prescription 170 of [sample_issued] when
    dates are shown as the empty text. *)
Definition sample_verified : PharmacyDashboardUI.VerifiedPrescription :=
  PharmacyDashboardUI.mkVerifiedPrescription
    (Ethers.hexlify 32 170) 10 30 (Ethers.hexlify 32 170) "loc1" "" "" [] false.

(** * Properties *)

(** ** Reading a mapping after a write *)

Section Mapping.
Context {V : Type} `{SolDefault V}.
Implicit Types (m : gmap N V) (k : N) (v : V).

Lemma mget_insert_eq m k v : mget (<[k := v]> m) k = v.
Proof. unfold mget. by rewrite lookup_insert_eq. Qed.

Lemma mget_insert_ne m k k' v : k ≠ k' → mget (<[k := v]> m) k' = mget m k'.
Proof. intros. unfold mget. by rewrite lookup_insert_ne. Qed.

Lemma mget_empty k : mget (∅ : gmap N V) k = sol_default.
Proof. unfold mget. by rewrite lookup_empty. Qed.

Lemma mget_delete_eq m k : mget (delete k m) k = sol_default.
Proof. unfold mget. by rewrite lookup_delete_eq. Qed.

Lemma mget_delete_ne m k k' : k ≠ k' → mget (delete k m) k' = mget m k'.
Proof. intros. unfold mget. by rewrite lookup_delete_ne. Qed.

Lemma mget_insert m k k' v :
  mget (<[k := v]> m) k' = if decide (k = k') then v else mget m k'.
Proof.
  case_decide; subst; [apply mget_insert_eq | by apply mget_insert_ne].
Qed.
End Mapping.

(** ** Existence of a prescription *)

Lemma prescriptionExists_true s id :
  prescriptionExists s id = true ↔ doctor (mget (prescriptions s) id) ≠ address0.
Proof.
  unfold prescriptionExists. rewrite negb_true_iff, N.eqb_neq. done.
Qed.

Lemma prescriptionExists_false s id :
  prescriptionExists s id = false ↔ doctor (mget (prescriptions s) id) = address0.
Proof.
  unfold prescriptionExists. rewrite negb_false_iff, N.eqb_eq. done.
Qed.

(** ** Reading the details of a prescription *)

(** What the dashboard reads back for a prescription: the stored fields
    when it exists, zeros otherwise. *)
Lemma getPrescriptionDetails_doctor w id :
  doctor_ (ContractService.getPrescriptionDetails w id)
  = doctor (mget (prescriptions (ledger w)) id).
Proof.
  unfold ContractService.getPrescriptionDetails, getPrescriptionDetails.
  destruct (doctor (mget (prescriptions (ledger w)) id) =? address0) eqn:E; simpl.
  - by apply N.eqb_eq in E.
  - done.
Qed.

Lemma getPrescriptionDetails_exists w id :
  prescriptionExists (ledger w) id = true →
  contentHash_ (ContractService.getPrescriptionDetails w id)
  = contentHash (mget (prescriptions (ledger w)) id)
  ∧ expiryDate_ (ContractService.getPrescriptionDetails w id)
    = expiryDate (mget (prescriptions (ledger w)) id).
Proof.
  unfold prescriptionExists, ContractService.getPrescriptionDetails,
    getPrescriptionDetails.
  intros ->. split; reflexivity.
Qed.

(** ** Issuance and fulfilment, case by case *)

Lemma issuePrescription_cases dr e s p h i x :
  issuePrescription dr e s p h i x =
    if negb (DoctorRegistry.isVerifiedDoctor dr (msg_sender e))
    then Revert NotVerifiedDoctor
    else if negb (block_timestamp e <? x) then Revert InvalidExpiryDate
    else if prescriptionExists s h then Revert ContentHashExists
    else Ok (issue_post e s p h i x,
             [PrescriptionIssued h (msg_sender e) p i], h).
Proof.
  unfold issuePrescription, prescriptionExists.
  destruct (DoctorRegistry.isVerifiedDoctor dr (msg_sender e)); [|done].
  destruct (block_timestamp e <? x); [|done].
  destruct (doctor (mget (prescriptions s) h) =? address0); done.
Qed.

Lemma fulfillPrescription_cases pr e s id :
  fulfillPrescription pr e s id =
    if negb (PharmacyRegistry.isVerifiedPharmacy pr (msg_sender e))
    then Revert NotVerifiedPharmacy
    else if negb (prescriptionExists s id) then Revert PrescriptionDoesNotExist
    else if negb (block_timestamp e <=? expiryDate (mget (prescriptions s) id))
    then Revert PrescriptionExpired
    else if hasPharmacyFulfilled s id (msg_sender e)
    then Revert PharmacyAlreadyFulfilled
    else Ok (fulfill_post pr e s id,
             [PrescriptionFulfilled id (msg_sender e)
                (PharmacyRegistry.getPharmacyName pr (msg_sender e))
                (block_timestamp e)]).
Proof.
  unfold fulfillPrescription, prescriptionExists, hasPharmacyFulfilled.
  destruct (PharmacyRegistry.isVerifiedPharmacy pr (msg_sender e)) eqn:Hv; [|done].
  cbn [negb require mbind Result_bind].
  destruct (doctor (mget (prescriptions s) id) =? address0); [done|].
  destruct (block_timestamp e <=? expiryDate (mget (prescriptions s) id)); [|done].
  destruct (mget (hasFulfilled (mget (prescriptions s) id)) (msg_sender e)); [done|].
  cbn [negb require mbind Result_bind].
  unfold PharmacyRegistry.isVerifiedPharmacy in Hv.
  unfold PharmacyRegistry.getPharmacyName. by rewrite Hv.
Qed.

Lemma exec_issue w e p h i x :
  exec w (e, IssuePrescription p h i x) =
    if negb (DoctorRegistry.isVerifiedDoctor (doctorRegistry w) (msg_sender e))
    then (w, Revert NotVerifiedDoctor)
    else if negb (block_timestamp e <? x) then (w, Revert InvalidExpiryDate)
    else if prescriptionExists (ledger w) h then (w, Revert ContentHashExists)
    else (issue_world w e p h i x, Ok (VBytes32 h)).
Proof.
  unfold exec, call. cbn [fst snd]. rewrite issuePrescription_cases.
  destruct (DoctorRegistry.isVerifiedDoctor _ _); [|done].
  destruct (block_timestamp e <? x); [|done].
  destruct (prescriptionExists _ _); done.
Qed.

Lemma exec_fulfill w e id :
  exec w (e, FulfillPrescription id) =
    if negb (PharmacyRegistry.isVerifiedPharmacy (pharmacyRegistry w) (msg_sender e))
    then (w, Revert NotVerifiedPharmacy)
    else if negb (prescriptionExists (ledger w) id)
    then (w, Revert PrescriptionDoesNotExist)
    else if negb (block_timestamp e <=? expiryDate (mget (prescriptions (ledger w)) id))
    then (w, Revert PrescriptionExpired)
    else if hasPharmacyFulfilled (ledger w) id (msg_sender e)
    then (w, Revert PharmacyAlreadyFulfilled)
    else (fulfill_world w e id, Ok VUnit).
Proof.
  unfold exec, call. cbn [fst snd]. rewrite fulfillPrescription_cases.
  destruct (PharmacyRegistry.isVerifiedPharmacy _ _); [|done].
  destruct (prescriptionExists _ _); [|done].
  destruct (block_timestamp e <=? _); [|done].
  destruct (hasPharmacyFulfilled _ _ _); done.
Qed.

(** A reverted transaction changes nothing. *)
Lemma exec_revert w tx err : (exec w tx).2 = Revert err → (exec w tx).1 = w.
Proof.
  unfold exec. destruct (call tx.1 w tx.2) as [[w' v]|]; [done|done].
Qed.

(** ** Uniqueness of issuance *)

(** C2. When an authorized issuer (a transaction sender, hence not the zero
    address) issues a fingerprint [f] that is not yet recorded, with an
    expiry in the future, the call succeeds, returns [f] and creates the
    record stored under id [f]; any later Issue of the same [f] by an
    authorized issuer with a future expiry reverts with the duplicate
    error and leaves the whole world, record and both indexes included,
    unchanged. *)
Theorem C2_issue_twice (w : World) (e1 : Env) (p1 : address) (f : bytes32)
    (l1 : string) (x1 : uint256) :
  msg_sender e1 ≠ address0 →
  DoctorRegistry.isVerifiedDoctor (doctorRegistry w) (msg_sender e1) = true →
  block_timestamp e1 < x1 →
  prescriptionExists (ledger w) f = false →
  let first := exec w (e1, IssuePrescription p1 f l1 x1) in
  let r := mget (prescriptions (ledger first.1)) f in
  first.2 = Ok (VBytes32 f)
  ∧ prescriptionExists (ledger first.1) f = true
  ∧ (doctor r = msg_sender e1 ∧ patient r = p1 ∧ contentHash r = f ∧
     ipfsHash r = l1 ∧ issuedAt r = block_timestamp e1 ∧ expiryDate r = x1)
  ∧ ∀ (e2 : Env) (p2 : address) (l2 : string) (x2 : uint256),
      DoctorRegistry.isVerifiedDoctor (doctorRegistry first.1) (msg_sender e2) = true →
      block_timestamp e2 < x2 →
      let second := exec first.1 (e2, IssuePrescription p2 f l2 x2) in
      second.2 = Revert ContentHashExists
      ∧ fails_with second.2 DuplicateRecord
      ∧ second.1 = first.1
      ∧ mget (prescriptions (ledger second.1)) f = r
      ∧ (∀ a, getPatientPrescriptionIds (ledger second.1) a
              = getPatientPrescriptionIds (ledger first.1) a)
      ∧ (∀ a, getDoctorPrescriptionIds (ledger second.1) a
              = getDoctorPrescriptionIds (ledger first.1) a).
Proof.
  intros Hs Hv Ht Hn first r. subst r first.
  rewrite exec_issue, Hv. apply N.ltb_lt in Ht. rewrite Ht, Hn. cbn [negb fst snd].
  assert (Hex : prescriptionExists (ledger (issue_world w e1 p1 f l1 x1)) f = true).
  { apply prescriptionExists_true. cbn. by rewrite mget_insert_eq. }
  split; [done|]. split; [done|]. split.
  { cbn. by rewrite mget_insert_eq. }
  intros e2 p2 l2 x2 Hv2 Ht2.
  rewrite exec_issue, Hv2. apply N.ltb_lt in Ht2. rewrite Ht2, Hex.
  cbn [negb fst snd]. repeat split; done.
Qed.

Lemma C2_issue_twice_witness :
  (exec sample_registered (mkEnv 10 101, IssuePrescription 30 170 "loc1" 1100)).2
  = Ok (VBytes32 170)
  ∧ exec sample_issued (mkEnv 10 102, IssuePrescription 31 170 "loc2" 1200)
    = (sample_issued, Revert ContentHashExists).
Proof.
  destruct (C2_issue_twice sample_registered (mkEnv 10 101) 30 170 "loc1" 1100)
    as (Hfirst & _ & _ & Hsecond).
  - vm_compute. lia.
  - vm_compute. reflexivity.
  - vm_compute. reflexivity.
  - vm_compute. reflexivity.
  - split; [exact Hfirst|].
    destruct (Hsecond (mkEnv 10 102) 31 "loc2" 1200) as (Hr & _ & Hw & _).
    + vm_compute. reflexivity.
    + vm_compute. reflexivity.
    + change sample_issued
        with (exec sample_registered
                (mkEnv 10 101, IssuePrescription 30 170 "loc1" 1100)).1.
      rewrite <- Hw at 2. rewrite <- Hr. apply surjective_pairing.
Defined.

(** ** Fulfilment *)

Lemma fulfill_world_record w e id :
  record (fulfill_world w e id) id
  = let r := record w id in
    mkPrescription (doctor r) (patient r) (contentHash r) (ipfsHash r)
      (issuedAt r) (expiryDate r)
      (fulfillments r ++
         [mkFulfillment (msg_sender e)
            (PharmacyRegistry.getPharmacyName (pharmacyRegistry w) (msg_sender e))
            (block_timestamp e)])
      (<[msg_sender e := true]> (hasFulfilled r)).
Proof. unfold record, fulfill_world, fulfill_post. cbn. by rewrite mget_insert_eq. Qed.

Lemma fulfill_world_exists w e id :
  prescriptionExists (ledger w) id = true →
  prescriptionExists (ledger (fulfill_world w e id)) id = true.
Proof.
  rewrite !prescriptionExists_true. intros Hd.
  change (doctor (record (fulfill_world w e id) id) ≠ address0).
  by rewrite fulfill_world_record.
Qed.

(** C3. For an existing record [id], two distinct authorized pharmacies
    [p] and [q] that have not fulfilled it, and call times within the
    expiry date: the first Fulfill by [p] succeeds; a second Fulfill by [p]
    reverts with the already-fulfilled error and leaves the world (so the
    fulfilment sequence) unchanged; a Fulfill by [q] still succeeds and
    appends one entry for [q] at the end of the sequence. *)
Theorem C3_fulfill_dedup (w : World) (id : bytes32) (p q : address)
    (t1 t2 t3 : uint256) :
  prescriptionExists (ledger w) id = true →
  p ≠ q →
  PharmacyRegistry.isVerifiedPharmacy (pharmacyRegistry w) p = true →
  PharmacyRegistry.isVerifiedPharmacy (pharmacyRegistry w) q = true →
  t1 <= expiryDate (record w id) →
  t2 <= expiryDate (record w id) →
  t3 <= expiryDate (record w id) →
  hasPharmacyFulfilled (ledger w) id p = false →
  hasPharmacyFulfilled (ledger w) id q = false →
  let first := exec w (mkEnv p t1, FulfillPrescription id) in
  let second := exec first.1 (mkEnv p t2, FulfillPrescription id) in
  let third := exec second.1 (mkEnv q t3, FulfillPrescription id) in
  first.2 = Ok VUnit
  ∧ fulfillments (record first.1 id)
    = fulfillments (record w id) ++
        [mkFulfillment p (PharmacyRegistry.getPharmacyName (pharmacyRegistry w) p) t1]
  ∧ second.2 = Revert PharmacyAlreadyFulfilled
  ∧ fails_with second.2 AlreadyFulfilledByParty
  ∧ second.1 = first.1
  ∧ fulfillments (record second.1 id) = fulfillments (record first.1 id)
  ∧ third.2 = Ok VUnit
  ∧ fulfillments (record third.1 id)
    = fulfillments (record first.1 id) ++
        [mkFulfillment q (PharmacyRegistry.getPharmacyName (pharmacyRegistry w) q) t3].
Proof.
  intros Hex Hpq Hp Hq H1 H2 H3 Hfp Hfq.
  apply N.leb_le in H1, H2, H3. unfold record in H1, H2, H3.
  cbn zeta.
  (* first call, by p *)
  rewrite (exec_fulfill w (mkEnv p t1) id). cbn [msg_sender block_timestamp].
  rewrite Hp, Hex, H1, Hfp. cbn [negb fst snd].
  set (w1 := fulfill_world w (mkEnv p t1) id).
  assert (Hex1 : prescriptionExists (ledger w1) id = true)
    by by apply fulfill_world_exists.
  assert (Hr1 : record w1 id = _) by apply fulfill_world_record.
  cbn [msg_sender block_timestamp] in Hr1. cbn zeta in Hr1.
  assert (Hexp1 : expiryDate (mget (prescriptions (ledger w1)) id)
                  = expiryDate (mget (prescriptions (ledger w)) id)).
  { change (expiryDate (record w1 id) = expiryDate (record w id)). by rewrite Hr1. }
  assert (Hfp1 : hasPharmacyFulfilled (ledger w1) id p = true).
  { unfold hasPharmacyFulfilled. change (mget (prescriptions (ledger w1)) id)
      with (record w1 id). rewrite Hr1. cbn. by rewrite mget_insert_eq. }
  assert (Hfq1 : hasPharmacyFulfilled (ledger w1) id q = false).
  { unfold hasPharmacyFulfilled. change (mget (prescriptions (ledger w1)) id)
      with (record w1 id). rewrite Hr1. cbn. by rewrite mget_insert_ne. }
  (* second call, by p again *)
  rewrite (exec_fulfill w1 (mkEnv p t2) id). cbn [msg_sender block_timestamp].
  change (pharmacyRegistry w1) with (pharmacyRegistry w).
  rewrite Hp, Hex1, Hexp1, H2, Hfp1. cbn [negb fst snd].
  (* third call, by q *)
  rewrite (exec_fulfill w1 (mkEnv q t3) id). cbn [msg_sender block_timestamp].
  change (pharmacyRegistry w1) with (pharmacyRegistry w).
  rewrite Hq, Hex1, Hexp1, H3, Hfq1. cbn [negb fst snd].
  rewrite fulfill_world_record. cbn [msg_sender block_timestamp fulfillments].
  change (pharmacyRegistry w1) with (pharmacyRegistry w).
  rewrite Hr1. cbn [fulfillments].
  repeat split; done.
Qed.

Lemma C3_fulfill_dedup_witness :
  (exec sample_issued (mkEnv 20 102, FulfillPrescription 170)).2 = Ok VUnit.
Proof.
  refine (proj1 (C3_fulfill_dedup sample_issued 170 20 21 102 103 104
                   _ _ _ _ _ _ _ _ _)).
  - vm_compute. reflexivity.
  - lia.
  - vm_compute. reflexivity.
  - vm_compute. reflexivity.
  - vm_compute. discriminate.
  - vm_compute. discriminate.
  - vm_compute. discriminate.
  - vm_compute. reflexivity.
  - vm_compute. reflexivity.
Defined.

(** C4. For an existing record and an authorized pharmacy that has not yet
    fulfilled it, Fulfill succeeds at a call time equal to the expiry date
    and reverts with the expired error one second later. *)
Theorem C4_expiry_boundary (w : World) (id : bytes32) (p : address) :
  prescriptionExists (ledger w) id = true →
  PharmacyRegistry.isVerifiedPharmacy (pharmacyRegistry w) p = true →
  hasPharmacyFulfilled (ledger w) id p = false →
  let at_expiry := mkEnv p (expiryDate (record w id)) in
  let after_expiry := mkEnv p (expiryDate (record w id) + 1) in
  (exec w (at_expiry, FulfillPrescription id)).2 = Ok VUnit
  ∧ exec w (after_expiry, FulfillPrescription id) = (w, Revert PrescriptionExpired)
  ∧ fails_with (exec w (after_expiry, FulfillPrescription id)).2 Expired.
Proof.
  intros Hex Hp Hf. cbn zeta. unfold record.
  rewrite !exec_fulfill. cbn [msg_sender block_timestamp].
  rewrite Hp, Hex, Hf. cbn [negb].
  rewrite N.leb_refl. cbn [negb fst snd].
  assert ((expiryDate (mget (prescriptions (ledger w)) id) + 1
           <=? expiryDate (mget (prescriptions (ledger w)) id))%N = false) as ->
    by (apply N.leb_gt; lia).
  cbn. done.
Qed.

Lemma C4_expiry_boundary_witness :
  (exec sample_issued (mkEnv 20 1100, FulfillPrescription 170)).2 = Ok VUnit
  ∧ exec sample_issued (mkEnv 20 1101, FulfillPrescription 170)
    = (sample_issued, Revert PrescriptionExpired).
Proof.
  destruct (C4_expiry_boundary sample_issued 170 20) as (Hat & Hafter & _).
  - vm_compute. reflexivity.
  - vm_compute. reflexivity.
  - vm_compute. reflexivity.
  - split; [exact Hat | exact Hafter].
Defined.

(** ** Fulfilling an unknown prescription *)

(** C5 as stated fails: on the freshly deployed system, an unregistered
    caller that fulfils the unknown id 7 is turned away for lack of
    authorization, not because the prescription is missing. *)
Lemma C5_unknown_id_unauthorized_caller :
  prescriptionExists (ledger (deploy 1 1)) 7 = false
  ∧ PharmacyRegistry.isVerifiedPharmacy (pharmacyRegistry (deploy 1 1)) 20 = false
  ∧ (exec (deploy 1 1) (mkEnv 20 5, FulfillPrescription 7)).2
    = Revert NotVerifiedPharmacy
  ∧ ¬ fails_with (exec (deploy 1 1) (mkEnv 20 5, FulfillPrescription 7)).2 NotFound.
Proof.
  repeat split; try reflexivity. vm_compute. discriminate.
Qed.

(** C5, amended. For an id under which no prescription exists, Fulfill
    always reverts and changes nothing: with the not-found error when the
    caller is a verified pharmacy, and with the authorization error when
    it is not, the authorization check being decided first. *)
Theorem C5_fulfill_unknown_id (w : World) (e : Env) (id : bytes32) :
  prescriptionExists (ledger w) id = false →
  let res := exec w (e, FulfillPrescription id) in
  res.1 = w
  ∧ (PharmacyRegistry.isVerifiedPharmacy (pharmacyRegistry w) (msg_sender e) = true →
     res.2 = Revert PrescriptionDoesNotExist ∧ fails_with res.2 NotFound)
  ∧ (PharmacyRegistry.isVerifiedPharmacy (pharmacyRegistry w) (msg_sender e) = false →
     res.2 = Revert NotVerifiedPharmacy ∧ fails_with res.2 Unauthorized).
Proof.
  intros Hn. cbn zeta. rewrite exec_fulfill, Hn. cbn [negb].
  destruct (PharmacyRegistry.isVerifiedPharmacy _ _); cbn [negb fst snd];
    repeat split; done.
Qed.

Lemma C5_fulfill_unknown_id_witness :
  (exec sample_issued (mkEnv 20 102, FulfillPrescription 171)).2
  = Revert PrescriptionDoesNotExist
  ∧ (exec sample_issued (mkEnv 40 102, FulfillPrescription 171)).2
    = Revert NotVerifiedPharmacy.
Proof.
  split.
  - refine (proj1 (proj1 (proj2 (C5_fulfill_unknown_id sample_issued
                                   (mkEnv 20 102) 171 _)) _)).
    + vm_compute. reflexivity.
    + vm_compute. reflexivity.
  - refine (proj1 (proj2 (proj2 (C5_fulfill_unknown_id sample_issued
                                   (mkEnv 40 102) 171 _)) _)).
    + vm_compute. reflexivity.
    + vm_compute. reflexivity.
Defined.

(** ** Who may issue, and to whom *)

Lemma exec_registerDoctor w e a n l sp :
  DoctorRegistry.isActive (mget (DoctorRegistry.doctors (doctorRegistry w)) a) = false →
  exec w (e, RegisterDoctor a n l sp)
  = (mkWorld
       (DoctorRegistry.mkState
          (DoctorRegistry.owner (doctorRegistry w))
          (<[a := DoctorRegistry.mkDoctor n l sp true (block_timestamp e)]>
             (DoctorRegistry.doctors (doctorRegistry w)))
          (<[a := true]> (DoctorRegistry.verified (doctorRegistry w))))
       (pharmacyRegistry w) (ledger w)
       (log w ++ [LogDoctor (DoctorRegistry.DoctorRegistered a n l)]),
     Ok VUnit).
Proof.
  intros Hn. unfold exec, call. cbn [fst snd].
  unfold DoctorRegistry.registerDoctor. rewrite Hn. reflexivity.
Qed.

(** C9. Whoever the caller is, registering an address that is not an
    active doctor succeeds and makes that address a verified doctor, the
    very check [issuePrescription] performs on its sender: afterwards an
    Issue sent from that address is never refused for lack of
    authorization, and succeeds for a fresh content hash and a future
    expiry. *)
Theorem C9_register_doctor_open (w : World) (e : Env) (a : address)
    (n l sp : string) :
  DoctorRegistry.isActive (mget (DoctorRegistry.doctors (doctorRegistry w)) a) = false →
  let after := exec w (e, RegisterDoctor a n l sp) in
  after.2 = Ok VUnit
  ∧ DoctorRegistry.isVerifiedDoctor (doctorRegistry after.1) a = true
  ∧ ledger after.1 = ledger w
  ∧ ∀ (t : uint256) (p : address) (h : bytes32) (i : string) (x : uint256),
      (exec after.1 (mkEnv a t, IssuePrescription p h i x)).2 ≠ Revert NotVerifiedDoctor
      ∧ (t < x → prescriptionExists (ledger w) h = false →
         (exec after.1 (mkEnv a t, IssuePrescription p h i x)).2 = Ok (VBytes32 h)).
Proof.
  intros Hn. cbn zeta. rewrite exec_registerDoctor by done. cbn [fst snd].
  set (w' := mkWorld _ _ _ _).
  assert (Hv : DoctorRegistry.isVerifiedDoctor (doctorRegistry w') a = true).
  { unfold DoctorRegistry.isVerifiedDoctor. cbn. by rewrite mget_insert_eq. }
  split; [done|]. split; [done|]. split; [done|].
  intros t p h i x. rewrite exec_issue. cbn [msg_sender block_timestamp].
  rewrite Hv. cbn [negb]. change (ledger w') with (ledger w). split.
  - destruct (t <? x)%N; [|done]. cbn [negb].
    destruct (prescriptionExists (ledger w) h); done.
  - intros Ht Hf. apply N.ltb_lt in Ht. rewrite Ht, Hf. done.
Qed.

Lemma C9_register_doctor_open_witness :
  DoctorRegistry.isVerifiedDoctor
    (doctorRegistry (exec (deploy 1 1) (mkEnv 50 7, RegisterDoctor 50 "Dr B" "LIC-2" "ENT")).1)
    50 = true.
Proof.
  refine (proj1 (proj2 (C9_register_doctor_open (deploy 1 1) (mkEnv 50 7) 50
                          "Dr B" "LIC-2" "ENT" _))).
  vm_compute. reflexivity.
Defined.

(** C10. The recipient plays no part in whether Issue succeeds: the
    outcome of the call is the same for any two recipients.  Whenever the
    sender is a verified doctor, the expiry lies in the future and the
    content hash is not yet recorded, Issue succeeds for every recipient,
    the zero address included, stores the record with that recipient and
    appends the id to that recipient's list. *)
Theorem C10_recipient_unchecked (w : World) (e : Env) (h : bytes32)
    (i : string) (x : uint256) :
  (∀ p p' : address,
     (exec w (e, IssuePrescription p h i x)).2
     = (exec w (e, IssuePrescription p' h i x)).2)
  ∧ (DoctorRegistry.isVerifiedDoctor (doctorRegistry w) (msg_sender e) = true →
     block_timestamp e < x →
     prescriptionExists (ledger w) h = false →
     ∀ p : address,
       let after := exec w (e, IssuePrescription p h i x) in
       after.2 = Ok (VBytes32 h)
       ∧ patient (record after.1 h) = p
       ∧ doctor (record after.1 h) = msg_sender e
       ∧ getPatientPrescriptionIds (ledger after.1) p
         = getPatientPrescriptionIds (ledger w) p ++ [h]).
Proof.
  split.
  - intros p p'. rewrite !exec_issue.
    destruct (DoctorRegistry.isVerifiedDoctor _ _); [|done].
    destruct (block_timestamp e <? x)%N; [|done].
    destruct (prescriptionExists _ _); done.
  - intros Hv Ht Hf p. cbn zeta. apply N.ltb_lt in Ht.
    rewrite exec_issue, Hv, Ht, Hf. cbn [negb fst snd].
    unfold record, getPatientPrescriptionIds. cbn.
    rewrite !mget_insert_eq. done.
Qed.

Lemma C10_recipient_unchecked_witness :
  let after :=
    exec sample_registered (mkEnv 10 101, IssuePrescription address0 170 "loc1" 1100) in
  after.2 = Ok (VBytes32 170)
  ∧ patient (record after.1 170) = address0
  ∧ doctor (record after.1 170) = 10
  ∧ getPatientPrescriptionIds (ledger after.1) address0
    = getPatientPrescriptionIds (ledger sample_registered) address0 ++ [170].
Proof.
  refine (proj2 (C10_recipient_unchecked sample_registered (mkEnv 10 101) 170
                   "loc1" 1100) _ _ _ address0).
  - vm_compute. reflexivity.
  - vm_compute. reflexivity.
  - vm_compute. reflexivity.
Defined.

(** ** What a transaction can do to the ledger *)

Lemma issued_app_other w l :
  omap issuedOf l = [] → omap issuedOf (log w ++ l) = issued w.
Proof. intros Hl. rewrite omap_app, Hl. apply app_nil_r. Qed.

Lemma exec_effect w tx : Effect w tx (exec w tx).1.
Proof.
  destruct tx as [e c]. destruct c.
  - unfold exec, call. cbn [fst snd].
    destruct (DoctorRegistry.registerDoctor _ _ _ _ _ _) as [[s evs]|] eqn:E;
      cbn; [|by constructor].
    constructor; [done|]. unfold issued. cbn [log]. apply issued_app_other.
    unfold DoctorRegistry.registerDoctor in E.
    destruct (negb _); [|done]. by inversion E.
  - unfold exec, call. cbn [fst snd].
    destruct (DoctorRegistry.deactivateDoctor _ _ _) as [[s evs]|] eqn:E;
      cbn; [|by constructor].
    constructor; [done|]. unfold issued. cbn [log]. apply issued_app_other.
    unfold DoctorRegistry.deactivateDoctor in E.
    destruct (msg_sender e =? _)%N; [|done].
    cbn in E. destruct (DoctorRegistry.isActive _); [|done]. by inversion E.
  - unfold exec, call. cbn [fst snd].
    destruct (DoctorRegistry.transferOwnership _ _ _) as [[s evs]|] eqn:E;
      cbn; [|by constructor].
    constructor; [done|]. unfold issued. cbn [log]. apply issued_app_other.
    unfold DoctorRegistry.transferOwnership in E.
    destruct (msg_sender e =? _)%N; [|done].
    cbn in E. destruct (negb _); [|done]. by inversion E.
  - unfold exec, call. cbn [fst snd].
    destruct (DoctorRegistry.renounceOwnership _ _) as [[s evs]|] eqn:E;
      cbn; [|by constructor].
    constructor; [done|]. unfold issued. cbn [log]. apply issued_app_other.
    unfold DoctorRegistry.renounceOwnership in E.
    destruct (msg_sender e =? _)%N; [|done]. by inversion E.
  - unfold exec, call. cbn [fst snd].
    destruct (PharmacyRegistry.registerPharmacy _ _ _ _) as [[s evs]|] eqn:E;
      cbn; [|by constructor].
    constructor; [done|]. unfold issued. cbn [log]. apply issued_app_other.
    unfold PharmacyRegistry.registerPharmacy in E.
    destruct (negb (_ =? _)%N); [|done]. destruct (nonempty _name); [|done].
    cbn in E. destruct (negb _); [|done]. by inversion E.
  - unfold exec, call. cbn [fst snd].
    destruct (PharmacyRegistry.removePharmacy _ _ _) as [[s evs]|] eqn:E;
      cbn; [|by constructor].
    constructor; [done|]. unfold issued. cbn [log]. apply issued_app_other.
    unfold PharmacyRegistry.removePharmacy in E.
    destruct (nonempty _); [|done]. by inversion E.
  - rewrite exec_issue.
    destruct (negb (DoctorRegistry.isVerifiedDoctor _ _)); [by constructor|].
    destruct (negb (_ <? _)%N); [by constructor|].
    destruct (prescriptionExists _ _) eqn:Hex; [by constructor|].
    cbn [fst]. by eapply (effect_issue w (e, _)).
  - rewrite exec_fulfill.
    destruct (negb (PharmacyRegistry.isVerifiedPharmacy _ _)); [by constructor|].
    destruct (prescriptionExists _ _) eqn:Hex; cbn [negb]; [|by constructor].
    destruct (negb (_ <=? _)%N); [by constructor|].
    destruct (hasPharmacyFulfilled _ _ _); [by constructor|].
    cbn [fst]. by eapply (effect_fulfill w (e, _)).
  - by constructor.
  - unfold exec, call. cbn [fst snd].
    destruct (getPrescriptionDetails _ _); cbn; by constructor.
  - by constructor.
  - by constructor.
  - by constructor.
Qed.

(** The record read back after each of the two writes. *)
Lemma issue_world_record w e p h i x id :
  record (issue_world w e p h i x) id
  = if decide (h = id)
    then mkPrescription (msg_sender e) p h i (block_timestamp e) x
           (fulfillments (record w h)) (hasFulfilled (record w h))
    else record w id.
Proof. unfold record, issue_world, issue_post. cbn. by rewrite mget_insert. Qed.

Lemma fulfill_world_record_ne w e id id' :
  id ≠ id' → record (fulfill_world w e id) id' = record w id'.
Proof.
  intros. unfold record, fulfill_world, fulfill_post. cbn. by rewrite mget_insert_ne.
Qed.

Lemma issue_world_issued w e p h i x :
  issued (issue_world w e p h i x) = issued w ++ [(h, msg_sender e, p)].
Proof. unfold issued, issue_world. cbn [log]. by rewrite omap_app. Qed.

Lemma fulfill_world_issued w e id : issued (fulfill_world w e id) = issued w.
Proof. unfold issued, fulfill_world. cbn [log]. by rewrite omap_app, app_nil_r. Qed.

Lemma prescriptionExists_record w id :
  prescriptionExists (ledger w) id = negb (doctor (record w id) =? address0)%N.
Proof. reflexivity. Qed.

(** A property of the deployed system that every transaction of a given
    kind preserves holds after every trace of such transactions. *)
Lemma run_invariant (P : World → Prop) (ok : Env * Call → Prop) w txs :
  P w →
  (∀ w tx, P w → ok tx → P (exec w tx).1) →
  Forall ok txs →
  P (run w txs).
Proof.
  intros Hw Hstep. revert w Hw.
  induction txs as [|tx txs IH]; intros w Hw Hok; [done|].
  inversion Hok; subst. cbn. apply IH; [by apply Hstep|done].
Qed.

(** ** The stored content hash is the key *)

Lemma hash_is_key_deploy o d : hash_is_key (deploy o d).
Proof. intros id Hex. by vm_compute in Hex. Qed.

(** No transaction moves an existing prescription or rewrites its hash. *)
Lemma exec_keeps_hash w tx id :
  prescriptionExists (ledger w) id = true →
  prescriptionExists (ledger (exec w tx).1) id = true
  ∧ contentHash (record (exec w tx).1 id) = contentHash (record w id).
Proof.
  intros Hex. destruct (exec_effect w tx) as [w' Hl _|p h i x _ Hfresh|id' _ Hex'].
  - unfold record. by rewrite Hl.
  - assert (h ≠ id) by (intros ->; congruence).
    rewrite prescriptionExists_record, issue_world_record.
    case_decide; [done|]. by rewrite <- prescriptionExists_record.
  - destruct (decide (id' = id)) as [->|Hne].
    + split; [by apply fulfill_world_exists|]. by rewrite fulfill_world_record.
    + rewrite prescriptionExists_record, fulfill_world_record_ne by done.
      by rewrite <- prescriptionExists_record.
Qed.

Lemma hash_is_key_exec w tx : hash_is_key w → hash_is_key (exec w tx).1.
Proof.
  intros Hinv id. destruct (exec_effect w tx) as [w' Hl _|p h i x _ Hfresh|id' _ Hex'].
  - unfold record, hash_is_key in *. rewrite Hl. apply Hinv.
  - rewrite prescriptionExists_record, issue_world_record.
    case_decide; [by subst|]. rewrite <- prescriptionExists_record. apply Hinv.
  - destruct (decide (id' = id)) as [->|Hne].
    + intros _. rewrite fulfill_world_record. cbn. by apply Hinv.
    + rewrite prescriptionExists_record, fulfill_world_record_ne by done.
      rewrite <- prescriptionExists_record. apply Hinv.
Qed.

(** C7. After any sequence of transactions on the deployed system, every
    existing prescription stores as content hash the id it is filed under;
    a successful Issue of [h] stores [h] in the record filed under [h];
    and no transaction removes an existing prescription from its id or
    changes its stored content hash. *)
Theorem C7_fingerprint_is_id :
  (∀ (o d : address) (txs : list (Env * Call)) (id : bytes32),
     prescriptionExists (ledger (run (deploy o d) txs)) id = true →
     contentHash (record (run (deploy o d) txs) id) = id)
  ∧ (∀ (w : World) (e : Env) (p : address) (h : bytes32) (i : string) (x : uint256),
       (exec w (e, IssuePrescription p h i x)).2 = Ok (VBytes32 h) →
       contentHash (record (exec w (e, IssuePrescription p h i x)).1 h) = h)
  ∧ (∀ (w : World) (tx : Env * Call) (id : bytes32),
       prescriptionExists (ledger w) id = true →
       prescriptionExists (ledger (exec w tx).1) id = true
       ∧ contentHash (record (exec w tx).1 id) = contentHash (record w id)).
Proof.
  split; [|split].
  - intros o d txs.
    apply (run_invariant hash_is_key (λ _, True)).
    + apply hash_is_key_deploy.
    + intros w tx Hw _. by apply hash_is_key_exec.
    + by apply Forall_true.
  - intros w e p h i x. rewrite exec_issue.
    destruct (negb (DoctorRegistry.isVerifiedDoctor _ _)); [done|].
    destruct (negb (_ <? _)%N); [done|].
    destruct (prescriptionExists _ _); [done|].
    intros _. cbn [fst]. rewrite issue_world_record. by case_decide.
  - apply exec_keeps_hash.
Qed.

Lemma C7_fingerprint_is_id_witness :
  contentHash (record sample_issued 170) = 170
  ∧ contentHash
      (record (exec sample_issued (mkEnv 20 102, FulfillPrescription 170)).1 170)
    = contentHash (record sample_issued 170).
Proof.
  destruct C7_fingerprint_is_id as (Hinv & _ & Hkeep). split.
  - refine (Hinv 1 1
             [ (mkEnv 10 100, RegisterDoctor 10 "Dr A" "LIC-1" "GP");
               (mkEnv 20 100, RegisterPharmacy 20 "Pharmacy X");
               (mkEnv 21 100, RegisterPharmacy 21 "Pharmacy Y");
               (mkEnv 10 101, IssuePrescription 30 170 "loc1" 1100) ] 170 _).
    vm_compute. reflexivity.
  - refine (proj2 (Hkeep sample_issued (mkEnv 20 102, FulfillPrescription 170) 170 _)).
    vm_compute. reflexivity.
Defined.

(** ** Unknown ids: the fulfilment flag and the details *)

Lemma hasPharmacyFulfilled_record w id a :
  hasPharmacyFulfilled (ledger w) id a = mget (hasFulfilled (record w id)) a.
Proof. reflexivity. Qed.

Lemma unknown_unfulfilled_deploy o d : unknown_unfulfilled (deploy o d).
Proof. intros id a _. reflexivity. Qed.

Lemma unknown_unfulfilled_exec w tx :
  unknown_unfulfilled w → unknown_unfulfilled (exec w tx).1.
Proof.
  intros Hinv id a.
  destruct (exec_effect w tx) as [w' Hl _|p h i x _ Hfresh|id' _ Hex'].
  - unfold unknown_unfulfilled in Hinv. rewrite Hl. apply Hinv.
  - rewrite hasPharmacyFulfilled_record, prescriptionExists_record,
      issue_world_record.
    case_decide as Hid.
    + subst id. intros _. cbn [hasFulfilled].
      rewrite <- hasPharmacyFulfilled_record. by apply Hinv.
    + rewrite <- hasPharmacyFulfilled_record, <- prescriptionExists_record.
      apply Hinv.
  - destruct (decide (id' = id)) as [->|Hne].
    + intros Hno. by rewrite fulfill_world_exists in Hno.
    + rewrite hasPharmacyFulfilled_record, prescriptionExists_record,
        fulfill_world_record_ne by done.
      rewrite <- hasPharmacyFulfilled_record, <- prescriptionExists_record.
      apply Hinv.
Qed.

(** C8. [hasPharmacyFulfilled] never reverts, in any world; after any
    sequence of transactions on the deployed system it answers false for
    an id under which no prescription exists, whereas
    [getPrescriptionDetails] reverts with the not-found error for the same
    id. *)
Theorem C8_unknown_id_asymmetry :
  (∀ (w : World) (e : Env) (id : bytes32) (party : address),
     exec w (e, HasPharmacyFulfilled id party)
     = (w, Ok (VBool (hasPharmacyFulfilled (ledger w) id party))))
  ∧ (∀ (o d : address) (txs : list (Env * Call)) (e : Env) (id : bytes32)
       (party : address),
       let w := run (deploy o d) txs in
       prescriptionExists (ledger w) id = false →
       exec w (e, HasPharmacyFulfilled id party) = (w, Ok (VBool false))
       ∧ exec w (e, GetPrescriptionDetails id) = (w, Revert PrescriptionDoesNotExist)
       ∧ fails_with (exec w (e, GetPrescriptionDetails id)).2 NotFound).
Proof.
  split; [done|].
  intros o d txs e id party w Hno.
  assert (Hinv : unknown_unfulfilled w).
  { apply (run_invariant unknown_unfulfilled (λ _, True)).
    - apply unknown_unfulfilled_deploy.
    - intros w' tx Hw' _. by apply unknown_unfulfilled_exec.
    - by apply Forall_true. }
  split.
  - unfold exec, call. cbn [fst snd]. by rewrite (Hinv id party Hno).
  - assert (exec w (e, GetPrescriptionDetails id)
            = (w, Revert PrescriptionDoesNotExist)) as ->; [|done].
    unfold exec, call, getPrescriptionDetails. cbn [fst snd].
    unfold prescriptionExists in Hno. by rewrite Hno.
Qed.

Lemma C8_unknown_id_asymmetry_witness :
  exec sample_issued (mkEnv 20 102, HasPharmacyFulfilled 171 20)
  = (sample_issued, Ok (VBool false))
  ∧ exec sample_issued (mkEnv 20 102, GetPrescriptionDetails 171)
    = (sample_issued, Revert PrescriptionDoesNotExist).
Proof.
  destruct (proj2 C8_unknown_id_asymmetry 1 1
              [ (mkEnv 10 100, RegisterDoctor 10 "Dr A" "LIC-1" "GP");
                (mkEnv 20 100, RegisterPharmacy 20 "Pharmacy X");
                (mkEnv 21 100, RegisterPharmacy 21 "Pharmacy Y");
                (mkEnv 10 101, IssuePrescription 30 170 "loc1" 1100) ]
              (mkEnv 20 102) 171 20) as (Hflag & Hdetails & _).
  - vm_compute. reflexivity.
  - split; [exact Hflag | exact Hdetails].
Defined.

(** ** The two query indexes *)

Lemma index_consistent_deploy o d : index_consistent (deploy o d).
Proof.
  split.
  - done.
  - done.
  - intros id a p Hin. by apply elem_of_nil in Hin.
  - intros id Hex. by vm_compute in Hex.
  - constructor.
Qed.

Lemma index_consistent_issue w e p h i x :
  index_consistent w →
  msg_sender e ≠ address0 →
  prescriptionExists (ledger w) h = false →
  index_consistent (issue_world w e p h i x).
Proof.
  intros [Hpat Hdoc Hiss Hexs Hnd] Hsender Hfresh.
  apply prescriptionExists_false in Hfresh.
  assert (Hold : ∀ id a q, (id, a, q) ∈ issued w → h ≠ id).
  { intros id a q Hin ->. destruct (Hiss _ _ _ Hin) as (Ha & Hd & _).
    unfold record in Hd. congruence. }
  split.
  - intros r. unfold issuedTo. rewrite issue_world_issued, omap_app.
    unfold issuedTo in Hpat. rewrite <- Hpat.
    unfold getPatientPrescriptionIds, issue_world, issue_post. cbn.
    rewrite mget_insert. case_decide; [by subst|by rewrite app_nil_r].
  - intros a. unfold issuedBy. rewrite issue_world_issued, omap_app.
    unfold issuedBy in Hdoc. rewrite <- Hdoc.
    unfold getDoctorPrescriptionIds, issue_world, issue_post. cbn.
    rewrite mget_insert. case_decide; [by subst|by rewrite app_nil_r].
  - intros id a q. rewrite issue_world_issued, elem_of_app, list_elem_of_singleton.
    rewrite issue_world_record. intros [Hin|Heq].
    + pose proof (Hold _ _ _ Hin). case_decide; [done|]. by apply Hiss.
    + inversion Heq; subst. case_decide; done.
  - intros id. rewrite prescriptionExists_record, !issue_world_record.
    rewrite issue_world_issued, elem_of_app, list_elem_of_singleton.
    case_decide.
    + subst. intros _. by right.
    + rewrite <- prescriptionExists_record. intros Hex. left. by apply Hexs.
  - rewrite issue_world_issued, !fmap_app. cbn.
    apply NoDup_app. split; [done|]. split; [|apply NoDup_singleton].
    intros id Hin Heq. apply list_elem_of_singleton in Heq. subst id.
    apply list_elem_of_fmap in Hin as ([id a] & Heq & Hin). cbn in Heq. subst id.
    apply list_elem_of_fmap in Hin as ([[id a'] q] & Heq & Hin).
    cbn in Heq. inversion Heq; subst. by eapply Hold.
Qed.

Lemma index_consistent_fulfill w e id :
  index_consistent w →
  index_consistent (fulfill_world w e id).
Proof.
  intros [Hpat Hdoc Hiss Hexs Hnd].
  assert (Hrec : ∀ id', doctor (record (fulfill_world w e id) id') = doctor (record w id')
                        ∧ patient (record (fulfill_world w e id) id')
                          = patient (record w id')).
  { intros id'. destruct (decide (id = id')) as [->|Hne].
    - by rewrite fulfill_world_record.
    - by rewrite fulfill_world_record_ne. }
  split.
  - intros r. unfold issuedTo. rewrite fulfill_world_issued. apply Hpat.
  - intros a. unfold issuedBy. rewrite fulfill_world_issued. apply Hdoc.
  - intros id' a q. rewrite fulfill_world_issued.
    destruct (Hrec id') as [-> ->]. apply Hiss.
  - intros id'. rewrite prescriptionExists_record, fulfill_world_issued.
    destruct (Hrec id') as [-> ->]. apply Hexs.
  - by rewrite fulfill_world_issued.
Qed.

Lemma index_consistent_exec w tx :
  index_consistent w → from_account tx → index_consistent (exec w tx).1.
Proof.
  intros Hinv Hsender.
  destruct (exec_effect w tx) as [w' Hl Hi|p h i x _ Hfresh|id' _ Hex'].
  - destruct Hinv as [Hpat Hdoc Hiss Hexs Hnd].
    split; unfold issuedTo, issuedBy, record; rewrite ?Hl, ?Hi; done.
  - by apply index_consistent_issue.
  - by apply index_consistent_fulfill.
Qed.

Lemma elem_of_issuedTo w r id :
  id ∈ issuedTo w r ↔ ∃ d, (id, d, r) ∈ issued w.
Proof.
  unfold issuedTo. rewrite list_elem_of_omap. split.
  - intros ([[id' d] p] & Hin & Hsome). cbn in Hsome.
    case_decide; [|done]. inversion Hsome; subst. by exists d.
  - intros (d & Hin). exists (id, d, r). split; [done|]. cbn. by case_decide.
Qed.

Lemma elem_of_issuedBy w d id :
  id ∈ issuedBy w d ↔ ∃ r, (id, d, r) ∈ issued w.
Proof.
  unfold issuedBy. rewrite list_elem_of_omap. split.
  - intros ([[id' d'] p] & Hin & Hsome). cbn in Hsome.
    case_decide; [|done]. inversion Hsome; subst. by exists p.
  - intros (r & Hin). exists (id, d, r). split; [done|]. cbn. by case_decide.
Qed.

(** Selecting ids from events whose ids are pairwise distinct gives
    pairwise distinct ids. *)
Lemma NoDup_select (P : bytes32 * address * address → Prop)
    `{!∀ ev, Decision (P ev)} (l : list (bytes32 * address * address)) :
  NoDup l.*1.*1 →
  NoDup (omap (λ ev, if decide (P ev) then Some ev.1.1 else None) l).
Proof.
  induction l as [|ev l IH]; cbn; [constructor|].
  rewrite NoDup_cons. intros [Hnotin Hnd].
  destruct (decide (P ev)); [|by apply IH].
  cbn. apply NoDup_cons. split; [|by apply IH].
  intros Hin. apply Hnotin.
  apply list_elem_of_omap in Hin as (ev' & Hin' & Hsome).
  destruct (decide (P ev')); [|done]. inversion Hsome as [Heq].
  apply list_elem_of_fmap. exists ev'.1. split; [done|].
  apply list_elem_of_fmap. by exists ev'.
Qed.

Lemma NoDup_issuedTo w r : NoDup (issued w).*1.*1 → NoDup (issuedTo w r).
Proof. apply (NoDup_select (λ ev, ev.2 = r)). Qed.

Lemma NoDup_issuedBy w d : NoDup (issued w).*1.*1 → NoDup (issuedBy w d).
Proof. apply (NoDup_select (λ ev, ev.1.2 = d)). Qed.

(** C6. After any sequence of transactions sent by accounts to the freshly
    deployed system, the list returned for a patient [r] is the list of
    ids of the [PrescriptionIssued] events with patient [r], oldest first,
    has no repetition, and contains exactly the ids of the existing
    prescriptions whose patient is [r]; likewise for a doctor; and an Issue
    that reverts leaves the world, hence both lists, as they were. *)
Theorem C6_index_consistency (o d : address) (txs : list (Env * Call)) :
  Forall from_account txs →
  let w := run (deploy o d) txs in
  (∀ r : address,
     getPatientPrescriptionIds (ledger w) r = issuedTo w r
     ∧ NoDup (getPatientPrescriptionIds (ledger w) r)
     ∧ ∀ id, id ∈ getPatientPrescriptionIds (ledger w) r ↔
             prescriptionExists (ledger w) id = true ∧ patient (record w id) = r)
  ∧ (∀ a : address,
       getDoctorPrescriptionIds (ledger w) a = issuedBy w a
       ∧ NoDup (getDoctorPrescriptionIds (ledger w) a)
       ∧ ∀ id, id ∈ getDoctorPrescriptionIds (ledger w) a ↔
               prescriptionExists (ledger w) id = true ∧ doctor (record w id) = a)
  ∧ (∀ (e : Env) (p : address) (h : bytes32) (i : string) (x : uint256) (err : Error),
       (exec w (e, IssuePrescription p h i x)).2 = Revert err →
       (exec w (e, IssuePrescription p h i x)).1 = w
       ∧ (∀ r, getPatientPrescriptionIds
                 (ledger (exec w (e, IssuePrescription p h i x)).1) r
               = getPatientPrescriptionIds (ledger w) r)
       ∧ (∀ a, getDoctorPrescriptionIds
                 (ledger (exec w (e, IssuePrescription p h i x)).1) a
               = getDoctorPrescriptionIds (ledger w) a)).
Proof.
  intros Hok w.
  assert (Hinv : index_consistent w).
  { apply (run_invariant index_consistent from_account).
    - apply index_consistent_deploy.
    - intros w' tx. apply index_consistent_exec.
    - done. }
  destruct Hinv as [Hpat Hdoc Hiss Hexs Hnd].
  split; [|split].
  - intros r. rewrite Hpat. split; [done|]. split; [by apply NoDup_issuedTo|].
    intros id. rewrite elem_of_issuedTo. split.
    + intros (a & Hin). destruct (Hiss _ _ _ Hin) as (Ha & Hd & Hp).
      split; [|done]. apply prescriptionExists_true. unfold record in Hd. by rewrite Hd.
    + intros (Hex & <-). eexists. by apply Hexs.
  - intros a. rewrite Hdoc. split; [done|]. split; [by apply NoDup_issuedBy|].
    intros id. rewrite elem_of_issuedBy. split.
    + intros (r & Hin). destruct (Hiss _ _ _ Hin) as (Ha & Hd & Hp).
      split; [|done]. apply prescriptionExists_true. unfold record in Hd. by rewrite Hd.
    + intros (Hex & <-). eexists. by apply Hexs.
  - intros e p h i x err Hrev. apply exec_revert in Hrev. by rewrite Hrev.
Qed.

Lemma C6_index_consistency_witness :
  getPatientPrescriptionIds (ledger (run (deploy 1 1) sample_trace)) 30
  = issuedTo (run (deploy 1 1) sample_trace) 30.
Proof.
  refine (proj1 (proj1 (C6_index_consistency 1 1 sample_trace _) 30)).
  unfold sample_trace, from_account.
  repeat (constructor; [vm_compute; lia|]). constructor.
Defined.

(** ** The scenario of the design document *)

Example scenario_patient_index :
  getPatientPrescriptionIds (ledger (run (deploy 1 1) sample_trace)) 30 = [170; 172]
  ∧ getPatientPrescriptionIds (ledger (run (deploy 1 1) sample_trace)) 31 = [171]
  ∧ getDoctorPrescriptionIds (ledger (run (deploy 1 1) sample_trace)) 10
    = [170; 171; 172].
Proof. repeat split; reflexivity. Qed.

Example scenario_verify :
  let text (n : bytes32) := Ethers.hexlify 32 n in
  PharmacyDashboard.verdict sample_issued 20 102 102 (text 170) (text 170)
  = PharmacyDashboard.Valid
  ∧ PharmacyDashboard.verdict sample_issued 20 102 102 (text 170) (text 187)
    = PharmacyDashboard.ContentMismatch
  ∧ PharmacyDashboard.verdict sample_issued 20 102 102 (text 204) (text 204)
    = PharmacyDashboard.NotFound
  ∧ PharmacyDashboard.verdict sample_issued 20 1101 1101 (text 170) (text 170)
    = PharmacyDashboard.Expired
  ∧ PharmacyDashboard.verdict sample_issued 20 1100 1100 (text 170) (text 170)
    = PharmacyDashboard.Valid.
Proof. vm_compute. repeat split. Qed.

Example scenario_fulfill :
  let w1 := run sample_issued [ (mkEnv 20 102, FulfillPrescription 170) ] in
  let w2 := run w1 [ (mkEnv 21 103, FulfillPrescription 170) ] in
  length (fulfillments (record w1 170)) = 1%nat
  ∧ (exec w1 (mkEnv 20 103, FulfillPrescription 170)).2 = Revert PharmacyAlreadyFulfilled
  ∧ length (fulfillments (record w2 170)) = 2%nat.
Proof. repeat split; reflexivity. Qed.

(** * Further properties of the contracts *)

(** ** Every transaction is one of nine transitions *)

Ltac run_call :=
  cbn [negb require mbind Result_bind fst snd map].

Lemma exec_step w e c : Step w e (exec w (e, c)).1.
Proof.
  destruct c.
  - unfold exec, call. cbn [fst snd]. unfold DoctorRegistry.registerDoctor.
    destruct (DoctorRegistry.isActive _) eqn:Ha; run_call; [constructor|].
    by apply step_registerDoctor.
  - unfold exec, call. cbn [fst snd]. unfold DoctorRegistry.deactivateDoctor.
    destruct (N.eqb_spec (msg_sender e) (DoctorRegistry.owner (doctorRegistry w)));
      run_call; [|constructor].
    destruct (DoctorRegistry.isActive _) eqn:Ha; run_call; [|constructor].
    by apply step_deactivateDoctor.
  - unfold exec, call. cbn [fst snd]. unfold DoctorRegistry.transferOwnership.
    destruct (N.eqb_spec (msg_sender e) (DoctorRegistry.owner (doctorRegistry w)));
      run_call; [|constructor].
    destruct (newOwner =? address0)%N; run_call; [constructor|].
    by apply step_ownership.
  - unfold exec, call. cbn [fst snd]. unfold DoctorRegistry.renounceOwnership.
    destruct (N.eqb_spec (msg_sender e) (DoctorRegistry.owner (doctorRegistry w)));
      run_call; [|constructor].
    by apply step_ownership.
  - unfold exec, call. cbn [fst snd].
    unfold PharmacyRegistry.registerPharmacy.
    destruct (N.eqb_spec _pharmacyAddress address0); run_call; [constructor|].
    destruct (nonempty _name) eqn:Hn; run_call; [|constructor].
    destruct (nonempty (mget _ _)) eqn:Hr; run_call; [constructor|].
    by apply step_registerPharmacy.
  - unfold exec, call. cbn [fst snd]. unfold PharmacyRegistry.removePharmacy.
    destruct (nonempty (mget _ _)) eqn:Hr; run_call; [|constructor].
    by apply step_removePharmacy.
  - rewrite exec_issue.
    destruct (DoctorRegistry.isVerifiedDoctor _ _) eqn:Hv; cbn [negb]; [|constructor].
    destruct (N.ltb_spec (block_timestamp e) _expiryDate); cbn [negb]; [|constructor].
    destruct (prescriptionExists _ _) eqn:Hex; [constructor|].
    by apply step_issue.
  - rewrite exec_fulfill.
    destruct (PharmacyRegistry.isVerifiedPharmacy _ _) eqn:Hv; cbn [negb]; [|constructor].
    destruct (prescriptionExists _ _) eqn:Hex; cbn [negb]; [|constructor].
    destruct (N.leb_spec (block_timestamp e)
                (expiryDate (mget (prescriptions (ledger w)) _prescriptionId)));
      cbn [negb]; [|constructor].
    destruct (hasPharmacyFulfilled _ _ _) eqn:Hf; [constructor|].
    by apply step_fulfill.
  - constructor.
  - unfold exec, call. cbn [fst snd].
    destruct (getPrescriptionDetails _ _); run_call; constructor.
  - constructor.
  - constructor.
  - constructor.
Qed.

(** ** The role registries *)

Lemma doctors_in_sync_deploy o d : doctors_in_sync (deploy o d).
Proof. intros a. reflexivity. Qed.

Lemma doctors_in_sync_exec w tx : doctors_in_sync w → doctors_in_sync (exec w tx).1.
Proof.
  intros Hinv a. destruct tx as [e c]. unfold doctors_in_sync in Hinv.
  destruct (exec_step w e c); try apply Hinv.
  - unfold DoctorRegistry.isVerifiedDoctor, with_doctors. cbn.
    rewrite !mget_insert. case_decide; [done|apply Hinv].
  - unfold DoctorRegistry.isVerifiedDoctor, with_doctors. cbn.
    rewrite !mget_insert. case_decide; [done|apply Hinv].
Qed.

Lemma exec_registerPharmacy_ok w e a n :
  a ≠ address0 → nonempty n = true →
  PharmacyRegistry.isVerifiedPharmacy (pharmacyRegistry w) a = false →
  exec w (e, RegisterPharmacy a n)
  = (with_pharmacies w
       (PharmacyRegistry.mkState
          (PharmacyRegistry.owner (pharmacyRegistry w))
          (<[a := n]> (PharmacyRegistry.verifiedPharmacies (pharmacyRegistry w))))
       (PharmacyRegistry.PharmacyRegistered a n),
     Ok VUnit).
Proof.
  intros Ha Hn Hr. unfold exec, call. cbn [fst snd].
  unfold PharmacyRegistry.registerPharmacy.
  apply N.eqb_neq in Ha. rewrite Ha, Hn. run_call.
  unfold PharmacyRegistry.isVerifiedPharmacy in Hr. rewrite Hr. reflexivity.
Qed.

Lemma exec_removePharmacy_ok w e a :
  PharmacyRegistry.isVerifiedPharmacy (pharmacyRegistry w) a = true →
  exec w (e, RemovePharmacy a)
  = (with_pharmacies w
       (PharmacyRegistry.mkState
          (PharmacyRegistry.owner (pharmacyRegistry w))
          (delete a (PharmacyRegistry.verifiedPharmacies (pharmacyRegistry w))))
       (PharmacyRegistry.PharmacyRemoved a),
     Ok VUnit).
Proof.
  intros Hr. unfold exec, call. cbn [fst snd].
  unfold PharmacyRegistry.removePharmacy.
  unfold PharmacyRegistry.isVerifiedPharmacy in Hr. rewrite Hr. reflexivity.
Qed.

(** X1. Registering a pharmacy under a non-zero address that is not yet
    registered, with a non-empty name, succeeds whoever the caller is;
    afterwards the address is a verified pharmacy whose name reads back as
    given, and no other pharmacy and no prescription has changed. *)
Theorem X1_register_pharmacy_lookup (w : World) (e : Env) (a : address) (n : string) :
  a ≠ address0 →
  nonempty n = true →
  PharmacyRegistry.isVerifiedPharmacy (pharmacyRegistry w) a = false →
  let after := exec w (e, RegisterPharmacy a n) in
  after.2 = Ok VUnit
  ∧ PharmacyRegistry.isVerifiedPharmacy (pharmacyRegistry after.1) a = true
  ∧ PharmacyRegistry.getPharmacyName (pharmacyRegistry after.1) a = n
  ∧ (∀ b, b ≠ a →
       PharmacyRegistry.getPharmacyName (pharmacyRegistry after.1) b
       = PharmacyRegistry.getPharmacyName (pharmacyRegistry w) b)
  ∧ ledger after.1 = ledger w
  ∧ doctorRegistry after.1 = doctorRegistry w.
Proof.
  intros Ha Hn Hr. cbn zeta. rewrite exec_registerPharmacy_ok by done.
  cbn [fst snd].
  unfold PharmacyRegistry.isVerifiedPharmacy, PharmacyRegistry.getPharmacyName,
    with_pharmacies.
  cbn [pharmacyRegistry PharmacyRegistry.verifiedPharmacies ledger doctorRegistry].
  rewrite mget_insert_eq. repeat split; try done.
  intros b Hb. by rewrite mget_insert_ne.
Qed.

Lemma X1_register_pharmacy_lookup_witness :
  PharmacyRegistry.getPharmacyName
    (pharmacyRegistry (exec sample_issued (mkEnv 40 110, RegisterPharmacy 22 "Pharmacy Z")).1)
    22 = "Pharmacy Z".
Proof.
  refine (proj1 (proj2 (proj2 (X1_register_pharmacy_lookup sample_issued
                                 (mkEnv 40 110) 22 "Pharmacy Z" _ _ _)))).
  - vm_compute. lia.
  - vm_compute. reflexivity.
  - vm_compute. reflexivity.
Defined.

(** X2. [registerPharmacy] reverts, leaving the world as it was, for the
    zero address (even with an empty name), else for an empty name, else for
    an address already registered: an existing registration is never
    overwritten. *)
Theorem X2_register_pharmacy_rejected (w : World) (e : Env) (a : address) (n : string) :
  (a = address0 →
   exec w (e, RegisterPharmacy a n) = (w, Revert InvalidPharmacyAddress))
  ∧ (a ≠ address0 → nonempty n = false →
     exec w (e, RegisterPharmacy a n) = (w, Revert EmptyPharmacyName))
  ∧ (a ≠ address0 → nonempty n = true →
     PharmacyRegistry.isVerifiedPharmacy (pharmacyRegistry w) a = true →
     exec w (e, RegisterPharmacy a n) = (w, Revert PharmacyAlreadyRegistered)).
Proof.
  unfold exec, call. cbn [fst snd]. unfold PharmacyRegistry.registerPharmacy.
  split; [|split].
  - intros ->. reflexivity.
  - intros Ha Hn. apply N.eqb_neq in Ha. rewrite Ha, Hn. reflexivity.
  - intros Ha Hn Hr. apply N.eqb_neq in Ha. rewrite Ha, Hn. run_call.
    unfold PharmacyRegistry.isVerifiedPharmacy in Hr. rewrite Hr. reflexivity.
Qed.

Lemma X2_register_pharmacy_rejected_witness :
  exec sample_issued (mkEnv 40 110, RegisterPharmacy address0 "")
  = (sample_issued, Revert InvalidPharmacyAddress)
  ∧ exec sample_issued (mkEnv 40 110, RegisterPharmacy 22 "")
    = (sample_issued, Revert EmptyPharmacyName)
  ∧ exec sample_issued (mkEnv 40 110, RegisterPharmacy 20 "Other name")
    = (sample_issued, Revert PharmacyAlreadyRegistered).
Proof.
  split; [|split].
  - refine (proj1 (X2_register_pharmacy_rejected sample_issued (mkEnv 40 110)
                     address0 "") _).
    reflexivity.
  - refine (proj1 (proj2 (X2_register_pharmacy_rejected sample_issued (mkEnv 40 110)
                            22 "")) _ _).
    + vm_compute. lia.
    + vm_compute. reflexivity.
  - refine (proj2 (proj2 (X2_register_pharmacy_rejected sample_issued (mkEnv 40 110)
                            20 "Other name")) _ _ _).
    + vm_compute. lia.
    + vm_compute. reflexivity.
    + vm_compute. reflexivity.
Defined.

(** X3. [removePharmacy] has no caller check: sent by anyone for a
    registered pharmacy it succeeds, after which that address is no longer
    verified and has the empty name, every other pharmacy and the ledger
    being untouched; for an address that is not registered it reverts. *)
Theorem X3_remove_pharmacy (w : World) (e : Env) (a : address) :
  (PharmacyRegistry.isVerifiedPharmacy (pharmacyRegistry w) a = false →
   exec w (e, RemovePharmacy a) = (w, Revert PharmacyNotRegistered))
  ∧ (PharmacyRegistry.isVerifiedPharmacy (pharmacyRegistry w) a = true →
     let after := exec w (e, RemovePharmacy a) in
     after.2 = Ok VUnit
     ∧ PharmacyRegistry.isVerifiedPharmacy (pharmacyRegistry after.1) a = false
     ∧ PharmacyRegistry.getPharmacyName (pharmacyRegistry after.1) a = ""
     ∧ (∀ b, b ≠ a →
          PharmacyRegistry.getPharmacyName (pharmacyRegistry after.1) b
          = PharmacyRegistry.getPharmacyName (pharmacyRegistry w) b)
     ∧ ledger after.1 = ledger w).
Proof.
  split.
  - intros Hr. unfold exec, call. cbn [fst snd].
    unfold PharmacyRegistry.removePharmacy.
    unfold PharmacyRegistry.isVerifiedPharmacy in Hr. rewrite Hr. reflexivity.
  - intros Hr. cbn zeta. rewrite exec_removePharmacy_ok by done. cbn [fst snd].
    unfold PharmacyRegistry.isVerifiedPharmacy, PharmacyRegistry.getPharmacyName,
      with_pharmacies.
    cbn [pharmacyRegistry PharmacyRegistry.verifiedPharmacies ledger].
    rewrite mget_delete_eq. repeat split; try done.
    intros b Hb. by rewrite mget_delete_ne.
Qed.

Lemma X3_remove_pharmacy_witness :
  exec sample_issued (mkEnv 40 110, RemovePharmacy 22)
  = (sample_issued, Revert PharmacyNotRegistered)
  ∧ PharmacyRegistry.isVerifiedPharmacy
      (pharmacyRegistry (exec sample_issued (mkEnv 40 110, RemovePharmacy 20)).1) 20
    = false.
Proof.
  split.
  - refine (proj1 (X3_remove_pharmacy sample_issued (mkEnv 40 110) 22) _).
    vm_compute. reflexivity.
  - refine (proj1 (proj2 (proj2 (X3_remove_pharmacy sample_issued (mkEnv 40 110) 20) _))).
    vm_compute. reflexivity.
Defined.

(** X4. Registering a pharmacy and then removing it brings every address
    back to the name and the verification status it had before. *)
Theorem X4_register_remove_round_trip (w : World) (e1 e2 : Env) (a : address)
    (n : string) :
  a ≠ address0 →
  nonempty n = true →
  PharmacyRegistry.isVerifiedPharmacy (pharmacyRegistry w) a = false →
  let registered := (exec w (e1, RegisterPharmacy a n)).1 in
  let removed := exec registered (e2, RemovePharmacy a) in
  removed.2 = Ok VUnit
  ∧ ∀ b, PharmacyRegistry.getPharmacyName (pharmacyRegistry removed.1) b
         = PharmacyRegistry.getPharmacyName (pharmacyRegistry w) b
         ∧ PharmacyRegistry.isVerifiedPharmacy (pharmacyRegistry removed.1) b
           = PharmacyRegistry.isVerifiedPharmacy (pharmacyRegistry w) b.
Proof.
  intros Ha Hn Hr. cbn zeta. rewrite exec_registerPharmacy_ok by done. cbn [fst].
  rewrite exec_removePharmacy_ok.
  2:{ unfold PharmacyRegistry.isVerifiedPharmacy, with_pharmacies. cbn.
      by rewrite mget_insert_eq. }
  cbn [fst snd]. split; [done|]. intros b.
  unfold PharmacyRegistry.isVerifiedPharmacy, PharmacyRegistry.getPharmacyName,
    with_pharmacies.
  cbn [pharmacyRegistry PharmacyRegistry.verifiedPharmacies].
  destruct (decide (a = b)) as [<-|Hne].
  - rewrite mget_delete_eq.
    unfold PharmacyRegistry.isVerifiedPharmacy in Hr.
    destruct (mget (PharmacyRegistry.verifiedPharmacies (pharmacyRegistry w)) a)
      eqn:Hname; [done|]. by cbn in Hr.
  - by rewrite mget_delete_ne, mget_insert_ne.
Qed.

Lemma X4_register_remove_round_trip_witness :
  (exec (exec sample_issued (mkEnv 22 110, RegisterPharmacy 22 "Pharmacy Z")).1
        (mkEnv 40 111, RemovePharmacy 22)).2 = Ok VUnit.
Proof.
  refine (proj1 (X4_register_remove_round_trip sample_issued (mkEnv 22 110)
                   (mkEnv 40 111) 22 "Pharmacy Z" _ _ _)).
  - vm_compute. lia.
  - vm_compute. reflexivity.
  - vm_compute. reflexivity.
Defined.

(** A call to one contract leaves the other registry as it was. *)
Lemma exec_other_registry w e c :
  match c with
  | RegisterPharmacy _ _ | RemovePharmacy _ =>
      doctorRegistry (exec w (e, c)).1 = doctorRegistry w
  | RegisterDoctor _ _ _ _ | DeactivateDoctor _ | TransferOwnership _
  | RenounceOwnership =>
      pharmacyRegistry (exec w (e, c)).1 = pharmacyRegistry w
  | _ =>
      doctorRegistry (exec w (e, c)).1 = doctorRegistry w
      ∧ pharmacyRegistry (exec w (e, c)).1 = pharmacyRegistry w
  end.
Proof.
  destruct c; unfold exec, call; cbn [fst snd];
    try (match goal with
         | |- context [mbind _ ?r] => destruct r as [res|err]
         end; [|done];
         repeat match goal with res : (_ * _)%type |- _ => destruct res end;
         done);
    done.
Qed.

(** An address that is not a verified pharmacy stays so until a
    [registerPharmacy] names it. *)
Lemma exec_keeps_unverified_pharmacy w tx p :
  (∀ n, tx.2 ≠ RegisterPharmacy p n) →
  PharmacyRegistry.isVerifiedPharmacy (pharmacyRegistry w) p = false →
  PharmacyRegistry.isVerifiedPharmacy (pharmacyRegistry (exec w tx).1) p = false.
Proof.
  destruct tx as [e c]. cbn [snd]. intros Hc Hp.
  pose proof (exec_other_registry w e c) as Hother.
  destruct c; try (by rewrite Hother); try (by rewrite (proj2 Hother)).
  - assert (_pharmacyAddress ≠ p) by (intros ->; by apply (Hc _name)).
    unfold exec, call. cbn [fst snd]. unfold PharmacyRegistry.registerPharmacy.
    destruct (_pharmacyAddress =? address0); run_call; [done|].
    destruct (nonempty _name); run_call; [|done].
    destruct (nonempty (mget _ _)); run_call; [done|].
    unfold PharmacyRegistry.isVerifiedPharmacy in *.
    cbn [pharmacyRegistry PharmacyRegistry.verifiedPharmacies].
    by rewrite mget_insert_ne.
  - unfold exec, call. cbn [fst snd]. unfold PharmacyRegistry.removePharmacy.
    destruct (nonempty (mget _ _)); run_call; [|done].
    unfold PharmacyRegistry.isVerifiedPharmacy in *.
    cbn [pharmacyRegistry PharmacyRegistry.verifiedPharmacies].
    destruct (decide (_pharmacyAddress = p)) as [->|Hne].
    + by rewrite mget_delete_eq.
    + by rewrite mget_delete_ne.
Qed.

Lemma run_keeps_unverified_pharmacy w txs p :
  Forall (λ tx, ∀ n, tx.2 ≠ RegisterPharmacy p n) txs →
  PharmacyRegistry.isVerifiedPharmacy (pharmacyRegistry w) p = false →
  PharmacyRegistry.isVerifiedPharmacy (pharmacyRegistry (run w txs)) p = false.
Proof.
  intros Hok Hp.
  apply (run_invariant
           (λ w, PharmacyRegistry.isVerifiedPharmacy (pharmacyRegistry w) p = false)
           (λ tx, ∀ n, tx.2 ≠ RegisterPharmacy p n)); [done| |done].
  intros w' tx Hw' Htx. by apply exec_keeps_unverified_pharmacy.
Qed.

(** X5. Once a pharmacy has been removed, by whoever, its Fulfill reverts
    for lack of authorization on every prescription and at every time,
    after any further transactions among which no [registerPharmacy] names
    its address; the removal leaves what it fulfilled before on record;
    and a new registration of the address, which anyone may send, makes it
    a verified pharmacy again. *)
Theorem X5_removed_pharmacy_cannot_fulfill (w : World) (e : Env) (p : address) :
  PharmacyRegistry.isVerifiedPharmacy (pharmacyRegistry w) p = true →
  let removed := (exec w (e, RemovePharmacy p)).1 in
  (∀ txs : list (Env * Call),
     Forall (λ tx, ∀ n, tx.2 ≠ RegisterPharmacy p n) txs →
     ∀ (id : bytes32) (t : uint256),
       exec (run removed txs) (mkEnv p t, FulfillPrescription id)
       = (run removed txs, Revert NotVerifiedPharmacy))
  ∧ (∀ id : bytes32,
       fulfillments (record removed id) = fulfillments (record w id)
       ∧ hasPharmacyFulfilled (ledger removed) id p
         = hasPharmacyFulfilled (ledger w) id p)
  ∧ (∀ (e' : Env) (n : string),
       p ≠ address0 →
       nonempty n = true →
       PharmacyRegistry.isVerifiedPharmacy
         (pharmacyRegistry (exec removed (e', RegisterPharmacy p n)).1) p = true).
Proof.
  intros Hr. cbn zeta. rewrite exec_removePharmacy_ok by done. cbn [fst].
  set (removed := with_pharmacies _ _ _).
  assert (Hoff : PharmacyRegistry.isVerifiedPharmacy (pharmacyRegistry removed) p
                 = false).
  { unfold PharmacyRegistry.isVerifiedPharmacy, removed, with_pharmacies.
    cbn [pharmacyRegistry PharmacyRegistry.verifiedPharmacies].
    by rewrite mget_delete_eq. }
  split; [|split].
  - intros txs Hok id t. rewrite exec_fulfill. cbn [msg_sender].
    by rewrite run_keeps_unverified_pharmacy.
  - done.
  - intros e' n Hp Hn. rewrite exec_registerPharmacy_ok by done. cbn [fst].
    unfold PharmacyRegistry.isVerifiedPharmacy, with_pharmacies.
    cbn [pharmacyRegistry PharmacyRegistry.verifiedPharmacies].
    by rewrite mget_insert_eq.
Qed.

Lemma X5_removed_pharmacy_cannot_fulfill_witness :
  (exec (run (exec sample_issued (mkEnv 40 110, RemovePharmacy 20)).1
             [ (mkEnv 21 111, FulfillPrescription 170);
               (mkEnv 40 112, RegisterPharmacy 22 "Pharmacy Z") ])
        (mkEnv 20 113, FulfillPrescription 170)).2
  = Revert NotVerifiedPharmacy.
Proof.
  refine (f_equal snd
            (proj1 (X5_removed_pharmacy_cannot_fulfill sample_issued (mkEnv 40 110) 20 _)
               [ (mkEnv 21 111, FulfillPrescription 170);
                 (mkEnv 40 112, RegisterPharmacy 22 "Pharmacy Z") ] _ 170 113)).
  - vm_compute. reflexivity.
  - repeat constructor; intros n; discriminate.
Defined.

(** X6. After any sequence of transactions on the deployed system, an
    address passes the verified-doctor check exactly when its doctor
    profile is marked active: the two mappings never drift apart. *)
Theorem X6_doctor_mappings_in_sync (o d : address) (txs : list (Env * Call))
    (a : address) :
  DoctorRegistry.isVerifiedDoctor (doctorRegistry (run (deploy o d) txs)) a
  = DoctorRegistry.isActive
      (DoctorRegistry.getDoctorDetails (doctorRegistry (run (deploy o d) txs)) a).
Proof.
  revert a. change (doctors_in_sync (run (deploy o d) txs)).
  apply (run_invariant doctors_in_sync (λ _, True)).
  - apply doctors_in_sync_deploy.
  - intros w tx Hw _. by apply doctors_in_sync_exec.
  - by apply Forall_true.
Qed.

Lemma exec_deactivateDoctor_ok w e a :
  msg_sender e = DoctorRegistry.owner (doctorRegistry w) →
  DoctorRegistry.isActive (mget (DoctorRegistry.doctors (doctorRegistry w)) a) = true →
  exec w (e, DeactivateDoctor a)
  = (with_doctors w
       (DoctorRegistry.mkState
          (DoctorRegistry.owner (doctorRegistry w))
          (<[a := let d := mget (DoctorRegistry.doctors (doctorRegistry w)) a in
                  DoctorRegistry.mkDoctor (DoctorRegistry.name d)
                    (DoctorRegistry.licenseNumber d)
                    (DoctorRegistry.specialization d) false
                    (DoctorRegistry.registeredAt d)]>
             (DoctorRegistry.doctors (doctorRegistry w)))
          (<[a := false]> (DoctorRegistry.verified (doctorRegistry w))))
       (DoctorRegistry.DoctorDeactivated a),
     Ok VUnit).
Proof.
  intros Heq Hact. unfold exec, call. cbn [fst snd].
  unfold DoctorRegistry.deactivateDoctor.
  apply N.eqb_eq in Heq. rewrite Heq. run_call. rewrite Hact. reflexivity.
Qed.

(** An address that is not a verified doctor stays so until a
    [registerDoctor] names it. *)
Lemma exec_keeps_unverified_doctor w tx a :
  (∀ n l sp, tx.2 ≠ RegisterDoctor a n l sp) →
  DoctorRegistry.isVerifiedDoctor (doctorRegistry w) a = false →
  DoctorRegistry.isVerifiedDoctor (doctorRegistry (exec w tx).1) a = false.
Proof.
  destruct tx as [e c]. cbn [snd]. intros Hc Ha.
  pose proof (exec_other_registry w e c) as Hother.
  destruct c; try (by rewrite Hother); try (by rewrite (proj1 Hother)).
  - assert (_doctorAddress ≠ a)
      by (intros ->; by apply (Hc _name _licenseNumber _specialization)).
    unfold exec, call. cbn [fst snd]. unfold DoctorRegistry.registerDoctor.
    destruct (DoctorRegistry.isActive _); run_call; [done|].
    unfold DoctorRegistry.isVerifiedDoctor in *.
    cbn [doctorRegistry DoctorRegistry.verified]. by rewrite mget_insert_ne.
  - unfold exec, call. cbn [fst snd]. unfold DoctorRegistry.deactivateDoctor.
    destruct (msg_sender e =? _); run_call; [|done].
    destruct (DoctorRegistry.isActive _); run_call; [|done].
    unfold DoctorRegistry.isVerifiedDoctor in *.
    cbn [doctorRegistry DoctorRegistry.verified].
    destruct (decide (_doctorAddress = a)) as [->|Hne].
    + by rewrite mget_insert_eq.
    + by rewrite mget_insert_ne.
  - unfold exec, call. cbn [fst snd]. unfold DoctorRegistry.transferOwnership.
    destruct (msg_sender e =? _); run_call; [|done].
    destruct (newOwner =? address0); run_call; done.
  - unfold exec, call. cbn [fst snd]. unfold DoctorRegistry.renounceOwnership.
    destruct (msg_sender e =? _); run_call; done.
Qed.

Lemma run_keeps_unverified_doctor w txs a :
  Forall (λ tx, ∀ n l sp, tx.2 ≠ RegisterDoctor a n l sp) txs →
  DoctorRegistry.isVerifiedDoctor (doctorRegistry w) a = false →
  DoctorRegistry.isVerifiedDoctor (doctorRegistry (run w txs)) a = false.
Proof.
  intros Hok Ha.
  apply (run_invariant
           (λ w, DoctorRegistry.isVerifiedDoctor (doctorRegistry w) a = false)
           (λ tx, ∀ n l sp, tx.2 ≠ RegisterDoctor a n l sp)); [done| |done].
  intros w' tx Hw' Htx. by apply exec_keeps_unverified_doctor.
Qed.

(** X7. [deactivateDoctor] is reserved to the owner: from any other sender
    it reverts and changes nothing; from the owner it reverts for a doctor
    that is not active, and for an active doctor it clears the verified
    flag while keeping name, licence, specialization and registration time,
    leaves the ledger as it is, and makes every Issue sent from that
    address revert for lack of authorization, after any further
    transactions among which no [registerDoctor] names the address. *)
Theorem X7_deactivate_doctor (w : World) (e : Env) (a : address) :
  let dr := doctorRegistry w in
  let profile := DoctorRegistry.getDoctorDetails dr a in
  (msg_sender e ≠ DoctorRegistry.owner dr →
   exec w (e, DeactivateDoctor a) = (w, Revert CallerNotOwner))
  ∧ (msg_sender e = DoctorRegistry.owner dr →
     DoctorRegistry.isActive profile = false →
     exec w (e, DeactivateDoctor a) = (w, Revert DoctorNotActive))
  ∧ (msg_sender e = DoctorRegistry.owner dr →
     DoctorRegistry.isActive profile = true →
     let after := exec w (e, DeactivateDoctor a) in
     after.2 = Ok VUnit
     ∧ DoctorRegistry.isVerifiedDoctor (doctorRegistry after.1) a = false
     ∧ DoctorRegistry.getDoctorDetails (doctorRegistry after.1) a
       = DoctorRegistry.mkDoctor (DoctorRegistry.name profile)
           (DoctorRegistry.licenseNumber profile)
           (DoctorRegistry.specialization profile) false
           (DoctorRegistry.registeredAt profile)
     ∧ ledger after.1 = ledger w
     ∧ ∀ txs : list (Env * Call),
         Forall (λ tx, ∀ n l sp, tx.2 ≠ RegisterDoctor a n l sp) txs →
         ∀ (t : uint256) (p : address) (h : bytes32) (i : string) (x : uint256),
           exec (run after.1 txs) (mkEnv a t, IssuePrescription p h i x)
           = (run after.1 txs, Revert NotVerifiedDoctor)).
Proof.
  cbn zeta. unfold DoctorRegistry.getDoctorDetails.
  split; [|split].
  - intros Hne. unfold exec, call. cbn [fst snd].
    unfold DoctorRegistry.deactivateDoctor.
    apply N.eqb_neq in Hne. by rewrite Hne.
  - intros Heq Hin. unfold exec, call. cbn [fst snd].
    unfold DoctorRegistry.deactivateDoctor.
    apply N.eqb_eq in Heq. rewrite Heq. run_call. by rewrite Hin.
  - intros Heq Hact. rewrite exec_deactivateDoctor_ok by done. cbn [fst snd].
    set (after := with_doctors _ _ _).
    assert (Hoff : DoctorRegistry.isVerifiedDoctor (doctorRegistry after) a = false).
    { unfold DoctorRegistry.isVerifiedDoctor, after, with_doctors.
      cbn [doctorRegistry DoctorRegistry.verified]. by rewrite mget_insert_eq. }
    split; [done|]. split; [done|]. split.
    { unfold after, with_doctors. cbn [doctorRegistry DoctorRegistry.doctors].
      by rewrite mget_insert_eq. }
    split; [done|].
    intros txs Hok t p h i x. rewrite exec_issue. cbn [msg_sender].
    by rewrite run_keeps_unverified_doctor.
Qed.

Lemma X7_deactivate_doctor_witness :
  exec sample_issued (mkEnv 10 110, DeactivateDoctor 10)
  = (sample_issued, Revert CallerNotOwner)
  ∧ exec sample_issued (mkEnv 1 110, DeactivateDoctor 11)
    = (sample_issued, Revert DoctorNotActive)
  ∧ DoctorRegistry.isVerifiedDoctor
      (doctorRegistry (exec sample_issued (mkEnv 1 110, DeactivateDoctor 10)).1) 10
    = false
  ∧ (exec (run (exec sample_issued (mkEnv 1 110, DeactivateDoctor 10)).1
               [ (mkEnv 40 111, RegisterDoctor 11 "Dr C" "LIC-3" "GP") ])
          (mkEnv 10 112, IssuePrescription 30 171 "loc2" 2000)).2
    = Revert NotVerifiedDoctor.
Proof.
  split; [|split; [|split]].
  - refine (proj1 (X7_deactivate_doctor sample_issued (mkEnv 10 110) 10) _).
    vm_compute. lia.
  - refine (proj1 (proj2 (X7_deactivate_doctor sample_issued (mkEnv 1 110) 11)) _ _).
    + vm_compute. reflexivity.
    + vm_compute. reflexivity.
  - refine (proj1 (proj2 (proj2 (proj2 (X7_deactivate_doctor sample_issued
                                          (mkEnv 1 110) 10)) _ _))).
    + vm_compute. reflexivity.
    + vm_compute. reflexivity.
  - refine (f_equal snd
              (proj2 (proj2 (proj2 (proj2
                 (proj2 (proj2 (X7_deactivate_doctor sample_issued (mkEnv 1 110) 10))
                    _ _))))
                 [ (mkEnv 40 111, RegisterDoctor 11 "Dr C" "LIC-3" "GP") ] _
                 112 30 171 "loc2" 2000)).
    + vm_compute. reflexivity.
    + vm_compute. reflexivity.
    + repeat constructor. intros n l sp. discriminate.
Defined.

(** X8. No transaction sent by someone other than the owner changes the
    profile or the verified flag of an active doctor: in particular nobody
    can re-register over an active doctor. *)
Theorem X8_active_doctor_untouched (w : World) (tx : Env * Call) (a : address) :
  DoctorRegistry.isActive (DoctorRegistry.getDoctorDetails (doctorRegistry w) a) = true →
  msg_sender tx.1 ≠ DoctorRegistry.owner (doctorRegistry w) →
  DoctorRegistry.getDoctorDetails (doctorRegistry (exec w tx).1) a
  = DoctorRegistry.getDoctorDetails (doctorRegistry w) a
  ∧ DoctorRegistry.isVerifiedDoctor (doctorRegistry (exec w tx).1) a
    = DoctorRegistry.isVerifiedDoctor (doctorRegistry w) a.
Proof.
  unfold DoctorRegistry.getDoctorDetails. intros Hact Hsender.
  destruct tx as [e c]. cbn [fst] in Hsender.
  destruct (exec_step w e c); try done.
  unfold DoctorRegistry.isVerifiedDoctor, with_doctors.
  cbn [doctorRegistry DoctorRegistry.doctors DoctorRegistry.verified].
  assert (a0 ≠ a) by congruence. by rewrite !mget_insert_ne.
Qed.

Lemma X8_active_doctor_untouched_witness :
  DoctorRegistry.getDoctorDetails
    (doctorRegistry
       (exec sample_issued (mkEnv 40 110, RegisterDoctor 10 "Impostor" "X" "Y")).1) 10
  = DoctorRegistry.getDoctorDetails (doctorRegistry sample_issued) 10.
Proof.
  refine (proj1 (X8_active_doctor_untouched sample_issued
                   (mkEnv 40 110, RegisterDoctor 10 "Impostor" "X" "Y") 10 _ _)).
  - vm_compute. reflexivity.
  - vm_compute. lia.
Defined.

(** ** The fulfilment log *)

Lemma ledger_wf_deploy o d : ledger_wf (deploy o d).
Proof.
  split.
  - reflexivity.
  - intros id a. split; [done|]. intros Hin. by apply elem_of_nil in Hin.
  - intros id. constructor.
  - intros id f Hin. by apply elem_of_nil in Hin.
  - intros id Hex. by vm_compute in Hex.
Qed.

Lemma issue_world_flags w e p h i x id a :
  hasPharmacyFulfilled (ledger (issue_world w e p h i x)) id a
  = hasPharmacyFulfilled (ledger w) id a.
Proof.
  rewrite !hasPharmacyFulfilled_record, issue_world_record.
  case_decide; by subst.
Qed.

Lemma issue_world_fulfillments w e p h i x id :
  fulfillments (record (issue_world w e p h i x) id) = fulfillments (record w id).
Proof. rewrite issue_world_record. case_decide; by subst. Qed.

Lemma ledger_wf_issue w e p h i x :
  ledger_wf w →
  block_timestamp e < x →
  prescriptionExists (ledger w) h = false →
  ledger_wf (issue_world w e p h i x).
Proof.
  intros [Hzero Hflags Hnd Hent Hexp] Ht Hfresh.
  assert (Hempty : fulfillments (record w h) = []).
  { destruct (fulfillments (record w h)) as [|f l] eqn:Hl; [done|].
    destruct (Hent h f) as [Hex _]; [rewrite Hl; left|]. congruence. }
  split.
  - done.
  - intros id a. rewrite issue_world_flags, issue_world_fulfillments. apply Hflags.
  - intros id. rewrite issue_world_fulfillments. apply Hnd.
  - intros id f. rewrite issue_world_fulfillments. intros Hin.
    assert (h ≠ id) by (intros ->; rewrite Hempty in Hin; by apply elem_of_nil in Hin).
    rewrite prescriptionExists_record, issue_world_record.
    case_decide; [done|]. rewrite <- prescriptionExists_record. by apply Hent.
  - intros id. rewrite prescriptionExists_record, issue_world_record.
    case_decide; [done|]. rewrite <- prescriptionExists_record. apply Hexp.
Qed.

Lemma ledger_wf_fulfill w e id :
  ledger_wf w →
  PharmacyRegistry.isVerifiedPharmacy (pharmacyRegistry w) (msg_sender e) = true →
  prescriptionExists (ledger w) id = true →
  block_timestamp e <= expiryDate (record w id) →
  hasPharmacyFulfilled (ledger w) id (msg_sender e) = false →
  ledger_wf (fulfill_world w e id).
Proof.
  intros [Hzero Hflags Hnd Hent Hexp] Hv Hex Ht Hnot.
  assert (Hfresh : msg_sender e ∉ pharmacyAddress <$> fulfillments (record w id)).
  { intros Hin. apply Hflags in Hin. congruence. }
  split.
  - done.
  - intros id' a. rewrite hasPharmacyFulfilled_record.
    destruct (decide (id = id')) as [<-|Hne].
    + rewrite fulfill_world_record. cbn [hasFulfilled fulfillments].
      rewrite fmap_app, elem_of_app, mget_insert. cbn [fmap list_fmap pharmacyAddress].
      rewrite list_elem_of_singleton, <- Hflags, hasPharmacyFulfilled_record.
      case_decide; [subst; tauto|]. split; [tauto|]. intros [?|?]; [done|congruence].
    + rewrite fulfill_world_record_ne by done.
      rewrite <- hasPharmacyFulfilled_record. apply Hflags.
  - intros id'. destruct (decide (id = id')) as [<-|Hne].
    + rewrite fulfill_world_record. cbn [fulfillments].
      rewrite fmap_app. apply NoDup_app. split; [apply Hnd|].
      split; [|apply NoDup_singleton].
      intros a Hin Ha. apply list_elem_of_singleton in Ha. cbn in Ha. by subst.
    + rewrite fulfill_world_record_ne by done. apply Hnd.
  - intros id' f. rewrite prescriptionExists_record.
    destruct (decide (id = id')) as [<-|Hne].
    + rewrite fulfill_world_record. cbn [fulfillments doctor expiryDate].
      rewrite elem_of_app, list_elem_of_singleton. intros [Hin| ->].
      * rewrite <- prescriptionExists_record. by apply Hent.
      * cbn [fulfilledAt pharmacyName pharmacyAddress].
        rewrite <- prescriptionExists_record. repeat split; try done.
        intros Heq. rewrite Heq in Hv. congruence.
    + rewrite fulfill_world_record_ne by done.
      rewrite <- prescriptionExists_record. apply Hent.
  - intros id'. rewrite prescriptionExists_record.
    destruct (decide (id = id')) as [<-|Hne].
    + rewrite fulfill_world_record. cbn [doctor issuedAt expiryDate].
      rewrite <- prescriptionExists_record. apply Hexp.
    + rewrite fulfill_world_record_ne by done.
      rewrite <- prescriptionExists_record. apply Hexp.
Qed.

Lemma ledger_wf_exec w tx : ledger_wf w → ledger_wf (exec w tx).1.
Proof.
  intros Hinv. destruct tx as [e c].
  destruct (exec_step w e c) as [|a n l sp Ha|a Ho Ha|o Ho|a n Ha Hn Hr|a Hr|
                                  p h i x Hv Ht Hfresh|id Hv Hex Ht Hnot].
  - done.
  - destruct Hinv. by split.
  - destruct Hinv. by split.
  - destruct Hinv. by split.
  - destruct Hinv as [Hzero ? ? ? ?]. split; try done.
    unfold PharmacyRegistry.isVerifiedPharmacy, with_pharmacies. cbn.
    by rewrite mget_insert_ne.
  - destruct Hinv as [Hzero ? ? ? ?]. split; try done.
    unfold PharmacyRegistry.isVerifiedPharmacy, with_pharmacies. cbn.
    destruct (decide (a = address0)) as [->|Hne].
    + by rewrite mget_delete_eq.
    + by rewrite mget_delete_ne.
  - by apply ledger_wf_issue.
  - by apply ledger_wf_fulfill.
Qed.

Lemma ledger_wf_run o d txs : ledger_wf (run (deploy o d) txs).
Proof.
  apply (run_invariant ledger_wf (λ _, True)).
  - apply ledger_wf_deploy.
  - intros w tx Hw _. by apply ledger_wf_exec.
  - by apply Forall_true.
Qed.

(** X9. After any sequence of transactions on the deployed system, the
    fulfilment log of a prescription names no pharmacy twice, and an
    address has its already-fulfilled flag set exactly when the log holds an
    entry of that address. *)
Theorem X9_one_fulfilment_per_pharmacy (o d : address) (txs : list (Env * Call))
    (id : bytes32) :
  NoDup (pharmacyAddress <$> fulfillments (record (run (deploy o d) txs) id))
  ∧ ∀ a : address,
      hasPharmacyFulfilled (ledger (run (deploy o d) txs)) id a = true ↔
      a ∈ pharmacyAddress <$> fulfillments (record (run (deploy o d) txs) id).
Proof.
  destruct (ledger_wf_run o d txs) as [_ Hflags Hnd _ _]. split; [apply Hnd|].
  intros a. apply Hflags.
Qed.

(** X10. After any sequence of transactions on the deployed system, every
    entry of a fulfilment log belongs to an existing prescription, was made
    no later than its expiry date, by a non-zero address, and carries a
    non-empty pharmacy name; every existing prescription expires strictly
    after it was issued; and the zero address is not a verified pharmacy. *)
Theorem X10_fulfilment_entries_sound (o d : address) (txs : list (Env * Call)) :
  let w := run (deploy o d) txs in
  (∀ (id : bytes32) (f : Fulfillment),
     f ∈ fulfillments (record w id) →
     prescriptionExists (ledger w) id = true
     ∧ fulfilledAt f <= expiryDate (record w id)
     ∧ nonempty (pharmacyName f) = true
     ∧ pharmacyAddress f ≠ address0)
  ∧ (∀ id : bytes32,
       prescriptionExists (ledger w) id = true →
       issuedAt (record w id) < expiryDate (record w id))
  ∧ PharmacyRegistry.isVerifiedPharmacy (pharmacyRegistry w) address0 = false.
Proof.
  destruct (ledger_wf_run o d txs) as [Hzero _ _ Hent Hexp].
  cbn zeta. split; [exact Hent|]. split; [exact Hexp|exact Hzero].
Qed.

Lemma X10_fulfilment_entries_sound_witness :
  issuedAt (record sample_issued 170) < expiryDate (record sample_issued 170).
Proof.
  refine (proj1 (proj2 (X10_fulfilment_entries_sound 1 1
            [ (mkEnv 10 100, RegisterDoctor 10 "Dr A" "LIC-1" "GP");
              (mkEnv 20 100, RegisterPharmacy 20 "Pharmacy X");
              (mkEnv 21 100, RegisterPharmacy 21 "Pharmacy Y");
              (mkEnv 10 101, IssuePrescription 30 170 "loc1" 1100) ])) 170 _).
  vm_compute. reflexivity.
Defined.

(** ** Records are immutable, logs and indexes append-only *)

Lemma grows_refl w : grows w w.
Proof. split; done. Qed.

Lemma grows_trans w1 w2 w3 : grows w1 w2 → grows w2 w3 → grows w1 w3.
Proof.
  intros [Hr1 Hf1 Hg1 Hp1 Hd1] [Hr2 Hf2 Hg2 Hp2 Hd2]. split.
  - intros id Hex. destruct (Hr1 id Hex) as (Hex2 & <- & <- & <- & <- & <- & <-).
    apply Hr2, Hex2.
  - intros id. etrans; [apply Hf1|apply Hf2].
  - intros id a Hf. by apply Hg2, Hg1.
  - intros a. etrans; [apply Hp1|apply Hp2].
  - intros a. etrans; [apply Hd1|apply Hd2].
Qed.

Lemma prefix_insert_snoc (m : gmap N (list bytes32)) (k k' : N) (x : bytes32) :
  mget m k' `prefix_of` mget (<[k := mget m k ++ [x]]> m) k'.
Proof.
  rewrite mget_insert. case_decide; [subst; by apply prefix_app_r|done].
Qed.

Lemma grows_issue w e p h i x :
  prescriptionExists (ledger w) h = false → grows w (issue_world w e p h i x).
Proof.
  intros Hfresh. split.
  - intros id Hex. assert (h ≠ id) by (intros ->; congruence).
    rewrite prescriptionExists_record, issue_world_record.
    case_decide; [done|]. by rewrite <- prescriptionExists_record.
  - intros id. by rewrite issue_world_fulfillments.
  - intros id a. by rewrite issue_world_flags.
  - intros a. apply prefix_insert_snoc.
  - intros a. apply prefix_insert_snoc.
Qed.

Lemma grows_fulfill w e id : grows w (fulfill_world w e id).
Proof.
  split.
  - intros id' Hex. rewrite prescriptionExists_record.
    destruct (decide (id = id')) as [<-|Hne].
    + rewrite fulfill_world_record. cbn. by rewrite <- prescriptionExists_record.
    + rewrite fulfill_world_record_ne by done. by rewrite <- prescriptionExists_record.
  - intros id'. destruct (decide (id = id')) as [<-|Hne].
    + rewrite fulfill_world_record. cbn. by apply prefix_app_r.
    + by rewrite fulfill_world_record_ne.
  - intros id' a. rewrite !hasPharmacyFulfilled_record.
    destruct (decide (id = id')) as [<-|Hne].
    + rewrite fulfill_world_record. cbn. rewrite mget_insert. by case_decide.
    + by rewrite fulfill_world_record_ne.
  - done.
  - done.
Qed.

Lemma grows_exec w tx : grows w (exec w tx).1.
Proof.
  destruct tx as [e c].
  destruct (exec_step w e c); try (split; done).
  - by apply grows_issue.
  - apply grows_fulfill.
Qed.

Lemma grows_run w txs : grows w (run w txs).
Proof.
  revert w. induction txs as [|tx txs IH]; intros w; [apply grows_refl|].
  cbn. eapply grows_trans; [apply grows_exec|apply IH].
Qed.

(** X11. Whatever transactions follow, a prescription that exists keeps
    existing with the doctor, patient, content hash, locator, issue time
    and expiry date it was issued with; its fulfilment log is only extended
    at the end, a set already-fulfilled flag stays set, and the lists of
    ids of every patient and doctor are only extended at the end. *)
Theorem X11_records_immutable_logs_append_only (w : World) (txs : list (Env * Call)) :
  let w' := run w txs in
  (∀ id : bytes32,
     prescriptionExists (ledger w) id = true →
     prescriptionExists (ledger w') id = true
     ∧ doctor (record w' id) = doctor (record w id)
     ∧ patient (record w' id) = patient (record w id)
     ∧ contentHash (record w' id) = contentHash (record w id)
     ∧ ipfsHash (record w' id) = ipfsHash (record w id)
     ∧ issuedAt (record w' id) = issuedAt (record w id)
     ∧ expiryDate (record w' id) = expiryDate (record w id))
  ∧ (∀ id : bytes32,
       fulfillments (record w id) `prefix_of` fulfillments (record w' id))
  ∧ (∀ (id : bytes32) (a : address),
       hasPharmacyFulfilled (ledger w) id a = true →
       hasPharmacyFulfilled (ledger w') id a = true)
  ∧ (∀ a : address,
       getPatientPrescriptionIds (ledger w) a
       `prefix_of` getPatientPrescriptionIds (ledger w') a)
  ∧ (∀ a : address,
       getDoctorPrescriptionIds (ledger w) a
       `prefix_of` getDoctorPrescriptionIds (ledger w') a).
Proof.
  destruct (grows_run w txs) as [Hr Hf Hg Hp Hd]. cbn zeta.
  split; [exact Hr|]. split; [exact Hf|]. split; [exact Hg|]. split; [exact Hp|exact Hd].
Qed.

Lemma X11_records_immutable_logs_append_only_witness :
  expiryDate
    (record (run sample_issued
               [ (mkEnv 20 102, FulfillPrescription 170);
                 (mkEnv 40 103, RemovePharmacy 20);
                 (mkEnv 10 104, IssuePrescription 31 170 "other" 5000) ]) 170)
  = expiryDate (record sample_issued 170).
Proof.
  refine (proj2 (proj2 (proj2 (proj2 (proj2 (proj2
            (proj1 (X11_records_immutable_logs_append_only sample_issued
                      [ (mkEnv 20 102, FulfillPrescription 170);
                        (mkEnv 40 103, RemovePharmacy 20);
                        (mkEnv 10 104, IssuePrescription 31 170 "other" 5000) ])
                   170 _))))))).
  vm_compute. reflexivity.
Defined.

(** X12. For a prescription that exists, the answer of
    [verifyPrescription] and the verdict of the dashboard for given QR
    texts and times are the same before and after any sequence of
    transactions: fulfilments, registry changes and further issuances
    neither invalidate nor revalidate it. *)
Theorem X12_validity_depends_on_time_only (w : World) (txs : list (Env * Call))
    (id h : bytes32) :
  prescriptionExists (ledger w) id = true →
  (∀ e : Env,
     verifyPrescription e (ledger (run w txs)) id h
     = verifyPrescription e (ledger w) id h)
  ∧ (∀ (account : address) (blockTime wallTime : uint256)
       (prescriptionIdFromQR contentHashFromQR : jsstring),
       Ethers.toValue prescriptionIdFromQR = id →
       PharmacyDashboard.verdict (run w txs) account blockTime wallTime
         prescriptionIdFromQR contentHashFromQR
       = PharmacyDashboard.verdict w account blockTime wallTime
           prescriptionIdFromQR contentHashFromQR).
Proof.
  intros Hex.
  destruct (grows_run w txs) as [Hr _ _ _ _].
  destruct (Hr id Hex) as (Hex' & Hd & _ & Hc & _ & _ & Hx).
  unfold record in Hd, Hc, Hx.
  assert (Hv : ∀ e h', verifyPrescription e (ledger (run w txs)) id h'
                       = verifyPrescription e (ledger w) id h').
  { intros e h'. unfold verifyPrescription. by rewrite Hd, Hc, Hx. }
  split; [intros e; apply Hv|].
  intros account blockTime wallTime prescriptionIdFromQR contentHashFromQR Hid.
  unfold PharmacyDashboard.verdict, ContractService.verifyPrescription.
  rewrite Hid.
  rewrite !getPrescriptionDetails_doctor, Hd, Hv.
  destruct (getPrescriptionDetails_exists _ _ Hex) as [-> ->].
  destruct (getPrescriptionDetails_exists _ _ Hex') as [-> ->].
  by rewrite Hc, Hx.
Qed.

Lemma X12_validity_depends_on_time_only_witness :
  verifyPrescription (mkEnv 20 500)
    (ledger (run sample_issued [ (mkEnv 20 102, FulfillPrescription 170) ])) 170 170
  = verifyPrescription (mkEnv 20 500) (ledger sample_issued) 170 170.
Proof.
  refine (proj1 (X12_validity_depends_on_time_only sample_issued
                   [ (mkEnv 20 102, FulfillPrescription 170) ] 170 170 _)
                (mkEnv 20 500)).
  vm_compute. reflexivity.
Defined.

(** X13. On the deployed system, after any sequence of transactions, a
    successful Issue followed by [getPrescriptionDetails] of the same hash
    returns exactly what was issued: the sender as doctor, the patient, the
    hash, the locator, the block time as issue time, the expiry date, and
    an empty fulfilment log. *)
Theorem X13_issue_then_details (o d : address) (txs : list (Env * Call))
    (e e' : Env) (p : address) (h : bytes32) (i : string) (x : uint256) :
  let w := run (deploy o d) txs in
  msg_sender e ≠ address0 →
  DoctorRegistry.isVerifiedDoctor (doctorRegistry w) (msg_sender e) = true →
  block_timestamp e < x →
  prescriptionExists (ledger w) h = false →
  let issued_world := (exec w (e, IssuePrescription p h i x)).1 in
  exec issued_world (e', GetPrescriptionDetails h)
  = (issued_world,
     Ok (VDetails (mkDetails (msg_sender e) p h i (block_timestamp e) x []))).
Proof.
  intros w Hs Hv Ht Hfresh. cbn zeta.
  assert (Hempty : fulfillments (record w h) = []).
  { destruct (ledger_wf_run o d txs) as [_ _ _ Hent _].
    destruct (fulfillments (record w h)) as [|f l] eqn:Hl; [done|].
    destruct (Hent h f) as [Hex _]; [fold w; rewrite Hl; left|].
    fold w in Hex. congruence. }
  apply N.ltb_lt in Ht. rewrite exec_issue, Hv, Ht, Hfresh. cbn [negb fst].
  unfold exec, call, getPrescriptionDetails. cbn [fst snd].
  change (mget (prescriptions (ledger (issue_world w e p h i x))) h)
    with (record (issue_world w e p h i x) h).
  rewrite issue_world_record. case_decide; [|done].
  cbn [doctor patient contentHash ipfsHash issuedAt expiryDate fulfillments].
  apply N.eqb_neq in Hs. rewrite Hs, Hempty. reflexivity.
Qed.

Lemma X13_issue_then_details_witness :
  exec sample_issued (mkEnv 30 102, GetPrescriptionDetails 170)
  = (sample_issued, Ok (VDetails (mkDetails 10 30 170 "loc1" 101 1100 []))).
Proof.
  refine (X13_issue_then_details 1 1
            [ (mkEnv 10 100, RegisterDoctor 10 "Dr A" "LIC-1" "GP");
              (mkEnv 20 100, RegisterPharmacy 20 "Pharmacy X");
              (mkEnv 21 100, RegisterPharmacy 21 "Pharmacy Y") ]
            (mkEnv 10 101) (mkEnv 30 102) 30 170 "loc1" 1100 _ _ _ _).
  - vm_compute. lia.
  - vm_compute. reflexivity.
  - vm_compute. reflexivity.
  - vm_compute. reflexivity.
Defined.

(** X14. The check "Pharmacy name not found" of [fulfillPrescription] never
    fires: no transaction, in any world, reverts with it, a verified
    pharmacy being by definition one with a non-empty name. *)
Theorem X14_pharmacy_name_always_found (w : World) (tx : Env * Call) :
  (exec w tx).2 ≠ Revert PharmacyNameNotFound.
Proof.
  destruct tx as [e c]. destruct c; try done.
  - unfold exec, call. cbn [fst snd]. unfold DoctorRegistry.registerDoctor.
    by destruct (negb _).
  - unfold exec, call. cbn [fst snd]. unfold DoctorRegistry.deactivateDoctor.
    destruct (msg_sender e =? _)%N; [|done]. run_call.
    by destruct (DoctorRegistry.isActive _).
  - unfold exec, call. cbn [fst snd]. unfold DoctorRegistry.transferOwnership.
    destruct (msg_sender e =? _)%N; [|done]. run_call. by destruct (negb _).
  - unfold exec, call. cbn [fst snd]. unfold DoctorRegistry.renounceOwnership.
    by destruct (msg_sender e =? _)%N.
  - unfold exec, call. cbn [fst snd]. unfold PharmacyRegistry.registerPharmacy.
    destruct (negb (_ =? _)%N); [|done]. run_call.
    destruct (nonempty _name); [|done]. run_call. by destruct (negb _).
  - unfold exec, call. cbn [fst snd]. unfold PharmacyRegistry.removePharmacy.
    by destruct (nonempty _).
  - rewrite exec_issue.
    destruct (negb (DoctorRegistry.isVerifiedDoctor _ _)); [done|].
    destruct (negb (_ <? _)%N); [done|]. by destruct (prescriptionExists _ _).
  - rewrite exec_fulfill.
    destruct (negb (PharmacyRegistry.isVerifiedPharmacy _ _)); [done|].
    destruct (negb (prescriptionExists _ _)); [done|].
    destruct (negb (_ <=? _)%N); [done|]. by destruct (hasPharmacyFulfilled _ _ _).
  - unfold exec, call, getPrescriptionDetails. cbn [fst snd].
    by destruct (negb _).
Qed.

(** X15. The expiry date of an Issue must lie strictly after the block
    time: for a verified doctor and a fresh content hash, an expiry equal
    to the block time is refused as invalid, changing nothing, and an
    expiry one second later is accepted. *)
Theorem X15_issue_expiry_strict (w : World) (e : Env) (p : address) (h : bytes32)
    (i : string) :
  DoctorRegistry.isVerifiedDoctor (doctorRegistry w) (msg_sender e) = true →
  prescriptionExists (ledger w) h = false →
  exec w (e, IssuePrescription p h i (block_timestamp e))
  = (w, Revert InvalidExpiryDate)
  ∧ (exec w (e, IssuePrescription p h i (block_timestamp e + 1))).2
    = Ok (VBytes32 h).
Proof.
  intros Hv Hfresh. rewrite !exec_issue, Hv, Hfresh. cbn [negb].
  rewrite N.ltb_irrefl.
  assert ((block_timestamp e <? block_timestamp e + 1)%N = true) as ->
    by (apply N.ltb_lt; lia).
  done.
Qed.

Lemma X15_issue_expiry_strict_witness :
  exec sample_registered (mkEnv 10 101, IssuePrescription 30 170 "loc1" 101)
  = (sample_registered, Revert InvalidExpiryDate)
  ∧ (exec sample_registered (mkEnv 10 101, IssuePrescription 30 170 "loc1" 102)).2
    = Ok (VBytes32 170).
Proof.
  refine (X15_issue_expiry_strict sample_registered (mkEnv 10 101) 30 170 "loc1" _ _).
  - vm_compute. reflexivity.
  - vm_compute. reflexivity.
Defined.

(** * Properties of the dashboards and services *)

(** ** Splitting and trimming *)

Lemma split_nonempty sep s : JsString.split sep s ≠ [].
Proof.
  destruct s as [|c s]; cbn; [done|].
  destruct (c =? sep)%N; [done|]. by destruct (JsString.split sep s).
Qed.

Lemma join_split sep s : join sep (JsString.split sep s) = s.
Proof.
  induction s as [|c s IH]; [done|]. cbn [JsString.split].
  destruct (N.eqb_spec c sep) as [->|Hne].
  - pose proof (split_nonempty sep s).
    destruct (JsString.split sep s) as [|p ps] eqn:E; [done|].
    cbn [join app]. cbn [join] in IH. by rewrite IH.
  - destruct (JsString.split sep s) as [|p ps] eqn:E.
    + by destruct (split_nonempty sep s).
    + destruct ps as [|q qs]; cbn [join app] in *; by rewrite IH.
Qed.

Lemma split_without_sep sep s : sep ∉ s → JsString.split sep s = [s].
Proof.
  induction s as [|c s IH]; [done|]. intros Hnot.
  apply not_elem_of_cons in Hnot as [Hne Hnot]. cbn [JsString.split].
  destruct (N.eqb_spec c sep) as [->|_]; [done|]. by rewrite IH.
Qed.

Lemma split_at_sep sep a b :
  sep ∉ a → JsString.split sep (a ++ sep :: b) = a :: JsString.split sep b.
Proof.
  induction a as [|c a IH]; intros Hnot; cbn [app JsString.split].
  - by rewrite N.eqb_refl.
  - apply not_elem_of_cons in Hnot as [Hne Hnot].
    destruct (N.eqb_spec c sep) as [->|_]; [done|]. by rewrite IH.
Qed.

Lemma trimEnd_snoc s c :
  JsString.isWhiteSpace c = false → JsString.trimEnd (s ++ [c]) = s ++ [c].
Proof.
  intros Hc. unfold JsString.trimEnd. rewrite rev_app_distr. cbn.
  rewrite Hc. cbn. by rewrite rev_involutive.
Qed.

Lemma isWhiteSpace_range c :
  JsString.isWhiteSpace c = true → c < 48 ∨ 102 < c.
Proof.
  unfold JsString.isWhiteSpace. cbn [existsb].
  rewrite !orb_true_iff, andb_true_iff, !N.eqb_eq, !N.leb_le. lia.
Qed.

(** ** Hex strings *)

Lemma isHexDigit_range c :
  Ethers.isHexDigit c = true ↔ 48 <= c <= 57 ∨ 65 <= c <= 70 ∨ 97 <= c <= 102.
Proof.
  unfold Ethers.isHexDigit.
  rewrite !orb_true_iff, !andb_true_iff, !N.leb_le. tauto.
Qed.

Lemma isHexDigit_not_space c :
  Ethers.isHexDigit c = true → JsString.isWhiteSpace c = false.
Proof.
  intros Hc. apply isHexDigit_range in Hc.
  destruct (JsString.isWhiteSpace c) eqn:E; [|done].
  apply isWhiteSpace_range in E. lia.
Qed.

Lemma hexDigit_spec d :
  d < 16 →
  Ethers.isHexDigit (Ethers.hexDigit d) = true
  ∧ Ethers.hexDigitValue (Ethers.hexDigit d) = d.
Proof.
  intros Hd. unfold Ethers.hexDigit, Ethers.hexDigitValue.
  destruct (N.ltb_spec d 10).
  - split; [apply isHexDigit_range; lia|].
    assert ((48 <=? 48 + d) && (48 + d <=? 57) = true) as ->; [|lia].
    apply andb_true_iff. rewrite !N.leb_le. lia.
  - split; [apply isHexDigit_range; lia|].
    assert ((48 <=? 87 + d) && (87 + d <=? 57) = false) as ->.
    { apply andb_false_iff. right. apply N.leb_gt. lia. }
    assert ((97 <=? 87 + d) && (87 + d <=? 102) = true) as ->; [|lia].
    apply andb_true_iff. rewrite !N.leb_le. lia.
Qed.

Lemma length_hexDigits k n : length (Ethers.hexDigits k n) = k.
Proof.
  revert n. induction k as [|k IH]; intros n; [done|].
  cbn [Ethers.hexDigits]. rewrite length_app, IH. cbn. lia.
Qed.

Lemma hexDigits_are_hex k n : forallb Ethers.isHexDigit (Ethers.hexDigits k n) = true.
Proof.
  revert n. induction k as [|k IH]; intros n; [done|].
  cbn [Ethers.hexDigits]. rewrite forallb_app, IH. cbn [forallb andb].
  rewrite andb_true_r. apply hexDigit_spec. apply N.mod_lt. lia.
Qed.

Lemma value_of_hexDigits k n acc :
  fold_left (λ acc c, 16 * acc + Ethers.hexDigitValue c) (Ethers.hexDigits k n) acc
  = acc * 16 ^ N.of_nat k + n mod 16 ^ N.of_nat k.
Proof.
  revert n acc. induction k as [|k IH]; intros n acc.
  - cbn. rewrite N.mod_1_r. lia.
  - cbn [Ethers.hexDigits]. rewrite fold_left_app, IH. cbn [fold_left].
    destruct (hexDigit_spec (n mod 16)) as [_ ->]; [apply N.mod_lt; lia|].
    rewrite Nat2N.inj_succ, N.pow_succ_r'.
    rewrite (N.Div0.mod_mul_r n 16 (16 ^ N.of_nat k)). lia.
Qed.

Lemma toValue_hexlify n : n < 2 ^ 256 → Ethers.toValue (Ethers.hexlify 32 n) = n.
Proof.
  intros Hn. unfold Ethers.toValue, Ethers.hexlify.
  change (drop 2 ([48; 120] ++ ?l)) with l.
  rewrite value_of_hexDigits. rewrite N.mod_small; [lia|].
  change (N.of_nat (2 * 32)) with 64. change (16 ^ 64) with (2 ^ 256). done.
Qed.

Lemma isHexString_hexlify n : Ethers.isHexString (Ethers.hexlify 32 n) 32 = true.
Proof.
  unfold Ethers.isHexString, Ethers.hexlify. cbn [app].
  rewrite hexDigits_are_hex. cbn [andb length N.eqb Pos.eqb]. by rewrite length_hexDigits.
Qed.

(** What [isHexString value 32] says about the text. *)
Lemma isHexString_inv value :
  Ethers.isHexString value 32 = true →
  ∃ digits last,
    value = [48; 120] ++ digits ++ [last]
    ∧ forallb Ethers.isHexDigit (digits ++ [last]) = true.
Proof.
  unfold Ethers.isHexString.
  destruct value as [|c0 [|c1 value]]; [done|done|].
  rewrite !andb_true_iff, !N.eqb_eq, Nat.eqb_eq. intros [[[-> ->] Hhex] Hlen].
  cbn [length] in Hlen.
  destruct value as [|last digits _] using rev_ind; [done|].
  by exists digits, last.
Qed.

(** ** The QR payload *)

Lemma hex_string_has_no_bar h : Ethers.isHexString h 32 = true → 124 ∉ h.
Proof.
  intros (digits & last & -> & Hhex)%isHexString_inv.
  rewrite forallb_forall in Hhex.
  intros [Heq|[Heq|Hin]%elem_of_cons]%elem_of_cons; [done|done|].
  apply list_elem_of_In, Hhex, isHexDigit_range in Hin. lia.
Qed.

Lemma trim_payload a b :
  Ethers.isHexString a 32 = true → Ethers.isHexString b 32 = true →
  JsString.trim (a ++ 124 :: b) = a ++ 124 :: b.
Proof.
  intros (da & la & -> & _)%isHexString_inv (db & lb & -> & Hhex)%isHexString_inv.
  unfold JsString.trim. cbn [app JsString.trimStart].
  change (JsString.isWhiteSpace 48) with false. cbn iota.
  assert (Hlast : JsString.isWhiteSpace lb = false).
  { apply isHexDigit_not_space. rewrite forallb_app in Hhex.
    apply andb_true_iff in Hhex as [_ Hl]. cbn in Hl. by rewrite andb_true_r in Hl. }
  replace (48 :: 120 :: (da ++ [la]) ++ 124 :: 48 :: 120 :: db ++ [lb])
    with ((48 :: 120 :: (da ++ [la]) ++ 124 :: 48 :: 120 :: db) ++ [lb]).
  - by apply trimEnd_snoc.
  - cbn [app]. do 2 f_equal. rewrite <- !app_assoc. cbn [app]. done.
Qed.

Lemma checkPayload_spec (qrCodeInput a b : jsstring) :
  PharmacyDashboardUI.checkPayload qrCodeInput = inr (a, b) ↔
  a = b
  ∧ Ethers.isHexString a 32 = true
  ∧ JsString.trim qrCodeInput = PDFService.qrCodeData a a.
Proof.
  unfold PharmacyDashboardUI.checkPayload, PDFService.qrCodeData.
  change (JsString.js "|") with [124]. cbn [app]. split.
  - destruct (JsString.trim qrCodeInput) as [|c t] eqn:Htrim; [done|].
    pose proof (join_split 124 (c :: t)) as Hjoin.
    destruct (JsString.split 124 (c :: t)) as [|p0 [|p1 [|p2 ps]]]; try done.
    destruct (Ethers.isHexString p0 32) eqn:H0; [|done].
    destruct (Ethers.isHexString p1 32) eqn:H1; [|done].
    unfold JsString.eqb. case_bool_decide as Heq; [|done]. cbn [negb].
    intros [= <- <-]. subst p1. cbn [join] in Hjoin. by rewrite Hjoin.
  - intros (<- & Hhex & ->).
    pose proof (hex_string_has_no_bar a Hhex) as Hbar.
    destruct (a ++ 124 :: a) as [|c t] eqn:Hpay; [by destruct a|].
    rewrite <- Hpay, split_at_sep, split_without_sep by done.
    rewrite Hhex. cbn [negb]. unfold JsString.eqb. by rewrite bool_decide_eq_true_2.
Qed.


(** X16. The shape checks of [handleVerify] let a QR text through exactly
    when, once trimmed, it is a 32-byte hex string, a bar, and the very same
    hex string again; the two halves handed on are then that string. *)
Theorem X16_payload_accepted (qrCodeInput a b : jsstring) :
  PharmacyDashboardUI.checkPayload qrCodeInput = inr (a, b) ↔
  a = b
  ∧ Ethers.isHexString a 32 = true
  ∧ JsString.trim qrCodeInput = PDFService.qrCodeData a a.
Proof. apply checkPayload_spec. Qed.

Lemma X16_payload_accepted_witness :
  JsString.trim
    (PDFService.qrCodeData (Ethers.hexlify 32 170) (Ethers.hexlify 32 170))
  = PDFService.qrCodeData (Ethers.hexlify 32 170) (Ethers.hexlify 32 170).
Proof.
  refine (proj2 (proj2 (proj1 (X16_payload_accepted
            (PDFService.qrCodeData (Ethers.hexlify 32 170) (Ethers.hexlify 32 170))
            (Ethers.hexlify 32 170) (Ethers.hexlify 32 170)) _))).
  vm_compute. reflexivity.
Defined.

Lemma hexlify_nonzero n :
  n < 2 ^ 256 → n ≠ 0 → Ethers.hexlify 32 n ≠ Ethers.ZeroHash.
Proof.
  intros Hn Hne Heq. apply (f_equal Ethers.toValue) in Heq.
  unfold Ethers.ZeroHash in Heq. rewrite !toValue_hexlify in Heq; [done|lia|done].
Qed.

Lemma checkPayload_canonical h :
  Ethers.isHexString h 32 = true →
  PharmacyDashboardUI.checkPayload (PDFService.qrCodeData h h) = inr (h, h).
Proof.
  intros Hhex. apply checkPayload_spec. split; [done|]. split; [done|].
  by apply trim_payload.
Qed.

(** X17. The QR text a patient shares for a non-zero content hash [n], which
    is also the text printed in the PDF, passes the shape checks of the
    pharmacy dashboard, and both halves read back as [n]: the pharmacy
    looks up exactly the prescription the patient showed. *)
Theorem X17_shared_qr_round_trip (n : bytes32) :
  n < 2 ^ 256 →
  n ≠ 0 →
  let text := Ethers.hexlify 32 n in
  (∀ prescription : PatientDashboard.Card,
     PatientDashboard.pc_contentHash prescription = text →
     PatientDashboard.handleShareClick prescription
     = Some (PDFService.qrCodeData text text))
  ∧ PharmacyDashboardUI.checkPayload (PDFService.qrCodeData text text)
    = inr (text, text)
  ∧ Ethers.toValue text = n.
Proof.
  intros Hn Hne text. split; [|split].
  - intros prescription Hc. unfold PatientDashboard.handleShareClick. rewrite Hc.
    pose proof (hexlify_nonzero n Hn Hne) as Hnz. fold text in Hnz.
    destruct text as [|c t] eqn:Htext; [done|].
    unfold JsString.eqb. by rewrite bool_decide_eq_false_2.
  - apply checkPayload_canonical, isHexString_hexlify.
  - by apply toValue_hexlify.
Qed.

Lemma X17_shared_qr_round_trip_witness :
  Ethers.toValue (Ethers.hexlify 32 170) = 170.
Proof.
  refine (proj2 (proj2 (X17_shared_qr_round_trip 170 _ _))).
  - vm_compute. reflexivity.
  - lia.
Defined.

(** ** Gateway URLs *)

Lemma takeWhile_all f s : forallb f s = true → IPFSService.takeWhile f s = s.
Proof.
  induction s as [|c s IH]; [done|]. cbn. intros [Hc Hs]%andb_true_iff.
  by rewrite Hc, IH.
Qed.

Lemma takeWhile_prefix f s : ∃ rest, s = IPFSService.takeWhile f s ++ rest.
Proof.
  induction s as [|c s [rest IH]]; [by exists []|]. cbn.
  destruct (f c); [|by exists (c :: s)]. exists rest. cbn. by rewrite <- IH.
Qed.

Lemma takeWhile_forall f s : forallb f (IPFSService.takeWhile f s) = true.
Proof.
  induction s as [|c s IH]; [done|]. cbn. destruct (f c) eqn:Hc; [|done].
  cbn. by rewrite Hc.
Qed.

Lemma stripPrefix_Some p s tail :
  IPFSService.stripPrefix p s = Some tail → s = p ++ tail.
Proof.
  revert s. induction p as [|c p IH]; intros s; cbn; [by intros [= ->]|].
  destruct s as [|c' s]; [done|].
  destruct (N.eqb_spec c c') as [->|]; [|done]. intros H. by rewrite (IH _ H).
Qed.

Lemma extractHashFromUrl_eq c rest :
  IPFSService.extractHashFromUrl (c :: rest)
  = match IPFSService.stripPrefix (JsString.js "/ipfs/") (c :: rest) with
    | Some tail =>
        match IPFSService.takeWhile IPFSService.isAlnum tail with
        | [] => IPFSService.extractHashFromUrl rest
        | hash => Some hash
        end
    | None => IPFSService.extractHashFromUrl rest
    end.
Proof. reflexivity. Qed.

Lemma extractHashFromUrl_skip c rest :
  IPFSService.stripPrefix (JsString.js "/ipfs/") (c :: rest) = None →
  IPFSService.extractHashFromUrl (c :: rest) = IPFSService.extractHashFromUrl rest.
Proof. intros H. by rewrite extractHashFromUrl_eq, H. Qed.

Lemma extractHashFromUrl_match c rest tail :
  IPFSService.stripPrefix (JsString.js "/ipfs/") (c :: rest) = Some tail →
  IPFSService.takeWhile IPFSService.isAlnum tail ≠ [] →
  IPFSService.extractHashFromUrl (c :: rest)
  = Some (IPFSService.takeWhile IPFSService.isAlnum tail).
Proof.
  intros H Hne. rewrite extractHashFromUrl_eq, H.
  by destruct (IPFSService.takeWhile IPFSService.isAlnum tail).
Qed.

(** X18. [extractHashFromUrl] undoes [getGatewayUrl] for every non-empty
    hash made of letters and digits; and whatever it extracts from any URL
    is a non-empty run of letters and digits that follows [/ipfs/] in it. *)
Theorem X18_gateway_url_round_trip :
  (∀ ipfsHash : jsstring,
     ipfsHash ≠ [] →
     forallb IPFSService.isAlnum ipfsHash = true →
     IPFSService.extractHashFromUrl (IPFSService.getGatewayUrl ipfsHash)
     = Some ipfsHash)
  ∧ (∀ url hash : jsstring,
       IPFSService.extractHashFromUrl url = Some hash →
       hash ≠ []
       ∧ forallb IPFSService.isAlnum hash = true
       ∧ ∃ before after, url = before ++ JsString.js "/ipfs/" ++ hash ++ after).
Proof.
  split.
  - intros h Hne Hal. unfold IPFSService.getGatewayUrl.
    destruct h as [|c h]; [done|].
    let literal := eval vm_compute in (JsString.js "https://gateway.pinata.cloud/ipfs/") in
    change (JsString.js "https://gateway.pinata.cloud/ipfs/") with literal.
    cbn [app].
    repeat (rewrite extractHashFromUrl_skip by reflexivity).
    rewrite (extractHashFromUrl_match _ _ (c :: h)) by (rewrite ?takeWhile_all; done).
    by rewrite takeWhile_all.
  - intros url. induction url as [|c url IH]; intros hash; [done|].
    cbn [IPFSService.extractHashFromUrl].
    assert (Hrec : IPFSService.extractHashFromUrl url = Some hash →
                   hash ≠ [] ∧ forallb IPFSService.isAlnum hash = true
                   ∧ ∃ before after,
                       c :: url = before ++ JsString.js "/ipfs/" ++ hash ++ after).
    { intros (Hne & Hal & before & after & ->)%IH. split; [done|]. split; [done|].
      by exists (c :: before), after. }
    destruct (IPFSService.stripPrefix _ (c :: url)) as [tail|] eqn:Hstrip; [|done].
    destruct (IPFSService.takeWhile IPFSService.isAlnum tail) as [|c' run] eqn:Hrun;
      [done|].
    intros [= <-]. split; [done|]. split.
    + rewrite <- Hrun. apply takeWhile_forall.
    + destruct (takeWhile_prefix IPFSService.isAlnum tail) as [after Hafter].
      exists [], after. apply stripPrefix_Some in Hstrip.
      rewrite Hstrip, Hafter at 1. by rewrite Hrun.
Qed.

Lemma X18_gateway_url_round_trip_witness :
  IPFSService.extractHashFromUrl (IPFSService.getGatewayUrl (JsString.js "QmT5NvUtoM5n"))
  = Some (JsString.js "QmT5NvUtoM5n").
Proof.
  refine (proj1 X18_gateway_url_round_trip (JsString.js "QmT5NvUtoM5n") _ _).
  - vm_compute. discriminate.
  - vm_compute. reflexivity.
Defined.

(** ** The pharmacy dashboard against the ledger *)

Lemma hash_is_key_run o d txs : hash_is_key (run (deploy o d) txs).
Proof.
  apply (run_invariant hash_is_key (λ _, True)).
  - apply hash_is_key_deploy.
  - intros w tx Hw _. by apply hash_is_key_exec.
  - by apply Forall_true.
Qed.

(** The addresses in the fulfilment list the dashboard reads back. *)
Lemma details_fulfillment_addresses w id :
  pharmacyAddress <$> fulfillments_ (ContractService.getPrescriptionDetails w id)
  = if prescriptionExists (ledger w) id
    then pharmacyAddress <$> fulfillments (record w id)
    else [].
Proof.
  unfold ContractService.getPrescriptionDetails, getPrescriptionDetails,
    prescriptionExists, record.
  destruct (negb _); [|done]. cbn.
  rewrite <- list_fmap_compose. by apply list_fmap_ext.
Qed.

Lemma existsb_address (a : address) (l : list Fulfillment) :
  existsb (λ f, pharmacyAddress f =? a) l = bool_decide (a ∈ pharmacyAddress <$> l).
Proof.
  induction l as [|f l IH]; [done|]. cbn [existsb fmap list_fmap].
  rewrite IH. destruct (N.eqb_spec (pharmacyAddress f) a) as [<-|Hne]; cbn.
  - symmetry. apply bool_decide_eq_true_2. left.
  - apply bool_decide_ext. rewrite elem_of_cons.
    split; [by right|]. intros [Heq|Hin]; [by subst|done].
Qed.

Lemma hasCurrent_is_flag w account id :
  ledger_wf w →
  existsb (λ f, pharmacyAddress f =? account)
          (fulfillments_ (ContractService.getPrescriptionDetails w id))
  = hasPharmacyFulfilled (ledger w) id account.
Proof.
  intros [_ Hflags _ Hent _].
  rewrite existsb_address, details_fulfillment_addresses.
  destruct (hasPharmacyFulfilled (ledger w) id account) eqn:Hf.
  - apply Hflags in Hf. apply bool_decide_eq_true_2.
    pose proof Hf as Hin. apply list_elem_of_fmap in Hin as (f & _ & Hin).
    destruct (Hent id f Hin) as [-> _]. done.
  - apply bool_decide_eq_false_2. intros Hin.
    destruct (prescriptionExists (ledger w) id); [|by apply elem_of_nil in Hin].
    apply Hflags in Hin. congruence.
Qed.

(** X19. After any sequence of transactions on the deployed system, the
    dashboard's scan of the fulfilment list for the connected account gives
    the answer of the contract's [hasPharmacyFulfilled], for every id. *)
Theorem X19_dashboard_scan_is_contract_flag (o d : address) (txs : list (Env * Call))
    (account : address) (id : bytes32) :
  PharmacyDashboard.hasCurrentPharmacyFulfilled (run (deploy o d) txs) account id
  = hasPharmacyFulfilled (ledger (run (deploy o d) txs)) id account.
Proof. apply hasCurrent_is_flag, ledger_wf_run. Qed.

(** The outcome of [handleVerify] on an accepted payload. *)
Lemma handleVerify_accepted toLocaleString w account h blockTime wallTime :
  hash_is_key w →
  Ethers.isHexString h 32 = true →
  let n := Ethers.toValue h in
  let out := PharmacyDashboardUI.handleVerify toLocaleString w (Some account) true
               (PDFService.qrCodeData h h) blockTime wallTime in
  PharmacyDashboardUI.verdictOf out
  = Some (if negb (prescriptionExists (ledger w) n) then PharmacyDashboard.NotFound
          else if blockTime <=? expiryDate (record w n) then PharmacyDashboard.Valid
          else if negb (JsString.eqb (Ethers.hexlify 32 n) h)
          then PharmacyDashboard.ContentMismatch
          else if expiryDate (record w n) <? wallTime then PharmacyDashboard.Expired
          else PharmacyDashboard.UnknownReason)
  ∧ (PharmacyDashboardUI.statusOf out = PharmacyDashboard.StatusValid ↔
     prescriptionExists (ledger w) n = true
     ∧ blockTime <= expiryDate (record w n)
     ∧ existsb (λ f, pharmacyAddress f =? account)
               (fulfillments_ (ContractService.getPrescriptionDetails w n)) = false).
Proof.
  intros Hkey Hhex n out. subst out.
  unfold PharmacyDashboardUI.handleVerify. cbn [negb].
  rewrite checkPayload_canonical by done. fold n.
  rewrite getPrescriptionDetails_doctor. fold (record w n).
  destruct (prescriptionExists (ledger w) n) eqn:Hex.
  - pose proof Hex as Hd. unfold prescriptionExists in Hd.
    apply negb_true_iff in Hd. fold (record w n) in Hd. rewrite Hd.
    destruct (getPrescriptionDetails_exists w n Hex) as [Hc Hx].
    fold (record w n) in Hc, Hx. rewrite Hc, Hx.
    unfold ContractService.verifyPrescription, verifyPrescription.
    cbn [msg_sender block_timestamp]. fold (record w n).
    rewrite (Hkey n Hex), N.eqb_refl, Hd. cbn [negb andb].
    destruct (N.leb_spec blockTime (expiryDate (record w n))) as [Ht|Ht].
    + cbn [PharmacyDashboardUI.verdictOf PharmacyDashboardUI.statusOf negb].
      split; [done|].
      destruct (existsb _ _); split; try done; intros (_ & _ & ?); done.
    + cbn [PharmacyDashboardUI.verdictOf PharmacyDashboardUI.statusOf negb].
      split; [done|]. split; [done|]. intros (_ & ? & _). lia.
  - pose proof Hex as Hd. unfold prescriptionExists in Hd.
    apply negb_false_iff in Hd. fold (record w n) in Hd. rewrite Hd.
    cbn [PharmacyDashboardUI.verdictOf PharmacyDashboardUI.statusOf negb].
    split; [done|]. split; [done|]. intros (? & _). done.
Qed.

(** X20. After any sequence of transactions on the deployed system, for a
    registered pharmacy presenting an accepted QR text [h|h] for the value
    [n]: the verdict is NotFound when no prescription [n] exists, else Valid
    while the block time is within the expiry date; past it, the verdict is
    ContentMismatch exactly when [h] is not the lower-case text of [n],
    and otherwise Expired or, if the browser's clock has not reached the
    expiry date, UnknownReason.  The status is valid exactly when the
    prescription exists, is within its expiry date and has not been
    fulfilled by the connected account. *)
Theorem X20_verdict_on_accepted_payload (o d : address) (txs : list (Env * Call))
    (toLocaleString : uint256 → string) (account : address) (h : jsstring)
    (blockTime wallTime : uint256) :
  Ethers.isHexString h 32 = true →
  let w := run (deploy o d) txs in
  let n := Ethers.toValue h in
  let out := PharmacyDashboardUI.handleVerify toLocaleString w (Some account) true
               (PDFService.qrCodeData h h) blockTime wallTime in
  PharmacyDashboardUI.verdictOf out
  = Some (if negb (prescriptionExists (ledger w) n) then PharmacyDashboard.NotFound
          else if blockTime <=? expiryDate (record w n) then PharmacyDashboard.Valid
          else if negb (JsString.eqb (Ethers.hexlify 32 n) h)
          then PharmacyDashboard.ContentMismatch
          else if expiryDate (record w n) <? wallTime then PharmacyDashboard.Expired
          else PharmacyDashboard.UnknownReason)
  ∧ (PharmacyDashboardUI.statusOf out = PharmacyDashboard.StatusValid ↔
     prescriptionExists (ledger w) n = true
     ∧ blockTime <= expiryDate (record w n)
     ∧ hasPharmacyFulfilled (ledger w) n account = false).
Proof.
  intros Hhex w n out.
  destruct (handleVerify_accepted toLocaleString w account h blockTime wallTime
              (hash_is_key_run o d txs) Hhex) as [Hv Hs].
  split; [exact Hv|]. subst out n.
  rewrite Hs, (hasCurrent_is_flag w account _ (ledger_wf_run o d txs)). done.
Qed.

Lemma X20_verdict_on_accepted_payload_witness :
  PharmacyDashboardUI.verdictOf
    (PharmacyDashboardUI.handleVerify (λ _, "") sample_issued (Some 20) true
       (PDFService.qrCodeData upper_case_170 upper_case_170) 1101 1101)
  = Some PharmacyDashboard.ContentMismatch.
Proof.
  etrans.
  - refine (proj1 (X20_verdict_on_accepted_payload 1 1
              [ (mkEnv 10 100, RegisterDoctor 10 "Dr A" "LIC-1" "GP");
                (mkEnv 20 100, RegisterPharmacy 20 "Pharmacy X");
                (mkEnv 21 100, RegisterPharmacy 21 "Pharmacy Y");
                (mkEnv 10 101, IssuePrescription 30 170 "loc1" 1100) ]
              (λ _, "") 20 upper_case_170 1101 1101 _)).
    vm_compute. reflexivity.
  - vm_compute. reflexivity.
Defined.

(** ** The verdict of a verification *)

(** The classification, over the record under the id the first text stands
    for. *)
Lemma verdict_cases w account blockTime wallTime c f :
  PharmacyDashboard.verdict w account blockTime wallTime c f
  = if negb (prescriptionExists (ledger w) (Ethers.toValue c))
    then PharmacyDashboard.NotFound
    else if (contentHash (record w (Ethers.toValue c)) =? Ethers.toValue f)
            && (blockTime <=? expiryDate (record w (Ethers.toValue c)))
    then PharmacyDashboard.Valid
    else if negb (JsString.eqb
                    (Ethers.hexlify 32 (contentHash (record w (Ethers.toValue c)))) f)
    then PharmacyDashboard.ContentMismatch
    else if expiryDate (record w (Ethers.toValue c)) <? wallTime
    then PharmacyDashboard.Expired
    else PharmacyDashboard.UnknownReason.
Proof.
  unfold PharmacyDashboard.verdict. set (id := Ethers.toValue c).
  rewrite getPrescriptionDetails_doctor. fold (record w id).
  destruct (prescriptionExists (ledger w) id) eqn:Hex.
  - pose proof Hex as Hd. unfold prescriptionExists in Hd.
    apply negb_true_iff in Hd. fold (record w id) in Hd. rewrite Hd.
    destruct (getPrescriptionDetails_exists w id Hex) as [Hc Hx].
    fold (record w id) in Hc, Hx. rewrite Hc, Hx.
    unfold ContractService.verifyPrescription, verifyPrescription.
    cbn [msg_sender block_timestamp negb]. fold (record w id).
    rewrite Hd. cbn [negb]. by rewrite andb_true_r.
  - pose proof Hex as Hd. unfold prescriptionExists in Hd.
    apply negb_false_iff in Hd. fold (record w id) in Hd. by rewrite Hd.
Qed.

(** Once the shape checks have let a text through, the verdict of the whole
    handler is that classification of its two halves. *)
Lemma handleVerify_verdict toLocaleString w account qrCodeInput blockTime wallTime a b :
  PharmacyDashboardUI.checkPayload qrCodeInput = inr (a, b) →
  PharmacyDashboardUI.verdictOf
    (PharmacyDashboardUI.handleVerify toLocaleString w (Some account) true
       qrCodeInput blockTime wallTime)
  = Some (PharmacyDashboard.verdict w account blockTime wallTime a b).
Proof.
  intros Hpay. unfold PharmacyDashboardUI.handleVerify, PharmacyDashboard.verdict.
  cbn [negb]. rewrite Hpay. cbn zeta.
  destruct (doctor_ _ =? address0); [done|].
  destruct (ContractService.verifyPrescription _ _ _ _ _); [done|].
  cbn [PharmacyDashboardUI.verdictOf]. done.
Qed.

(** The lower-case text of a 32-byte value stands for no other value. *)
Lemma hexlify_eq s n :
  s < 2 ^ 256 → n < 2 ^ 256 →
  JsString.eqb (Ethers.hexlify 32 s) (Ethers.hexlify 32 n) = (s =? n).
Proof.
  intros Hs Hn. unfold JsString.eqb.
  destruct (N.eqb_spec s n) as [->|Hne].
  - by apply bool_decide_eq_true_2.
  - apply bool_decide_eq_false_2. intros Heq. apply Hne.
    apply (f_equal Ethers.toValue) in Heq. by rewrite !toValue_hexlify in Heq.
Qed.

(** C1. Verify(c, f), for a fingerprint [f] presented in the lower-case
    hex text that the issuing side prints and the ledger returns, stored
    hashes being 32-byte values.  The verdict is Valid exactly when a
    prescription with id [c] exists, its stored content hash equals [f] and
    the block time of the call is at most its expiry date, which is exactly
    when the contract's [verifyPrescription] answers true.  Otherwise it is
    NotFound for an absent prescription, else ContentMismatch for a stored
    hash different from [f], else Expired when the browser's clock is past
    the expiry date, and "unknown reason" when the block time is past the
    expiry date but the browser's clock is not.  When the two clocks agree
    this is the cascade of the design document: NotFound, ContentMismatch,
    Expired, Valid, in that order. *)
Theorem C1_verify_verdict (w : World) (account : address)
    (blockTime wallTime : uint256) (c : jsstring) (f : bytes32) :
  let id := Ethers.toValue c in
  let v := PharmacyDashboard.verdict w account blockTime wallTime c
             (Ethers.hexlify 32 f) in
  f < 2 ^ 256 →
  contentHash (record w id) < 2 ^ 256 →
  (v = PharmacyDashboard.Valid ↔
   prescriptionExists (ledger w) id = true
   ∧ contentHash (record w id) = f
   ∧ blockTime <= expiryDate (record w id))
  ∧ (verifyPrescription (mkEnv account blockTime) (ledger w) id f = true ↔
     v = PharmacyDashboard.Valid)
  ∧ v = (if negb (prescriptionExists (ledger w) id) then PharmacyDashboard.NotFound
         else if negb (contentHash (record w id) =? f)
         then PharmacyDashboard.ContentMismatch
         else if blockTime <=? expiryDate (record w id) then PharmacyDashboard.Valid
         else if expiryDate (record w id) <? wallTime then PharmacyDashboard.Expired
         else PharmacyDashboard.UnknownReason)
  ∧ (blockTime = wallTime → v = Verify_spec w blockTime id f).
Proof.
  intros id v Hf Hstored. subst v. rewrite verdict_cases. fold id.
  rewrite toValue_hexlify, hexlify_eq by done.
  unfold Verify_spec, verifyPrescription. cbn [msg_sender block_timestamp].
  fold (record w id). unfold prescriptionExists. fold (record w id).
  destruct (doctor (record w id) =? address0); cbn [negb andb].
  - rewrite andb_false_r. repeat split; try done. intros (? & _). done.
  - rewrite andb_true_r.
    destruct (N.eqb_spec (contentHash (record w id)) f) as [Hh|Hh];
      destruct (N.leb_spec blockTime (expiryDate (record w id))) as [Ht|Ht];
      cbn [negb andb].
    + repeat split; try done. intros <-.
      destruct (N.ltb_spec (expiryDate (record w id)) blockTime); [lia|done].
    + repeat split; try done.
      * destruct (expiryDate (record w id) <? wallTime); done.
      * intros (_ & _ & ?). lia.
      * destruct (expiryDate (record w id) <? wallTime); done.
      * intros <-.
        destruct (N.ltb_spec (expiryDate (record w id)) blockTime); [done|lia].
    + repeat split; try done. intros (_ & ? & _). done.
    + repeat split; try done. intros (_ & ? & _). done.
Qed.

Lemma C1_verify_verdict_witness :
  PharmacyDashboard.verdict sample_issued 20 1101 1101
    (Ethers.hexlify 32 170) (Ethers.hexlify 32 170)
  = Verify_spec sample_issued 1101 (Ethers.toValue (Ethers.hexlify 32 170)) 170.
Proof.
  refine (proj2 (proj2 (proj2 (C1_verify_verdict sample_issued 20 1101 1101
                                 (Ethers.hexlify 32 170) 170 _ _))) _).
  - vm_compute. reflexivity.
  - vm_compute. reflexivity.
  - reflexivity.
Defined.

(** C1 as stated, with one current time and a fingerprint that is a value,
    fails on two inputs the dashboard accepts.  Prescription 170 of
    [sample_issued] expires at 1100.  With the chain's clock at 1101 and
    the browser's at 1100 the verdict is "unknown reason", where the
    cascade says Expired at 1101 and Valid at 1100.  With both clocks at
    1101 and the stored hash written with upper-case digits the verdict is
    ContentMismatch, where the cascade, for the same 32-byte value, says
    Expired. *)
Theorem C1_verdict_outside_the_cascade :
  PharmacyDashboardUI.verdictOf
    (PharmacyDashboardUI.handleVerify (λ _, "") sample_issued (Some 20) true
       (PDFService.qrCodeData (Ethers.hexlify 32 170) (Ethers.hexlify 32 170))
       1101 1100)
  = Some PharmacyDashboard.UnknownReason
  ∧ PharmacyDashboard.verdict sample_issued 20 1101 1100
      (Ethers.hexlify 32 170) (Ethers.hexlify 32 170)
    = PharmacyDashboard.UnknownReason
  ∧ Verify_spec sample_issued 1101 170 170 = PharmacyDashboard.Expired
  ∧ Verify_spec sample_issued 1100 170 170 = PharmacyDashboard.Valid
  ∧ Ethers.isHexString upper_case_170 32 = true
  ∧ Ethers.toValue upper_case_170 = contentHash (record sample_issued 170)
  ∧ PharmacyDashboard.verdict sample_issued 20 1101 1101 upper_case_170 upper_case_170
    = PharmacyDashboard.ContentMismatch
  ∧ PharmacyDashboard.verdict sample_issued 20 1101 1101 upper_case_170 upper_case_170
    ≠ Verify_spec sample_issued 1101 (Ethers.toValue upper_case_170)
        (Ethers.toValue upper_case_170).
Proof.
  repeat split; try (vm_compute; reflexivity). vm_compute. discriminate.
Qed.

(** X21. After any sequence of transactions on the deployed system, the
    handler run on the lower-case QR text of a 32-byte value [n] reaches
    the verdict that follows from the value alone: NotFound, Valid, Expired
    or "unknown reason" by the existence of prescription [n] and the two
    clocks, and never ContentMismatch.  Reading the two halves of the
    payload as the values they encode loses nothing for the texts the
    issuing side produces. *)
Theorem X21_text_and_value_verdicts_agree (o d : address) (txs : list (Env * Call))
    (toLocaleString : uint256 → string) (account : address) (n : bytes32)
    (blockTime wallTime : uint256) :
  n < 2 ^ 256 →
  let w := run (deploy o d) txs in
  let text := Ethers.hexlify 32 n in
  PharmacyDashboardUI.verdictOf
    (PharmacyDashboardUI.handleVerify toLocaleString w (Some account) true
       (PDFService.qrCodeData text text) blockTime wallTime)
  = Some (PharmacyDashboard.verdict w account blockTime wallTime text text)
  ∧ PharmacyDashboard.verdict w account blockTime wallTime text text
    = (if negb (prescriptionExists (ledger w) n) then PharmacyDashboard.NotFound
       else if blockTime <=? expiryDate (record w n) then PharmacyDashboard.Valid
       else if expiryDate (record w n) <? wallTime then PharmacyDashboard.Expired
       else PharmacyDashboard.UnknownReason).
Proof.
  intros Hn w text. split.
  - apply handleVerify_verdict, checkPayload_canonical, isHexString_hexlify.
  - rewrite verdict_cases. subst text w. rewrite toValue_hexlify by done.
    destruct (prescriptionExists _ n) eqn:Hex; [|done]. cbn [negb].
    rewrite (hash_is_key_run o d txs n Hex), N.eqb_refl. cbn [andb].
    unfold JsString.eqb. rewrite bool_decide_eq_true_2 by done. done.
Qed.

Lemma X21_text_and_value_verdicts_agree_witness :
  PharmacyDashboardUI.verdictOf
    (PharmacyDashboardUI.handleVerify (λ _, "") sample_issued (Some 20) true
       (PDFService.qrCodeData (Ethers.hexlify 32 170) (Ethers.hexlify 32 170)) 1101 1101)
  = Some (PharmacyDashboard.verdict sample_issued 20 1101 1101
            (Ethers.hexlify 32 170) (Ethers.hexlify 32 170)).
Proof.
  refine (proj1 (X21_text_and_value_verdicts_agree 1 1
                   [ (mkEnv 10 100, RegisterDoctor 10 "Dr A" "LIC-1" "GP");
                     (mkEnv 20 100, RegisterPharmacy 20 "Pharmacy X");
                     (mkEnv 21 100, RegisterPharmacy 21 "Pharmacy Y");
                     (mkEnv 10 101, IssuePrescription 30 170 "loc1" 1100) ]
                   (λ _, "") 20 170 1101 1101 _)).
  vm_compute. reflexivity.
Defined.

Lemma fulfill_world_flag w e id :
  hasPharmacyFulfilled (ledger (fulfill_world w e id)) id (msg_sender e) = true.
Proof.
  rewrite hasPharmacyFulfilled_record, fulfill_world_record. cbn.
  by rewrite mget_insert_eq.
Qed.

Lemma checkPharmacyStatus_flag w account :
  (PharmacyDashboardUI.checkPharmacyStatus w (Some account)).1
  = PharmacyRegistry.isVerifiedPharmacy (pharmacyRegistry w) account.
Proof.
  unfold PharmacyDashboardUI.checkPharmacyStatus.
  by destruct (PharmacyRegistry.isVerifiedPharmacy _ _).
Qed.

(** X22. After any sequence of transactions on the deployed system, with
    the dashboard's login check, verification and fulfilment all run
    against the same world: when [handleVerify] has shown a prescription as
    valid, [handleFulfillPrescription] sent at a block time within the
    expiry date does not revert and records the fulfilment; and the
    verification it runs again, if still within the expiry date, shows the
    prescription as valid but already fulfilled by this pharmacy, after
    which the dashboard sends no further Fulfill for it. *)
Theorem X22_valid_verification_then_fulfilment (o d : address)
    (txs : list (Env * Call)) (toLocaleString : uint256 → string)
    (account : address) (qrCodeInput : jsstring) (blockTime wallTime : uint256)
    (v : PharmacyDashboard.Verdict) (vp : PharmacyDashboardUI.VerifiedPrescription)
    (txTime blockTime' wallTime' : uint256) :
  let w := run (deploy o d) txs in
  let isPharmacyVerified := (PharmacyDashboardUI.checkPharmacyStatus w (Some account)).1 in
  let id := Ethers.toValue (PharmacyDashboardUI.vp_prescriptionId vp) in
  PharmacyDashboardUI.handleVerify toLocaleString w (Some account) isPharmacyVerified
    qrCodeInput blockTime wallTime
  = PharmacyDashboardUI.Judged PharmacyDashboard.StatusValid v (Some vp) →
  txTime <= expiryDate (record w id) →
  let result :=
    PharmacyDashboardUI.handleFulfillPrescription toLocaleString w (Some account)
      isPharmacyVerified (Some PharmacyDashboard.StatusValid) (Some vp) qrCodeInput
      txTime blockTime' wallTime' in
  result.1 = fulfill_world w (mkEnv account txTime) id
  ∧ hasPharmacyFulfilled (ledger result.1) id account = true
  ∧ (∃ out, result.2 = PharmacyDashboardUI.Fulfilled out)
  ∧ (blockTime' <= expiryDate (record w id) →
     ∃ vp',
       result.2 = PharmacyDashboardUI.Fulfilled
                    (PharmacyDashboardUI.Judged PharmacyDashboard.StatusInvalid
                       PharmacyDashboard.Valid (Some vp'))
       ∧ PharmacyDashboardUI.vp_hasCurrentPharmacyFulfilled vp' = true
       ∧ ∀ t b wl,
           PharmacyDashboardUI.handleFulfillPrescription toLocaleString result.1
             (Some account) isPharmacyVerified (Some PharmacyDashboard.StatusInvalid)
             (Some vp') qrCodeInput t b wl
           = (result.1, PharmacyDashboardUI.FulfillThrew
                          PharmacyDashboardUI.NotVerifiedFirst)).
Proof.
  intros w isPharmacyVerified id Hverify Htx.
  pose proof (ledger_wf_run o d txs) as Hwf. fold w in Hwf.
  (* what the first verification established *)
  subst isPharmacyVerified. rewrite checkPharmacyStatus_flag in *.
  unfold PharmacyDashboardUI.handleVerify in Hverify.
  destruct (PharmacyRegistry.isVerifiedPharmacy (pharmacyRegistry w) account) eqn:Hreg;
    [|done].
  cbn [negb] in Hverify.
  destruct (PharmacyDashboardUI.checkPayload qrCodeInput) as [t|[idS hS]] eqn:Hpay;
    [done|].
  rewrite getPrescriptionDetails_doctor in Hverify.
  destruct (doctor (mget (prescriptions (ledger w)) (Ethers.toValue idS)) =? address0)%N
    eqn:Hd; [done|].
  destruct (ContractService.verifyPrescription w account blockTime
              (Ethers.toValue idS) (Ethers.toValue hS)) eqn:Hvalid; [|done].
  destruct (existsb _ _) eqn:Hcur; [done|].
  injection Hverify as <- <-. subst id. cbn [PharmacyDashboardUI.vp_prescriptionId] in *.
  set (id := Ethers.toValue idS) in *.
  assert (Hex : prescriptionExists (ledger w) id = true)
    by (unfold prescriptionExists; by rewrite Hd).
  rewrite (hasCurrent_is_flag w account id Hwf) in Hcur.
  unfold ContractService.verifyPrescription, verifyPrescription in Hvalid.
  cbn [msg_sender block_timestamp] in Hvalid.
  apply andb_true_iff in Hvalid as [[Hhash _]%andb_true_iff _].
  (* the transaction *)
  cbn zeta.
  unfold PharmacyDashboardUI.handleFulfillPrescription.
  cbn [negb PharmacyDashboardUI.vp_hasCurrentPharmacyFulfilled
       PharmacyDashboardUI.vp_prescriptionId].
  fold id. rewrite exec_fulfill. cbn [msg_sender block_timestamp].
  apply N.leb_le in Htx. unfold record in Htx. rewrite Hreg, Hex, Htx, Hcur.
  cbn [negb fst snd].
  set (w' := fulfill_world w (mkEnv account txTime) id).
  assert (Hflag : hasPharmacyFulfilled (ledger w') id account = true)
    by apply (fulfill_world_flag w (mkEnv account txTime) id).
  split; [done|]. split; [done|]. split; [by eexists|].
  (* the verification run again *)
  intros Hb. apply N.leb_le in Hb.
  assert (Hwf' : ledger_wf w').
  { apply ledger_wf_fulfill; try done. by apply N.leb_le. }
  assert (Hrec : record w' id = _) by apply fulfill_world_record.
  cbn zeta in Hrec.
  unfold PharmacyDashboardUI.handleVerify. cbn [negb]. rewrite Hpay. fold id.
  rewrite getPrescriptionDetails_doctor. fold (record w' id). rewrite Hrec.
  cbn [doctor]. fold (record w id) in Hd. rewrite Hd.
  unfold ContractService.verifyPrescription, verifyPrescription.
  cbn [msg_sender block_timestamp]. fold (record w' id). rewrite Hrec.
  cbn [contentHash doctor expiryDate].
  fold (record w id) in Hhash. rewrite Hhash, Hd, Hb. cbn [negb andb].
  rewrite (hasCurrent_is_flag w' account id Hwf'), Hflag.
  eexists. split; [reflexivity|]. split; [reflexivity|].
  intros t b wl. reflexivity.
Qed.

Lemma X22_valid_verification_then_fulfilment_witness :
  (PharmacyDashboardUI.handleFulfillPrescription (λ _, "") sample_issued (Some 20)
     (PharmacyDashboardUI.checkPharmacyStatus sample_issued (Some 20)).1
     (Some PharmacyDashboard.StatusValid) (Some sample_verified)
     (PDFService.qrCodeData (Ethers.hexlify 32 170) (Ethers.hexlify 32 170))
     103 104 104).1
  = fulfill_world sample_issued (mkEnv 20 103)
      (Ethers.toValue (PharmacyDashboardUI.vp_prescriptionId sample_verified)).
Proof.
  refine (proj1 (X22_valid_verification_then_fulfilment 1 1
            [ (mkEnv 10 100, RegisterDoctor 10 "Dr A" "LIC-1" "GP");
              (mkEnv 20 100, RegisterPharmacy 20 "Pharmacy X");
              (mkEnv 21 100, RegisterPharmacy 21 "Pharmacy Y");
              (mkEnv 10 101, IssuePrescription 30 170 "loc1" 1100) ]
            (λ _, "") 20
            (PDFService.qrCodeData (Ethers.hexlify 32 170) (Ethers.hexlify 32 170))
            102 102 PharmacyDashboard.Valid sample_verified 103 104 104 _ _)).
  - vm_compute. reflexivity.
  - vm_compute. discriminate.
Defined.

(** ** The patient dashboard *)

Lemma pages_concat {A} (l : list A) (k : nat) :
  concat (map (PatientDashboard.currentPrescriptions l) (seq 1 k))
  = take (k * PatientDashboard.prescriptionsPerPage) l.
Proof.
  induction k as [|k IH]; [done|].
  rewrite seq_S, map_app, concat_app, IH. cbn [map concat Nat.add].
  rewrite app_nil_r. unfold PatientDashboard.currentPrescriptions.
  replace (S k - 1)%nat with k by lia.
  replace (S k * PatientDashboard.prescriptionsPerPage)%nat
    with (k * PatientDashboard.prescriptionsPerPage
          + PatientDashboard.prescriptionsPerPage)%nat by lia.
  by rewrite take_take_drop.
Qed.

(** X23. The pages of the patient dashboard split the list of cards: the
    pages [1] to [totalPages], one after the other, give back the whole
    list in order; each of these pages shows at least one and at most six
    cards; and [handlePageChange] never leaves that range. *)
Theorem X23_pages_partition {A} (patientPrescriptions : list A) :
  let total := PatientDashboard.totalPages (length patientPrescriptions) in
  concat (map (PatientDashboard.currentPrescriptions patientPrescriptions) (seq 1 total))
  = patientPrescriptions
  ∧ (∀ page : nat,
       (1 <= page <= total)%nat →
       PatientDashboard.currentPrescriptions patientPrescriptions page ≠ []
       ∧ (length (PatientDashboard.currentPrescriptions patientPrescriptions page)
          <= 6)%nat)
  ∧ (∀ currentPage newPage : nat,
       (1 <= currentPage <= total)%nat →
       (1 <= PatientDashboard.handlePageChange (length patientPrescriptions)
               currentPage newPage <= total)%nat).
Proof.
  intros total. subst total. unfold PatientDashboard.totalPages.
  change PatientDashboard.prescriptionsPerPage with 6%nat.
  change (6 - 1)%nat with 5%nat.
  set (n := length patientPrescriptions).
  split; [|split].
  - rewrite pages_concat. change PatientDashboard.prescriptionsPerPage with 6%nat.
    apply take_ge. fold n.
    pose proof (Nat.div_mod_eq (n + 5) 6).
    pose proof (Nat.mod_upper_bound (n + 5) 6). lia.
  - intros page Hpage. unfold PatientDashboard.currentPrescriptions.
    change PatientDashboard.prescriptionsPerPage with 6%nat.
    pose proof (Nat.div_mod_eq (n + 5) 6).
    pose proof (Nat.mod_upper_bound (n + 5) 6).
    split.
    + intros Hnil. apply (f_equal length) in Hnil.
      rewrite length_take, length_drop in Hnil. fold n in Hnil. cbn [length] in Hnil. lia.
    + rewrite length_take. lia.
  - intros currentPage newPage Hcur. unfold PatientDashboard.handlePageChange.
    unfold PatientDashboard.totalPages.
    change PatientDashboard.prescriptionsPerPage with 6%nat.
    change (6 - 1)%nat with 5%nat. fold n.
    destruct (Nat.leb_spec 1 newPage); cbn [andb]; [|done].
    destruct (Nat.leb_spec newPage ((n + 5) / 6)); lia.
Qed.

Lemma X23_pages_partition_witness :
  PatientDashboard.currentPrescriptions [1; 2; 3; 4; 5; 6; 7; 8] 2%nat ≠ [].
Proof.
  refine (proj1 (proj1 (proj2 (X23_pages_partition [1; 2; 3; 4; 5; 6; 7; 8])) 2%nat _)).
  vm_compute. lia.
Defined.

Lemma index_consistent_run o d txs :
  Forall from_account txs → index_consistent (run (deploy o d) txs).
Proof.
  intros Hok. apply (run_invariant index_consistent from_account).
  - apply index_consistent_deploy.
  - intros w tx. apply index_consistent_exec.
  - done.
Qed.

Lemma details_of_existing w id :
  prescriptionExists (ledger w) id = true →
  let details := ContractService.getPrescriptionDetails w id in
  doctor_ details = doctor (record w id)
  ∧ patient_ details = patient (record w id)
  ∧ contentHash_ details = contentHash (record w id)
  ∧ ipfsHash_ details = ipfsHash (record w id)
  ∧ issuedAt_ details = issuedAt (record w id)
  ∧ expiryDate_ details = expiryDate (record w id).
Proof.
  unfold prescriptionExists, ContractService.getPrescriptionDetails,
    getPrescriptionDetails, record.
  intros ->. by repeat split.
Qed.

(** X24. After any sequence of transactions sent by accounts to the
    deployed system, the patient dashboard shows the connected patient one
    card per id issued to that address, oldest first, leaving out only the
    zero hash; each card shows that address as patient, a non-zero doctor,
    the id itself as content hash and prescription id, the locator that
    was issued, and is marked fulfilled exactly when some pharmacy has
    fulfilled the prescription. *)
Theorem X24_patient_cards (o d : address) (txs : list (Env * Call))
    (toLocaleDateString : uint256 → string) (patientAddress : address) :
  Forall from_account txs →
  let w := run (deploy o d) txs in
  PatientDashboard.fetchPatientPrescriptions toLocaleDateString w (Some patientAddress)
  = map (PatientDashboard.card toLocaleDateString w)
        (List.filter (λ id, negb (id =? 0)) (issuedTo w patientAddress))
  ∧ ∀ id : bytes32,
      id ∈ getPatientPrescriptionIds (ledger w) patientAddress →
      let shown := PatientDashboard.card toLocaleDateString w id in
      PatientDashboard.pc_patient shown = patientAddress
      ∧ PatientDashboard.pc_doctor shown ≠ address0
      ∧ PatientDashboard.pc_contentHash shown = Ethers.hexlify 32 id
      ∧ PatientDashboard.pc_prescriptionId shown = Ethers.hexlify 32 id
      ∧ PatientDashboard.pc_ipfsHash shown = ipfsHash (record w id)
      ∧ (PatientDashboard.pc_isFulfilled shown = true ↔
         ∃ pharmacy, hasPharmacyFulfilled (ledger w) id pharmacy = true).
Proof.
  intros Hok w.
  destruct (index_consistent_run o d txs Hok) as [Hpat _ Hiss _ _]. fold w in Hpat, Hiss.
  pose proof (hash_is_key_run o d txs) as Hkey. fold w in Hkey.
  destruct (ledger_wf_run o d txs) as [_ Hflags _ Hent _]. fold w in Hflags, Hent.
  split.
  { unfold PatientDashboard.fetchPatientPrescriptions. by rewrite Hpat. }
  intros id Hin shown. rewrite Hpat in Hin.
  apply elem_of_issuedTo in Hin as (doc & Hin).
  destruct (Hiss _ _ _ Hin) as (Hdoc & Hd & Hp).
  assert (Hex : prescriptionExists (ledger w) id = true).
  { apply prescriptionExists_true. unfold record in Hd. by rewrite Hd. }
  destruct (details_of_existing w id Hex) as (Ed & Ep & Ec & Ei & _ & _).
  subst shown. unfold PatientDashboard.card.
  cbn [PatientDashboard.pc_patient PatientDashboard.pc_doctor
       PatientDashboard.pc_contentHash PatientDashboard.pc_prescriptionId
       PatientDashboard.pc_ipfsHash PatientDashboard.pc_isFulfilled].
  rewrite Ed, Ep, Ec, Ei, (Hkey id Hex), Hd, Hp.
  repeat split; try done.
  - intros Hshown.
    pose proof (details_fulfillment_addresses w id) as Haddr. rewrite Hex in Haddr.
    destruct (fulfillments_ (ContractService.getPrescriptionDetails w id))
      as [|f l]; [done|].
    exists (pharmacyAddress f). apply Hflags. rewrite <- Haddr. left.
  - intros (pharmacy & Hf). apply Hflags in Hf.
    pose proof (details_fulfillment_addresses w id) as Haddr. rewrite Hex in Haddr.
    rewrite <- Haddr in Hf.
    destruct (fulfillments_ (ContractService.getPrescriptionDetails w id));
      [by apply elem_of_nil in Hf|done].
Qed.

Lemma X24_patient_cards_witness :
  PatientDashboard.pc_patient
    (PatientDashboard.card (λ _, "") (run (deploy 1 1) sample_trace) 172) = 30.
Proof.
  refine (proj1 (proj2 (X24_patient_cards 1 1 sample_trace (λ _, "") 30 _) 172 _)).
  - unfold sample_trace, from_account.
    repeat (constructor; [vm_compute; lia|]). constructor.
  - vm_compute. right. left.
Defined.

(** ** Roles *)

(** X25. An account to which a prescription has been issued is shown by the
    application as doctor, pharmacist or patient, and never again as
    unknown, whatever transactions follow: as patient whenever it is
    neither a verified doctor nor a verified pharmacy. *)
Theorem X25_patient_role_is_permanent (w : World) (e : Env) (account : address)
    (h : bytes32) (i : string) (x : uint256) (txs : list (Env * Call)) :
  (exec w (e, IssuePrescription account h i x)).2 = Ok (VBytes32 h) →
  let later := run (exec w (e, IssuePrescription account h i x)).1 txs in
  App.determineRole later (Some account) ≠ App.Unknown
  ∧ App.determineRole later (Some account) ≠ App.Unconnected
  ∧ (DoctorRegistry.isVerifiedDoctor (doctorRegistry later) account = false →
     PharmacyRegistry.isVerifiedPharmacy (pharmacyRegistry later) account = false →
     App.determineRole later (Some account) = App.Patient).
Proof.
  intros Hok later.
  assert (Hids : getPatientPrescriptionIds (ledger later) account ≠ []).
  { destruct (grows_run (exec w (e, IssuePrescription account h i x)).1 txs)
      as [_ _ _ Hp _].
    specialize (Hp account). fold later in Hp. destruct Hp as [k Hk].
    rewrite Hk. revert Hok. rewrite exec_issue.
    destruct (negb (DoctorRegistry.isVerifiedDoctor _ _)); [done|].
    destruct (negb (_ <? _)%N); [done|].
    destruct (prescriptionExists _ _); [done|]. intros _. cbn [fst].
    unfold getPatientPrescriptionIds, issue_world, issue_post. cbn.
    rewrite mget_insert_eq.
    by destruct (mget (patientPrescriptions (ledger w)) account). }
  unfold App.determineRole.
  destruct (DoctorRegistry.isVerifiedDoctor _ _); [by repeat split|].
  destruct (PharmacyRegistry.isVerifiedPharmacy _ _); [by repeat split|].
  destruct (getPatientPrescriptionIds (ledger later) account); [done|].
  by repeat split.
Qed.

Lemma X25_patient_role_is_permanent_witness :
  App.determineRole
    (run (exec sample_registered (mkEnv 10 101, IssuePrescription 30 170 "loc1" 1100)).1
         [ (mkEnv 20 102, FulfillPrescription 170) ])
    (Some 30) ≠ App.Unknown.
Proof.
  refine (proj1 (X25_patient_role_is_permanent sample_registered (mkEnv 10 101) 30 170
                   "loc1" 1100 [ (mkEnv 20 102, FulfillPrescription 170) ] _)).
  vm_compute. reflexivity.
Defined.

(** ** Deactivation and re-registration *)

(** X26. [registerDoctor] refuses an address whose profile is active and
    changes nothing; but a deactivation by the owner can be undone by
    anyone: once an active doctor has been deactivated, [registerDoctor]
    for that address succeeds from any sender, replaces the profile by the
    given one, registered at the new block time, makes the address a
    verified doctor again and leaves the ledger as it is, so that the
    address issues again. *)
Theorem X26_deactivation_undone_by_anyone (w : World) (e e' : Env) (a : address)
    (n l sp : string) :
  msg_sender e = DoctorRegistry.owner (doctorRegistry w) →
  DoctorRegistry.isActive (DoctorRegistry.getDoctorDetails (doctorRegistry w) a) = true →
  exec w (e', RegisterDoctor a n l sp) = (w, Revert DoctorAlreadyActive)
  ∧ let deactivated := (exec w (e, DeactivateDoctor a)).1 in
    let again := exec deactivated (e', RegisterDoctor a n l sp) in
    again.2 = Ok VUnit
    ∧ DoctorRegistry.isVerifiedDoctor (doctorRegistry again.1) a = true
    ∧ DoctorRegistry.getDoctorDetails (doctorRegistry again.1) a
      = DoctorRegistry.mkDoctor n l sp true (block_timestamp e')
    ∧ ledger again.1 = ledger w
    ∧ ∀ (t : uint256) (p : address) (h : bytes32) (i : string) (x : uint256),
        t < x →
        prescriptionExists (ledger w) h = false →
        (exec again.1 (mkEnv a t, IssuePrescription p h i x)).2 = Ok (VBytes32 h).
Proof.
  unfold DoctorRegistry.getDoctorDetails. intros Heq Hact. split.
  - unfold exec, call. cbn [fst snd]. unfold DoctorRegistry.registerDoctor.
    by rewrite Hact.
  - cbn zeta. rewrite exec_deactivateDoctor_ok by done. cbn [fst snd].
    set (deactivated := with_doctors _ _ _).
    assert (Hoff : DoctorRegistry.isActive
                     (mget (DoctorRegistry.doctors (doctorRegistry deactivated)) a)
                   = false).
    { unfold deactivated, with_doctors. cbn [doctorRegistry DoctorRegistry.doctors].
      by rewrite mget_insert_eq. }
    rewrite exec_registerDoctor by done. cbn [fst snd].
    set (again := mkWorld _ _ _ _).
    assert (Hv : DoctorRegistry.isVerifiedDoctor (doctorRegistry again) a = true).
    { unfold DoctorRegistry.isVerifiedDoctor, again.
      cbn [doctorRegistry DoctorRegistry.verified]. by rewrite mget_insert_eq. }
    split; [done|]. split; [done|]. split.
    { unfold again. cbn [doctorRegistry DoctorRegistry.doctors].
      by rewrite mget_insert_eq. }
    split; [done|].
    intros t p h i x Ht Hfresh. rewrite exec_issue. cbn [msg_sender block_timestamp].
    rewrite Hv. cbn [negb]. change (ledger again) with (ledger w).
    apply N.ltb_lt in Ht. by rewrite Ht, Hfresh.
Qed.

Lemma X26_deactivation_undone_by_anyone_witness :
  exec sample_issued (mkEnv 40 120, RegisterDoctor 10 "Dr A" "LIC-1" "GP")
  = (sample_issued, Revert DoctorAlreadyActive).
Proof.
  refine (proj1 (X26_deactivation_undone_by_anyone sample_issued (mkEnv 1 110)
                   (mkEnv 40 120) 10 "Dr A" "LIC-1" "GP" _ _)).
  - vm_compute. reflexivity.
  - vm_compute. reflexivity.
Defined.
